(** * eto-mcp: conversational tour search, slot filling and mock backend

    A shallow embedding of the parts of the repository that decide the
    behaviour of the dialogue core:

    - [nlu/parseQuery.ts]   : lexical extractors (country, nights, budget,
                              meal, month, commands, small talk)
    - [orchestrator.ts]     : draft building and missing-slot computation
    - [bot.ts]              : per-chat state, resets, stale-search guard,
                              the text handler in the order of its branches
                              as far as the replies to slot questions,
                              budget clarification, "want" de-duplication
    - [favorites.ts]        : the store of saved tours and collections
    - [mockSearch.ts]       : the synthetic search backend

    JavaScript strings are lists of UTF-16 code units ([list Z]); the regular
    expressions of the source are values of a small backtracking matcher that
    follows the ECMAScript matching order (leftmost start, greedy
    quantifiers, ordered alternatives, capture groups, look-ahead, [\b]).
    Numbers that the code only ever produces as integers (money, nights,
    timestamps, sequence numbers) are [Z]; the places where the source
    multiplies by 0.9, 1.1 or 1.2 and rounds are written as the exact integer
    computation, which agrees with the double arithmetic of the source for
    every amount below 2^40. *)

From stdpp Require Import gmap strings list pretty.
From Stdlib Require Import ZArith QArith Qround Lia Lqa Ascii String Sorted Permutation.

Abbreviation length := List.length.

Local Open Scope Z_scope.
Local Open Scope list_scope.

(* ===================================================================== *)
(** ** JavaScript strings *)
(* ===================================================================== *)

Module Js.

(** A string is the list of its UTF-16 code units. *)
Definition str := list Z.

(** The source files are UTF-8; [u] reads a literal of this file the way the
    TypeScript compiler reads a literal of the source. *)
Fixpoint u (s : string) : str :=
  match s with
  | EmptyString => []
  | String a s1 =>
    let b0 := Z.of_N (N_of_ascii a) in
    if b0 <? 128 then b0 :: u s1
    else match s1 with
    | EmptyString => []
    | String b s2 =>
      let b1 := Z.land (Z.of_N (N_of_ascii b)) 63 in
      if b0 <? 224 then (Z.land b0 31 * 64 + b1) :: u s2
      else match s2 with
      | EmptyString => []
      | String c s3 =>
        let b2 := Z.land (Z.of_N (N_of_ascii c)) 63 in
        if b0 <? 240 then (Z.land b0 15 * 4096 + b1 * 64 + b2) :: u s3
        else match s3 with
        | EmptyString => []
        | String d s4 =>
          let b3 := Z.land (Z.of_N (N_of_ascii d)) 63 in
          let cp := Z.land b0 7 * 262144 + b1 * 4096 + b2 * 64 + b3 - 65536 in
          (55296 + cp / 1024) :: (56320 + cp mod 1024) :: u s4
        end
      end
    end
  end.

Definition in_range (lo hi c : Z) : bool := (lo <=? c) && (c <=? hi).

(** [String.prototype.toLowerCase] on a code unit that lowers to one code
    unit. Besides the Latin and the Cyrillic capitals, the Kelvin sign
    (U+212A) lowers to "k". Letters of other scripts are left as they are:
    JavaScript maps them to letters that are outside the alphabet of the
    program's patterns (ASCII and the Russian letters) just as they are. *)
Definition lower_char (c : Z) : Z :=
  if in_range 65 90 c then c + 32
  else if in_range 1040 1071 c then c + 32
  else if in_range 1024 1039 c then c + 80
  else if c =? 8490 then 107
  else c.

(** The capital I with a dot (U+0130) lowers to "i" and a combining dot. *)
Definition lower_units (c : Z) : list Z :=
  if c =? 304 then [105; 775] else [lower_char c].

(** What the [i] flag of a regular expression without the [u] flag compares
    (Canonicalize): the upper-case form when it is one code unit, except that
    a code unit outside ASCII never becomes an ASCII one. Seven letters of the
    block Cyrillic Extended-C have a Russian capital as their upper case. *)
Definition canonicalize (c : Z) : Z :=
  if in_range 97 122 c then c - 32
  else if in_range 1072 1103 c then c - 32
  else if in_range 1104 1119 c then c - 80
  else if c =? 7296 then 1042
  else if c =? 7297 then 1044
  else if c =? 7298 then 1054
  else if c =? 7299 then 1057
  else if (c =? 7300) || (c =? 7301) then 1058
  else if c =? 7302 then 1066
  else c.

(** [String.prototype.toUpperCase] on a code unit that becomes one code
    unit: as above, and the dotless i and the long s become "I" and "S". *)
Definition upper_char (c : Z) : Z :=
  if c =? 305 then 73
  else if c =? 383 then 83
  else canonicalize c.

(** The code units whose upper case is longer and holds an ASCII letter:
    the sharp s, the n with apostrophe, the j with caron, five letters of
    Latin Extended Additional and the ligatures U+FB00 to U+FB06. *)
Definition upper_units (c : Z) : list Z :=
  if c =? 223 then [83; 83]
  else if c =? 329 then [700; 78]
  else if c =? 496 then [74; 780]
  else if c =? 7830 then [72; 817]
  else if c =? 7831 then [84; 776]
  else if c =? 7832 then [87; 778]
  else if c =? 7833 then [89; 778]
  else if c =? 7834 then [65; 702]
  else if c =? 64256 then [70; 70]
  else if c =? 64257 then [70; 73]
  else if c =? 64258 then [70; 76]
  else if c =? 64259 then [70; 70; 73]
  else if c =? 64260 then [70; 70; 76]
  else if (c =? 64261) || (c =? 64262) then [83; 84]
  else [upper_char c].

Definition toLowerCase (s : str) : str := flat_map lower_units s.
Definition toUpperCase (s : str) : str := flat_map upper_units s.

(** White space and line terminators: the class [\s], also what [trim]
    removes. *)
Definition is_space (c : Z) : bool :=
  in_range 9 13 c || (c =? 32) || (c =? 160) || (c =? 5760) ||
  in_range 8192 8202 c || (c =? 8232) || (c =? 8233) || (c =? 8239) ||
  (c =? 8287) || (c =? 12288) || (c =? 65279).

Definition is_digit (c : Z) : bool := in_range 48 57 c.

(** The class [\w], which is ASCII only: a Cyrillic letter is not a word
    character, and this decides where [\b] holds. *)
Definition is_word (c : Z) : bool :=
  in_range 97 122 c || in_range 65 90 c || is_digit c || (c =? 95).

Fixpoint trimStart (s : str) : str :=
  match s with
  | c :: s' => if is_space c then trimStart s' else s
  | [] => []
  end.

Definition trim (s : str) : str := rev (trimStart (rev (trimStart s))).

Fixpoint str_eqb (a b : str) : bool :=
  match a, b with
  | [], [] => true
  | x :: a', y :: b' => (x =? y) && str_eqb a' b'
  | _, _ => false
  end.

Fixpoint startsWith (p s : str) : bool :=
  match p, s with
  | [], _ => true
  | x :: p', y :: s' => (x =? y) && startsWith p' s'
  | _ :: _, [] => false
  end.

Fixpoint includes (s p : str) : bool :=
  startsWith p s ||
  match s with
  | [] => false
  | _ :: s' => includes s' p
  end.

(** A JavaScript number that is not known to be an integer: a finite value
    or one of the three non-finite ones. *)
Inductive num := Fin (q : Q) | NaN | Inf | NegInf.

Definition isFinite (n : num) : bool :=
  match n with Fin _ => true | _ => false end.

Definition Qltb (a b : Q) : bool := negb (Qle_bool b a).

(** [n > 0] and [n <= 0]; both are false of [NaN]. *)
Definition gt0 (n : num) : bool :=
  match n with Fin q => Qltb 0 q | Inf => true | _ => false end.

Definition le0 (n : num) : bool :=
  match n with Fin q => Qle_bool q 0 | NegInf => true | _ => false end.

Definition of_Z (z : Z) : num := Fin (inject_Z z).

(** [Math.min] and [Math.max] of two finite numbers. *)
Definition qmin (a b : Q) : Q := if Qle_bool a b then a else b.
Definition qmax (a b : Q) : Q := if Qle_bool a b then b else a.

(** [Number(digits)] for a string of decimal digits. *)
Definition digits_value (s : str) : Z :=
  fold_left (fun acc c => acc * 10 + (c - 48)) s 0.

End Js.

(* ===================================================================== *)
(** ** Regular expressions *)
(* ===================================================================== *)

Module Re.

Inductive re : Type :=
| Eps                                  (* empty pattern *)
| Chr (p : Z -> bool)                  (* one code unit in a class *)
| Seq (a b : re)
| Alt (a b : re)                       (* a|b, a tried first *)
| Star (a : re)                        (* a*, greedy *)
| Rep (lo extra : nat) (a : re)        (* a{lo,lo+extra}, greedy *)
| Grp (n : nat) (a : re)               (* capture group number n *)
| Bol                                  (* ^ *)
| Eol                                  (* $ *)
| Wb                                   (* \b *)
| Ahead (a : re)                       (* (?=a) *)
| NotAhead (a : re).                   (* (?!a) *)

Definition caps := list (nat * Js.str).

Fixpoint cap (n : nat) (c : caps) : option Js.str :=
  match c with
  | [] => None
  | (m, s) :: c' => if Nat.eqb n m then Some s else cap n c'
  end.

(** A position is the code unit before it (if any) and the text after it. *)
Definition cont := option Z -> Js.str -> caps -> option (Js.str * caps).

Definition word_before (prev : option Z) : bool :=
  match prev with Some c => Js.is_word c | None => false end.

Definition word_after (s : Js.str) : bool :=
  match s with c :: _ => Js.is_word c | [] => false end.

(** The backtracking matcher, in continuation-passing style: [k] is what
    remains to be matched after [r]; failure of [k] makes [r] try its next
    alternative. An iteration of [Star] that consumes nothing is rejected, as
    in ECMAScript's RepeatMatcher. *)
Fixpoint run (r : re) (prev : option Z) (s : Js.str) (c : caps) (k : cont)
  : option (Js.str * caps) :=
  match r with
  | Eps => k prev s c
  | Chr p =>
    match s with
    | x :: s' => if p x then k (Some x) s' c else None
    | [] => None
    end
  | Seq a b => run a prev s c (fun prev' s' c' => run b prev' s' c' k)
  | Alt a b =>
    match run a prev s c k with
    | Some x => Some x
    | None => run b prev s c k
    end
  | Star a =>
    (fix loop (fuel : nat) (prev : option Z) (s : Js.str) (c : caps) :=
       match fuel with
       | O => k prev s c
       | S fuel' =>
         match run a prev s c (fun prev' s' c' =>
                 if (length s' <? length s)%nat then loop fuel' prev' s' c'
                 else None) with
         | Some x => Some x
         | None => k prev s c
         end
       end) (S (length s)) prev s c
  | Rep lo extra a =>
    (fix req (n : nat) (prev : option Z) (s : Js.str) (c : caps) :=
       match n with
       | S n' => run a prev s c (req n')
       | O =>
         (fix more (m : nat) (prev : option Z) (s : Js.str) (c : caps) :=
            match m with
            | O => k prev s c
            | S m' =>
              match run a prev s c (more m') with
              | Some x => Some x
              | None => k prev s c
              end
            end) extra prev s c
       end) lo prev s c
  | Grp n a =>
    run a prev s c (fun prev' s' c' =>
      k prev' s' ((n, firstn (length s - length s') s) :: c'))
  | Bol => match prev with None => k prev s c | Some _ => None end
  | Eol => match s with [] => k prev s c | _ :: _ => None end
  | Wb => if xorb (word_before prev) (word_after s) then k prev s c else None
  | Ahead a =>
    match run a prev s c (fun _ s' c' => Some (s', c')) with
    | Some (_, c') => k prev s c'
    | None => None
    end
  | NotAhead a =>
    match run a prev s c (fun _ s' c' => Some (s', c')) with
    | Some _ => None
    | None => k prev s c
    end
  end.

Definition accept : cont := fun _ s c => Some (s, c).

(** [match_at r prev s]: a match of [r] that starts exactly here; the result
    is the text after the match and the captures. *)
Definition match_at (r : re) (prev : option Z) (s : Js.str) :=
  run r prev s [] accept.

(** [exec r s]: the leftmost match, as [String.prototype.match] without the
    [g] flag finds it. The captures are returned; group 0 is the whole
    match. *)
Fixpoint exec_from (r : re) (prev : option Z) (s : Js.str) : option caps :=
  match match_at r prev s with
  | Some (s', c) => Some ((O, firstn (length s - length s') s) :: c)
  | None =>
    match s with
    | [] => None
    | x :: s' => exec_from r (Some x) s'
    end
  end.

Definition exec (r : re) (s : Js.str) : option caps := exec_from r None s.

Definition test (r : re) (s : Js.str) : bool :=
  match exec r s with Some _ => true | None => false end.

(** [s.replace(/r/g, by)] for a pattern that never matches the empty
    string. *)
Fixpoint replace_loop (fuel : nat) (r : re) (by_ : Js.str) (prev : option Z)
  (s : Js.str) : Js.str :=
  match fuel with
  | O => s
  | S fuel' =>
    match s with
    | [] => []
    | x :: s' =>
      match match_at r prev s with
      | Some (rest, _) =>
        if (length rest <? length s)%nat
        then by_ ++ replace_loop fuel' r by_ (last (firstn (length s - length rest) s)) rest
        else x :: replace_loop fuel' r by_ (Some x) s'
      | None => x :: replace_loop fuel' r by_ (Some x) s'
      end
    end
  end.

Definition replace_all (r : re) (by_ : Js.str) (s : Js.str) : Js.str :=
  replace_loop (S (length s)) r by_ None s.

(** *** Pattern builders *)

Definition chr (c : Z) : re := Chr (fun x => x =? c).
(** A literal code unit under the [i] flag. *)
Definition chri (c : Z) : re := Chr (fun x => Js.canonicalize x =? Js.canonicalize c).
Definition digit : re := Chr Js.is_digit.
Definition space : re := Chr Js.is_space.
Definition any_of (l : Js.str) : re := Chr (fun x => existsb (Z.eqb x) l).
Definition none_of (p : Z -> bool) : re := Chr (fun x => negb (p x)).

Fixpoint seq (l : list re) : re :=
  match l with
  | [] => Eps
  | [a] => a
  | a :: l' => Seq a (seq l')
  end.

Fixpoint alt (l : list re) : re :=
  match l with
  | [] => NotAhead Eps
  | [a] => a
  | a :: l' => Alt a (alt l')
  end.

Definition lit (s : string) : re := seq (map chr (Js.u s)).
Definition liti (s : string) : re := seq (map chri (Js.u s)).
Definition opt (a : re) : re := Rep 0 1 a.
Definition plus (a : re) : re := Seq a (Star a).

End Re.

(* ===================================================================== *)
(** ** nlu/parseQuery.ts: the lexical extractors *)
(* ===================================================================== *)

Module Nlu.
Import Js Re.

Inductive SupportedCountry := Turkey | Egypt | Thailand | UAE | Maldives | Seychelles.
Inductive MealCode := AI | BB | HB | FB | RO.
Inductive ParsedCommand :=
  SHOW_MORE | EDIT_FILTERS | NEW_SEARCH | COUNTRIES | START_SEARCH | FAVORITES | CLEAR_FAVORITES.

Inductive BudgetIntent :=
| BMax (max : Z)
| BRange (min max : Z)
| BApprox (value min max : Z).

Definition budget_max (b : BudgetIntent) : Z :=
  match b with BMax m => m | BRange _ m => m | BApprox _ _ m => m end.

Definition APPROX_PCT : Q := 1 # 10.

Definition COUNTRY_ALIASES : list (SupportedCountry * list re) :=
  [ (Turkey, [seq [Wb; liti "turkey"; Wb]; liti "турц"]);
    (Egypt, [seq [Wb; liti "egypt"; Wb]; liti "егип"]);
    (Thailand, [seq [Wb; liti "thailand"; Wb]; liti "таил";
                seq [alt [Bol; space]; liti "тай"; NotAhead (liti "п")]]);
    (UAE, [seq [Wb; liti "uae"; Wb]; liti "оаэ"; liti "эмират";
           seq [Wb; liti "emirates"; Wb]; liti "дубай"]);
    (Maldives, [seq [Wb; liti "maldives"; Wb]; liti "мальдив"]);
    (Seychelles, [seq [Wb; liti "seychelles"; Wb]; liti "сейшел"]) ].

Definition UNSUPPORTED_GEO_PATTERNS : list (string * re) :=
  [ ("Африка", alt [liti "африк"; seq [Wb; liti "africa"; Wb]]);
    ("Италия", alt [liti "итал"; seq [Wb; liti "italy"; Wb]]);
    ("Франция", alt [liti "франц"; seq [Wb; liti "france"; Wb]]);
    ("Россия", alt [liti "росси"; seq [Wb; liti "russia"; Wb]]);
    ("Вьетнам", alt [liti "вьет"; seq [Wb; liti "vietnam"; Wb]]);
    ("Австралия", alt [liti "австрал"; seq [Wb; liti "australia"; Wb]]);
    ("Испания", alt [liti "испан"; seq [Wb; liti "spain"; Wb]]);
    ("Греция", alt [liti "грец"; seq [Wb; liti "greece"; Wb]]) ]%string.

Definition normalizeText (input : str) : str :=
  trim
    (replace_all (any_of [160; 8201; 8239]) (u " ")
       (replace_all (any_of [8208; 8209; 8210; 8211; 8212; 8213]) (u "-")
          (replace_all (lit "ё") (u "е") input))).

Definition normalizeLower (input : str) : str := toLowerCase (normalizeText input).

Record CountryResult := { country : option SupportedCountry; unknownCountry : option string }.

Definition extractCountry (text : str) : CountryResult :=
  let normalized := normalizeText text in
  match find (fun item => existsb (fun p => test p normalized) (snd item)) COUNTRY_ALIASES with
  | Some item => {| country := Some (fst item); unknownCountry := None |}
  | None =>
    match find (fun item => test (snd item) normalized) UNSUPPORTED_GEO_PATTERNS with
    | Some item => {| country := None; unknownCountry := Some (fst item) |}
    | None => {| country := None; unknownCountry := None |}
    end
  end.

Definition night_value (m : caps) : option Z :=
  match cap 1 m with
  | Some d => let value := digits_value d in
              if (1 <=? value) && (value <=? 30) then Some value else None
  | None => None
  end.

Definition end_ahead : re := Ahead (alt [space; Eol]).

Definition nights_direct : re :=
  seq [opt (seq [liti "на"; Star space]); Grp 1 (Rep 1 1 digit); Star space;
       alt [seq [liti "ноч"; opt (alt [liti "ей"; liti "и"; liti "ь"])];
            seq [liti "дн"; opt (alt [liti "ей"; liti "я"])];
            seq [liti "дн"; end_ahead];
            seq [liti "д"; end_ahead];
            seq [liti "сут"; opt (alt [liti "ок"; liti "ки"])]]].

Definition nights_shorthand : re :=
  seq [alt [Bol; space]; Grp 1 (Rep 1 1 digit); Star space;
       alt [liti "н"; liti "д"; liti "дн"]; end_ahead].

Definition extractNights (text : str) : option Z :=
  let t := normalizeLower text in
  if includes t (u "на выходные") then Some 3
  else if includes t (u "на неделю") then Some 7
  else if includes t (u "две недели") then Some 14
  else
    match match exec nights_direct t with Some m => night_value m | None => None end with
    | Some v => Some v
    | None => match exec nights_shorthand t with Some m => night_value m | None => None end
    end.

(** The thousands suffix that a money token may carry:
    [(?:к|k|тыс|тысяч|т\.?р\.?|т)]. *)
Definition money_suffix : re :=
  alt [liti "к"; liti "k"; liti "тыс"; liti "тысяч";
       seq [liti "т"; opt (chr 46); liti "р"; opt (chr 46)]; liti "т"].

(** [/(к|k|тыс|тысяч|т\.?р\.?|\bт\b)/i], the test for a marker on one side
    of a range. *)
Definition side_marker : re :=
  alt [liti "к"; liti "k"; liti "тыс"; liti "тысяч";
       seq [liti "т"; opt (chr 46); liti "р"; opt (chr 46)];
       seq [Wb; liti "т"; Wb]].

(** [/(тыс|тысяч|т\.?р\.?|\bт\b|кк?|k)/i] of parseMoneyToken. *)
Definition token_marker : re :=
  alt [liti "тыс"; liti "тысяч";
       seq [liti "т"; opt (chr 46); liti "р"; opt (chr 46)];
       seq [Wb; liti "т"; Wb];
       seq [liti "к"; opt (liti "к")]; liti "k"].

(** [/руб(?:лей|ля)?|р\.?/g] *)
Definition rouble_word : re :=
  alt [seq [lit "руб"; opt (alt [lit "лей"; lit "ля"])]; seq [lit "р"; opt (chr 46)]].

(** The amount is a JavaScript number in the source. [Number(digits)],
    the product by 1000 and the band of [approx_of] below are computed here
    on exact integers, which is what the doubles of the source give as long
    as the amount stays below 2^40; the theorems that state exact values
    carry that bound. (Beyond 2^53 the source rounds the digits, and digits
    that overflow make it answer [undefined] or [Infinity].) *)
Definition parseMoneyToken (token : str) (forceThousands : bool) : option Z :=
  let raw := trim (replace_all (lit "₽") [] (replace_all rouble_word [] (normalizeLower token))) in
  match raw with
  | [] => None
  | _ :: _ =>
    let hasThousands := forceThousands || test token_marker raw in
    let digits := List.filter is_digit raw in
    match digits with
    | [] => None
    | _ :: _ =>
      let num := digits_value digits in
      if num <=? 0 then None
      else Some (if hasThousands then num * 1000 else num)
    end
  end.

(** [Math.round]: to the nearest integer, a half upwards. *)
Definition js_round (x : Q) : Z := Qfloor (x + (1 # 2)).

Definition round100 (n : Q) : Z := js_round (n / 100) * 100.

Definition approx_of (value : Z) : BudgetIntent :=
  let min := round100 (inject_Z value * (1 - APPROX_PCT)) in
  let max := round100 (inject_Z value * (1 + APPROX_PCT)) in
  BApprox value (Z.min min max) (Z.max min max).

Definition amount (chars : Z -> bool) : re := seq [plus (Chr chars); opt money_suffix].
Definition digit_or_space (c : Z) : bool := is_digit c || is_space c.
Definition digit_space_dot_comma (c : Z) : bool :=
  is_digit c || is_space c || (c =? 46) || (c =? 44).

Definition rangeFromTo_re : re :=
  seq [alt [liti "от"; liti "с"]; Star space; Grp 1 (amount digit_space_dot_comma);
       Star space; alt [liti "до"; liti "по"]; Star space;
       Grp 2 (amount digit_space_dot_comma)].

Definition dashRange_re : re :=
  seq [Grp 1 (amount digit_or_space); Star space; chr 45; Star space;
       Grp 2 (amount digit_or_space)].

Definition maxMatch_re : re :=
  seq [alt [liti "до"; lit "<="; seq [liti "не"; Star space; liti "больше"];
            seq [liti "макс"; opt (liti "имум")]];
       Star space; Grp 1 (amount digit_or_space)].

Definition approxMatch_re : re :=
  seq [alt [liti "около"; liti "примерно"; seq [liti "прибл"; opt (liti "изительно")];
            liti "порядка"; lit "~"; lit "≈"];
       Star space; Grp 1 (amount digit_or_space)].

Definition approxTrailing_re : re :=
  seq [Grp 1 (amount digit_or_space); Star space;
       alt [liti "примерно"; seq [liti "прибл"; opt (liti "изительно")]; liti "около"];
       Wb].

Definition bareMoney_re : re :=
  seq [alt [Bol; space];
       Grp 1 (alt [seq [Rep 2 1 digit; opt (seq [opt space; Rep 3 0 digit])];
                   Rep 5 2 digit]);
       Star space; opt (Grp 2 money_suffix); alt [space; Eol; chr 63]].

Definition cap_or_empty (n : nat) (m : caps) : str :=
  match cap n m with Some s => s | None => [] end.

(** A two-sided range: a marker found on one side only is forced onto the
    other side. *)
Definition range_of (m : caps) : option BudgetIntent :=
  let left := cap_or_empty 1 m in
  let right := cap_or_empty 2 m in
  let leftHasK := test side_marker left in
  let rightHasK := test side_marker right in
  let sharedThousands := leftHasK || rightHasK in
  match parseMoneyToken left (sharedThousands && negb leftHasK),
        parseMoneyToken right (sharedThousands && negb rightHasK) with
  | Some a, Some b => Some (BRange (Z.min a b) (Z.max a b))
  | _, _ => None
  end.

Definition first_some {A} (x : option A) (y : option A) : option A :=
  match x with Some _ => x | None => y end.

Definition via {A} (r : re) (t : str) (f : caps -> option A) : option A :=
  match exec r t with Some m => f m | None => None end.

Definition extractBudget (text : str) : option BudgetIntent :=
  let original := normalizeText text in
  let t := normalizeLower text in
  match via rangeFromTo_re t range_of with
  | Some b => Some b
  | None =>
  match via dashRange_re original range_of with
  | Some b => Some b
  | None =>
  match via maxMatch_re t (fun m => option_map BMax (parseMoneyToken (cap_or_empty 1 m) false)) with
  | Some b => Some b
  | None =>
  match via approxMatch_re t (fun m => option_map approx_of (parseMoneyToken (cap_or_empty 1 m) false)) with
  | Some b => Some b
  | None =>
  match via approxTrailing_re t (fun m => option_map approx_of (parseMoneyToken (cap_or_empty 1 m) false)) with
  | Some b => Some b
  | None =>
    via bareMoney_re t (fun m =>
      option_map approx_of
        (parseMoneyToken (cap_or_empty 1 m ++ cap_or_empty 2 m) false))
  end end end end end.

(** *** Commands, meals and months *)

(** A pattern between [^] and [$]. *)
Definition whole (l : list re) : re := seq (Bol :: l ++ [Eol]).

Definition extractMeal (text : str) : option MealCode :=
  let t := normalizeLower text in
  if includes t (u "все включ") || includes t (u "всё включ") || includes t (u "all inclusive")
     || test (seq [Wb; liti "ai"; Wb]) t then Some AI
  else if includes t (u "без питания") || test (seq [Wb; liti "ro"; Wb]) t then Some RO
  else if includes t (u "завтрак") || test (seq [Wb; liti "bb"; Wb]) t then Some BB
  else if includes t (u "полупансион") || test (seq [Wb; liti "hb"; Wb]) t then Some HB
  else if includes t (u "полный пансион") || test (seq [Wb; liti "fb"; Wb]) t then Some FB
  else None.

(** [ещ[еёe]] *)
Definition more_word : re := seq [lit "ещ"; any_of [1077; 1105; 101]].

Definition detectCommand (text : str) : option ParsedCommand :=
  let t := normalizeLower text in
  if test (whole [opt (seq [lit "↩︎"; Star space]); lit "показать"; Star space; more_word]) t
     || test (whole [more_word]) t then Some SHOW_MORE
  else if test (whole [lit "изменить"; plus space; lit "фильтры"]) t
          || test (whole [lit "фильтры"]) t then Some EDIT_FILTERS
  else if test (whole [lit "очистить"; plus space; lit "избранное"]) t then Some CLEAR_FAVORITES
  else if test (whole [lit "избранное"]) t
          || test (whole [lit "покажи"; plus space; lit "избранное"]) t
          || test (whole [lit "мои"; plus space; lit "туры"]) t then Some FAVORITES
  else if test (whole [lit "новый"; plus space; lit "поиск"]) t
          || test (whole [lit "сброс"]) t then Some NEW_SEARCH
  else if test (whole [lit "страны"]) t then Some COUNTRIES
  else if test (whole [lit "найти"; plus space; lit "тур"]) t
          || test (whole [lit "поиск"]) t then Some START_SEARCH
  else None.

Definition MONTH_LABELS_RU : list (Z * list string) :=
  [ (1, ["январ"; "январе"; "янв"]);
    (2, ["феврал"; "феврале"; "фев"]);
    (3, ["март"; "марте"; "мар"]);
    (4, ["апрел"; "апреле"; "апр"]);
    (5, ["май"; "мая"; "мае"; "майские"]);
    (6, ["июн"; "июня"; "июне"; "июнь"]);
    (7, ["июл"; "июля"; "июле"; "июль"]);
    (8, ["август"; "августе"; "авг"]);
    (9, ["сентябр"; "сентябре"; "сент"; "сен"]);
    (10, ["октябр"; "октябре"; "окт"]);
    (11, ["ноябр"; "ноябре"; "ноя"]);
    (12, ["декабр"; "декабре"; "дек"]) ]%string.

(** [/(?:^|\s)(?:в|на)?\s*(0?[1-9]|1[0-2])(?:\s*(?:мес(?:яц)?|месяце)?)?(?:\s|$)/i] *)
Definition numericMonth_re : re :=
  seq [alt [Bol; space]; opt (alt [liti "в"; liti "на"]); Star space;
       Grp 1 (alt [seq [opt (chr 48); Chr (in_range 49 57)];
                   seq [chr 49; Chr (in_range 48 50)]]);
       opt (seq [Star space; opt (alt [seq [liti "мес"; opt (liti "яц")]; liti "месяце"])]);
       alt [space; Eol]].

(** The month of [parseMonthRu(text)]: the first month one of whose labels
    the text holds, or else a number from 1 to 12 standing alone. The year of
    the answer plays no part in what is modelled. *)
Definition parseMonthRu (text : str) : option Z :=
  let t := normalizeLower text in
  let byName :=
    find (fun entry => existsb (fun token => includes t (u token)) (snd entry))
      MONTH_LABELS_RU in
  match byName with
  | Some entry => Some (fst entry)
  | None =>
    match exec numericMonth_re t with
    | Some m =>
      let month := digits_value (cap_or_empty 1 m) in
      if month =? 0 then None else Some month
    | None => None
    end
  end.

Definition smalltalk_words : list string :=
  ["спасибо"; "спс"; "благодарю"; "пожалуйста"; "ок"; "окей"; "ага"; "понятно"; "привет"]%string.

Definition detectSmalltalk (text : str) : bool :=
  let t := normalizeLower text in
  existsb (fun w => str_eqb t (u w)) smalltalk_words
  || test (whole [plus (chr 41)]) t || test (whole [plus (chr 40)]) t
  || test (whole [lit "ах"; plus (lit "а")]) t.

(** What [parseQuery] returns, without the year and the two dates that it
    derives from the month. *)
Record ParsedQuery := {
  command : option ParsedCommand;
  p_country : option SupportedCountry;
  p_unknownCountry : option string;
  p_nights : option Z;
  p_budget : option BudgetIntent;
  p_meal : option MealCode;
  p_month : option Z;
  smalltalk : bool
}.

Definition parseQuery (text : str) : ParsedQuery :=
  {| command := detectCommand text;
     p_country := country (extractCountry text);
     p_unknownCountry := unknownCountry (extractCountry text);
     p_nights := extractNights text;
     p_budget := extractBudget text;
     p_meal := extractMeal text;
     p_month := parseMonthRu text;
     smalltalk := detectSmalltalk text |}.

End Nlu.

(* ===================================================================== *)
(** ** orchestrator.ts: drafts and their missing slots *)
(* ===================================================================== *)

Module Orchestrator.
Import Js Re Nlu.

Definition COUNTRY_TO_ID (c : SupportedCountry) : Z :=
  match c with
  | Turkey => 47 | Egypt => 54 | Thailand => 29
  | UAE => 63 | Maldives => 90 | Seychelles => 91
  end.

Definition SUPPORTED_COUNTRIES : list SupportedCountry :=
  [Turkey; Egypt; Thailand; UAE; Maldives; Seychelles].

Definition country_key (c : SupportedCountry) : str :=
  match c with
  | Turkey => u "Turkey" | Egypt => u "Egypt" | Thailand => u "Thailand"
  | UAE => u "UAE" | Maldives => u "Maldives" | Seychelles => u "Seychelles"
  end.

Inductive MissingField := country_slot | nights_slot | budget_slot.

(** The fields of [SearchArgs] (what the classifier may return) and of
    [Partial<SearchToursInput>] (a draft) that the slot logic reads or writes.
    The remaining fields (dates, period, meal, party size, paging) are carried
    along by the source and never examined by the functions below. *)
Record SearchArgs := {
  a_country_name : option str;
  a_nights_min : option num;
  a_nights_max : option num;
  a_budget_max : option num
}.

Record Draft := {
  country_id : option num;
  country_name : option str;
  nights_min : option num;
  nights_max : option num;
  budget_min : option num;
  budget_max : option num
}.

Definition empty_draft : Draft :=
  {| country_id := None; country_name := None; nights_min := None;
     nights_max := None; budget_min := None; budget_max := None |}.

Definition normalizeCountryName (countryName : option str) : option SupportedCountry :=
  match countryName with
  | None => None
  | Some name =>
    let lower := toLowerCase (trim name) in
    match lower with
    | [] => None
    | _ :: _ =>
      if str_eqb lower (u "turkey") || includes lower (u "турц") then Some Turkey
      else if str_eqb lower (u "egypt") || includes lower (u "егип") then Some Egypt
      else if str_eqb lower (u "uae") || includes lower (u "оаэ") || includes lower (u "эмират")
              || includes lower (u "дубай") || includes lower (u "emirates") then Some UAE
      else if str_eqb lower (u "thailand") || includes lower (u "тай") || includes lower (u "таил")
           then Some Thailand
      else if str_eqb lower (u "maldives") || includes lower (u "мальдив") then Some Maldives
      else if str_eqb lower (u "seychelles") || includes lower (u "сейшел") then Some Seychelles
      else None
    end
  end.

Definition getMappedCountryId (countryName : option str) : option Z :=
  option_map COUNTRY_TO_ID (normalizeCountryName countryName).

Definition detectCountryNameFromText (input : str) : option SupportedCountry :=
  normalizeCountryName (Some input).

Definition extractNightsFromText (input : str) : option Z := extractNights input.

Definition extractBudgetFromText (input : str) : option Z :=
  option_map Nlu.budget_max (extractBudget input).

Definition extractBudgetRangeFromText (input : str) : option (Z * Z) :=
  match extractBudget input with
  | Some (BRange mn mx) => Some (mn, mx)
  | Some (BApprox _ mn mx) => Some (mn, mx)
  | _ => None
  end.

(** [draft.budget_max === undefined || draft.budget_max <= 0] *)
Definition budget_unset (b : option num) : bool :=
  match b with None => true | Some n => le0 n end.

Definition buildDraftArgs (input : str) (args : SearchArgs) : Draft :=
  let countryId := getMappedCountryId (a_country_name args) in
  (* draft = { ...args }: the classifier never supplies an id *)
  let id0 : option num := None in
  let id1 := match id0, countryId with
             | None, Some i => Some (of_Z i)
             | _, _ => id0
             end in
  let name1 := match countryId with
               | Some i =>
                 option_map country_key
                   (find (fun name => COUNTRY_TO_ID name =? i) SUPPORTED_COUNTRIES)
               | None => a_country_name args
               end in
  let '(id2, name2) :=
    match id1, name1 with
    | None, None =>
      match detectCountryNameFromText input with
      | Some detected => (Some (of_Z (COUNTRY_TO_ID detected)), Some (country_key detected))
      | None => (id1, name1)
      end
    | _, _ => (id1, name1)
    end in
  let '(nmin, nmax) :=
    match a_nights_min args, a_nights_max args with
    | Some _, Some _ => (a_nights_min args, a_nights_max args)
    | _, _ =>
      match extractNightsFromText input with
      | Some nights => (Some (of_Z nights), Some (of_Z nights))
      | None => (a_nights_min args, a_nights_max args)
      end
    end in
  let '(bmin1, bmax1) :=
    match extractBudgetRangeFromText input with
    | Some (mn, mx) =>
      if budget_unset (a_budget_max args) then (Some (of_Z mn), Some (of_Z mx))
      else (None, a_budget_max args)
    | None => (None, a_budget_max args)
    end in
  let bmax2 :=
    if budget_unset bmax1 then
      match extractBudgetFromText input with
      | Some budget => Some (of_Z budget)
      | None => bmax1
      end
    else bmax1 in
  {| country_id := id2; country_name := name2; nights_min := nmin;
     nights_max := nmax; budget_min := bmin1; budget_max := bmax2 |}.

(** [Number.isFinite(Number(x))] of an optional number: [Number(undefined)]
    is [NaN]. *)
Definition finite_field (x : option num) : bool :=
  match x with Some n => isFinite n | None => false end.

Definition hasCountry (draft : Draft) : bool :=
  match country_id draft with
  | Some _ => true
  | None =>
    match country_name draft with
    | Some name => negb (str_eqb (trim name) [])
    | None => false
    end
  end.

Definition hasNights (draft : Draft) : bool :=
  finite_field (nights_min draft) && finite_field (nights_max draft).

Definition hasBudget (draft : Draft) : bool :=
  finite_field (budget_max draft) &&
  match budget_max draft with Some n => gt0 n | None => false end.

Definition getMissingFields (draft : Draft) : list MissingField :=
  (if hasCountry draft then [] else [country_slot]) ++
  (if hasNights draft then [] else [nights_slot]) ++
  (if hasBudget draft then [] else [budget_slot]).

Definition looksLikeTravelText (input : str) : bool :=
  let t := toLowerCase input in
  includes t (u "тур") || includes t (u "отпуск") || includes t (u "поехать")
  || includes t (u "хочу").

Definition hasUnsupportedDestinationMention (input : str) : bool :=
  let t := toLowerCase input in
  match normalizeCountryName (Some t) with
  | Some _ => false
  | None =>
    includes t (u "африк") || includes t (u "africa") || includes t (u "вьет")
    || includes t (u "vietnam") || includes t (u "росси") || includes t (u "russia")
    || includes t (u "итал") || includes t (u "italy") || includes t (u "австрал")
    || includes t (u "australia") || includes t (u "испан") || includes t (u "spain")
  end.

(** The classifier's answer after schema validation. *)
Inductive ParsedIntent :=
| search_tours_intent (args : SearchArgs)
| meta_intent
| smalltalk_intent
| unknown_intent (reason : option str).

Inductive IntentType := it_search_tours | it_meta | it_smalltalk | it_unknown.

Record OrchestratorMeta := {
  intent_type : IntentType;
  reason : option str;
  search_args : option Draft;
  missing_fields : option (list MissingField);
  draft_args : option Draft
}.

Definition unsupported_country_result : OrchestratorMeta :=
  {| intent_type := it_unknown; reason := Some (u "unsupported_country");
     search_args := None; missing_fields := None; draft_args := None |}.

(** [handleUserMessage], with the classifier's validated answer [intent] as
    an argument. The schema check of the merged arguments accepts every draft
    built from validated arguments, so [search_args] is present exactly when
    no slot is missing. *)
Definition handleUserMessage (input : str) (intent : ParsedIntent) : OrchestratorMeta :=
  if hasUnsupportedDestinationMention input then unsupported_country_result
  else
    match intent with
    | search_tours_intent args =>
      match a_country_name args, normalizeCountryName (a_country_name args) with
      | Some _, None => unsupported_country_result
      | _, _ =>
        let draftArgs := buildDraftArgs input args in
        let missingFields := getMissingFields draftArgs in
        {| intent_type := it_search_tours; reason := None;
           search_args := match missingFields with [] => Some draftArgs | _ => None end;
           missing_fields := Some missingFields; draft_args := Some draftArgs |}
      end
    | meta_intent =>
      {| intent_type := it_meta; reason := None; search_args := None;
         missing_fields := None; draft_args := None |}
    | smalltalk_intent =>
      {| intent_type := it_smalltalk; reason := None; search_args := None;
         missing_fields := None; draft_args := None |}
    | unknown_intent r =>
      match detectCountryNameFromText input with
      | Some detected =>
        let draftArgs :=
          buildDraftArgs input
            {| a_country_name := Some (country_key detected); a_nights_min := None;
               a_nights_max := None; a_budget_max := None |} in
        {| intent_type := it_search_tours; reason := r; search_args := None;
           missing_fields := Some (getMissingFields draftArgs);
           draft_args := Some draftArgs |}
      | None =>
        if looksLikeTravelText input then
          {| intent_type := it_search_tours; reason := r; search_args := None;
             missing_fields := Some (getMissingFields empty_draft);
             draft_args := Some empty_draft |}
        else
          {| intent_type := it_unknown; reason := r; search_args := None;
             missing_fields := None; draft_args := None |}
      end
    end.

End Orchestrator.

(* ===================================================================== *)
(** ** bot.ts: the per-chat state and its handlers *)
(* ===================================================================== *)

Module Bot.
Import Js Re Nlu Orchestrator.

Inductive ChatStep :=
  idle | budget_input | await_phone | ai_country_input | ai_nights_input | ai_budget_input.
Inductive Filter := f_budget | f_rating | f_period | f_meal.
Inductive Awaiting := aw_country | aw_nights | aw_budget | aw_nights_budget.
Inductive ClarifyMode := mode_ai | mode_followup.
Inductive PromptAction := show_favorites.

Record Tour := {
  hotel_id : Z;
  hotel_name : option str;
  price : option num;
  image_url : option str
}.

Record SearchOutput := { requestid : str; results : list Tour; total : option Z }.

(** [SearchToursInput] after schema validation; the fields that the bot's
    state functions read. *)
Record SearchToursInput := {
  si_country_id : option num;
  si_date_from : str;
  si_date_to : str;
  si_nights_min : num;
  si_nights_max : num;
  si_adults : num;
  si_children : num;
  si_period : option str;
  si_budget_min : option num;
  si_budget_max : num;
  si_meal : option str;          (* [None]: a number, not a string *)
  si_rating : num;
  si_limit : Z;
  si_offset : Z
}.

Definition DEFAULT_SEARCH_TOURS_ARGS : SearchToursInput :=
  {| si_country_id := None; si_date_from := u "2026-06-01"; si_date_to := u "2026-06-20";
     si_nights_min := of_Z 6; si_nights_max := of_Z 10; si_adults := of_Z 2;
     si_children := of_Z 0; si_period := None; si_budget_min := None;
     si_budget_max := of_Z 0; si_meal := None; si_rating := of_Z 0;
     si_limit := 5; si_offset := 0 |}.

Record SearchContext := {
  sc_countryId : option num;
  sc_countryName : option string;
  sc_dateFrom : option str;
  sc_dateTo : option str;
  sc_period : option str;
  sc_nightsMin : option num;
  sc_nightsMax : option num;
  sc_budgetMax : option num;
  sc_budgetMin : option num;
  sc_budgetTarget : option num;
  sc_meal : option str;
  sc_ratingMin : option num;
  sc_adults : option num;
  sc_children : option num;
  sc_lastArgs : option SearchToursInput;
  sc_lastResults : option (list Tour);
  sc_lastRequestId : option str
}.

Record SavedSet := {
  set_id : str;
  set_createdAt : Z;
  set_country : string;
  set_nights : num;
  set_tours : list Tour
}.

Record FavoritesStore := { tours : list Tour; collections : list SavedSet }.

Record PendingBudget := { pb_value : Z; pb_mode : ClarifyMode }.

Record ChatState := {
  step : ChatStep;
  countryId : option num;
  nightsMin : num;
  nightsMax : num;
  budgetChosen : bool;
  budgetMax : option num;
  budgetMin : option num;
  ratingChosen : bool;
  ratingMin : option num;
  period : option str;
  meal : option str;
  mealChosen : bool;
  editingFilter : option Filter;
  offset : Z;
  limit : Z;
  lastRequestId : option str;
  lastResults : list Tour;
  pendingHotel : option Tour;
  phonePromptShownForHotelId : option Z;
  aiMode : bool;
  aiDraft : option Draft;
  aiAwaiting : option Awaiting;
  lastSearchArgs : option SearchToursInput;
  activeSearchSeq : option Z;
  searchContext : option SearchContext;
  pendingBudgetClarification : option PendingBudget;
  pendingPromptAction : option PromptAction;
  favorites : FavoritesStore;
  favoritesSeq : Z
}.

(** Assignment to one field of the state. *)
Definition set_step (v : ChatStep) (s : ChatState) : ChatState :=
  {| step := v;
     countryId := countryId s;
     nightsMin := nightsMin s;
     nightsMax := nightsMax s;
     budgetChosen := budgetChosen s;
     budgetMax := budgetMax s;
     budgetMin := budgetMin s;
     ratingChosen := ratingChosen s;
     ratingMin := ratingMin s;
     period := period s;
     meal := meal s;
     mealChosen := mealChosen s;
     editingFilter := editingFilter s;
     offset := offset s;
     limit := limit s;
     lastRequestId := lastRequestId s;
     lastResults := lastResults s;
     pendingHotel := pendingHotel s;
     phonePromptShownForHotelId := phonePromptShownForHotelId s;
     aiMode := aiMode s;
     aiDraft := aiDraft s;
     aiAwaiting := aiAwaiting s;
     lastSearchArgs := lastSearchArgs s;
     activeSearchSeq := activeSearchSeq s;
     searchContext := searchContext s;
     pendingBudgetClarification := pendingBudgetClarification s;
     pendingPromptAction := pendingPromptAction s;
     favorites := favorites s;
     favoritesSeq := favoritesSeq s |}.
Definition set_countryId (v : option num) (s : ChatState) : ChatState :=
  {| step := step s;
     countryId := v;
     nightsMin := nightsMin s;
     nightsMax := nightsMax s;
     budgetChosen := budgetChosen s;
     budgetMax := budgetMax s;
     budgetMin := budgetMin s;
     ratingChosen := ratingChosen s;
     ratingMin := ratingMin s;
     period := period s;
     meal := meal s;
     mealChosen := mealChosen s;
     editingFilter := editingFilter s;
     offset := offset s;
     limit := limit s;
     lastRequestId := lastRequestId s;
     lastResults := lastResults s;
     pendingHotel := pendingHotel s;
     phonePromptShownForHotelId := phonePromptShownForHotelId s;
     aiMode := aiMode s;
     aiDraft := aiDraft s;
     aiAwaiting := aiAwaiting s;
     lastSearchArgs := lastSearchArgs s;
     activeSearchSeq := activeSearchSeq s;
     searchContext := searchContext s;
     pendingBudgetClarification := pendingBudgetClarification s;
     pendingPromptAction := pendingPromptAction s;
     favorites := favorites s;
     favoritesSeq := favoritesSeq s |}.
Definition set_nightsMin (v : num) (s : ChatState) : ChatState :=
  {| step := step s;
     countryId := countryId s;
     nightsMin := v;
     nightsMax := nightsMax s;
     budgetChosen := budgetChosen s;
     budgetMax := budgetMax s;
     budgetMin := budgetMin s;
     ratingChosen := ratingChosen s;
     ratingMin := ratingMin s;
     period := period s;
     meal := meal s;
     mealChosen := mealChosen s;
     editingFilter := editingFilter s;
     offset := offset s;
     limit := limit s;
     lastRequestId := lastRequestId s;
     lastResults := lastResults s;
     pendingHotel := pendingHotel s;
     phonePromptShownForHotelId := phonePromptShownForHotelId s;
     aiMode := aiMode s;
     aiDraft := aiDraft s;
     aiAwaiting := aiAwaiting s;
     lastSearchArgs := lastSearchArgs s;
     activeSearchSeq := activeSearchSeq s;
     searchContext := searchContext s;
     pendingBudgetClarification := pendingBudgetClarification s;
     pendingPromptAction := pendingPromptAction s;
     favorites := favorites s;
     favoritesSeq := favoritesSeq s |}.
Definition set_nightsMax (v : num) (s : ChatState) : ChatState :=
  {| step := step s;
     countryId := countryId s;
     nightsMin := nightsMin s;
     nightsMax := v;
     budgetChosen := budgetChosen s;
     budgetMax := budgetMax s;
     budgetMin := budgetMin s;
     ratingChosen := ratingChosen s;
     ratingMin := ratingMin s;
     period := period s;
     meal := meal s;
     mealChosen := mealChosen s;
     editingFilter := editingFilter s;
     offset := offset s;
     limit := limit s;
     lastRequestId := lastRequestId s;
     lastResults := lastResults s;
     pendingHotel := pendingHotel s;
     phonePromptShownForHotelId := phonePromptShownForHotelId s;
     aiMode := aiMode s;
     aiDraft := aiDraft s;
     aiAwaiting := aiAwaiting s;
     lastSearchArgs := lastSearchArgs s;
     activeSearchSeq := activeSearchSeq s;
     searchContext := searchContext s;
     pendingBudgetClarification := pendingBudgetClarification s;
     pendingPromptAction := pendingPromptAction s;
     favorites := favorites s;
     favoritesSeq := favoritesSeq s |}.
Definition set_budgetChosen (v : bool) (s : ChatState) : ChatState :=
  {| step := step s;
     countryId := countryId s;
     nightsMin := nightsMin s;
     nightsMax := nightsMax s;
     budgetChosen := v;
     budgetMax := budgetMax s;
     budgetMin := budgetMin s;
     ratingChosen := ratingChosen s;
     ratingMin := ratingMin s;
     period := period s;
     meal := meal s;
     mealChosen := mealChosen s;
     editingFilter := editingFilter s;
     offset := offset s;
     limit := limit s;
     lastRequestId := lastRequestId s;
     lastResults := lastResults s;
     pendingHotel := pendingHotel s;
     phonePromptShownForHotelId := phonePromptShownForHotelId s;
     aiMode := aiMode s;
     aiDraft := aiDraft s;
     aiAwaiting := aiAwaiting s;
     lastSearchArgs := lastSearchArgs s;
     activeSearchSeq := activeSearchSeq s;
     searchContext := searchContext s;
     pendingBudgetClarification := pendingBudgetClarification s;
     pendingPromptAction := pendingPromptAction s;
     favorites := favorites s;
     favoritesSeq := favoritesSeq s |}.
Definition set_budgetMax (v : option num) (s : ChatState) : ChatState :=
  {| step := step s;
     countryId := countryId s;
     nightsMin := nightsMin s;
     nightsMax := nightsMax s;
     budgetChosen := budgetChosen s;
     budgetMax := v;
     budgetMin := budgetMin s;
     ratingChosen := ratingChosen s;
     ratingMin := ratingMin s;
     period := period s;
     meal := meal s;
     mealChosen := mealChosen s;
     editingFilter := editingFilter s;
     offset := offset s;
     limit := limit s;
     lastRequestId := lastRequestId s;
     lastResults := lastResults s;
     pendingHotel := pendingHotel s;
     phonePromptShownForHotelId := phonePromptShownForHotelId s;
     aiMode := aiMode s;
     aiDraft := aiDraft s;
     aiAwaiting := aiAwaiting s;
     lastSearchArgs := lastSearchArgs s;
     activeSearchSeq := activeSearchSeq s;
     searchContext := searchContext s;
     pendingBudgetClarification := pendingBudgetClarification s;
     pendingPromptAction := pendingPromptAction s;
     favorites := favorites s;
     favoritesSeq := favoritesSeq s |}.
Definition set_budgetMin (v : option num) (s : ChatState) : ChatState :=
  {| step := step s;
     countryId := countryId s;
     nightsMin := nightsMin s;
     nightsMax := nightsMax s;
     budgetChosen := budgetChosen s;
     budgetMax := budgetMax s;
     budgetMin := v;
     ratingChosen := ratingChosen s;
     ratingMin := ratingMin s;
     period := period s;
     meal := meal s;
     mealChosen := mealChosen s;
     editingFilter := editingFilter s;
     offset := offset s;
     limit := limit s;
     lastRequestId := lastRequestId s;
     lastResults := lastResults s;
     pendingHotel := pendingHotel s;
     phonePromptShownForHotelId := phonePromptShownForHotelId s;
     aiMode := aiMode s;
     aiDraft := aiDraft s;
     aiAwaiting := aiAwaiting s;
     lastSearchArgs := lastSearchArgs s;
     activeSearchSeq := activeSearchSeq s;
     searchContext := searchContext s;
     pendingBudgetClarification := pendingBudgetClarification s;
     pendingPromptAction := pendingPromptAction s;
     favorites := favorites s;
     favoritesSeq := favoritesSeq s |}.
Definition set_ratingChosen (v : bool) (s : ChatState) : ChatState :=
  {| step := step s;
     countryId := countryId s;
     nightsMin := nightsMin s;
     nightsMax := nightsMax s;
     budgetChosen := budgetChosen s;
     budgetMax := budgetMax s;
     budgetMin := budgetMin s;
     ratingChosen := v;
     ratingMin := ratingMin s;
     period := period s;
     meal := meal s;
     mealChosen := mealChosen s;
     editingFilter := editingFilter s;
     offset := offset s;
     limit := limit s;
     lastRequestId := lastRequestId s;
     lastResults := lastResults s;
     pendingHotel := pendingHotel s;
     phonePromptShownForHotelId := phonePromptShownForHotelId s;
     aiMode := aiMode s;
     aiDraft := aiDraft s;
     aiAwaiting := aiAwaiting s;
     lastSearchArgs := lastSearchArgs s;
     activeSearchSeq := activeSearchSeq s;
     searchContext := searchContext s;
     pendingBudgetClarification := pendingBudgetClarification s;
     pendingPromptAction := pendingPromptAction s;
     favorites := favorites s;
     favoritesSeq := favoritesSeq s |}.
Definition set_ratingMin (v : option num) (s : ChatState) : ChatState :=
  {| step := step s;
     countryId := countryId s;
     nightsMin := nightsMin s;
     nightsMax := nightsMax s;
     budgetChosen := budgetChosen s;
     budgetMax := budgetMax s;
     budgetMin := budgetMin s;
     ratingChosen := ratingChosen s;
     ratingMin := v;
     period := period s;
     meal := meal s;
     mealChosen := mealChosen s;
     editingFilter := editingFilter s;
     offset := offset s;
     limit := limit s;
     lastRequestId := lastRequestId s;
     lastResults := lastResults s;
     pendingHotel := pendingHotel s;
     phonePromptShownForHotelId := phonePromptShownForHotelId s;
     aiMode := aiMode s;
     aiDraft := aiDraft s;
     aiAwaiting := aiAwaiting s;
     lastSearchArgs := lastSearchArgs s;
     activeSearchSeq := activeSearchSeq s;
     searchContext := searchContext s;
     pendingBudgetClarification := pendingBudgetClarification s;
     pendingPromptAction := pendingPromptAction s;
     favorites := favorites s;
     favoritesSeq := favoritesSeq s |}.
Definition set_period (v : option str) (s : ChatState) : ChatState :=
  {| step := step s;
     countryId := countryId s;
     nightsMin := nightsMin s;
     nightsMax := nightsMax s;
     budgetChosen := budgetChosen s;
     budgetMax := budgetMax s;
     budgetMin := budgetMin s;
     ratingChosen := ratingChosen s;
     ratingMin := ratingMin s;
     period := v;
     meal := meal s;
     mealChosen := mealChosen s;
     editingFilter := editingFilter s;
     offset := offset s;
     limit := limit s;
     lastRequestId := lastRequestId s;
     lastResults := lastResults s;
     pendingHotel := pendingHotel s;
     phonePromptShownForHotelId := phonePromptShownForHotelId s;
     aiMode := aiMode s;
     aiDraft := aiDraft s;
     aiAwaiting := aiAwaiting s;
     lastSearchArgs := lastSearchArgs s;
     activeSearchSeq := activeSearchSeq s;
     searchContext := searchContext s;
     pendingBudgetClarification := pendingBudgetClarification s;
     pendingPromptAction := pendingPromptAction s;
     favorites := favorites s;
     favoritesSeq := favoritesSeq s |}.
Definition set_meal (v : option str) (s : ChatState) : ChatState :=
  {| step := step s;
     countryId := countryId s;
     nightsMin := nightsMin s;
     nightsMax := nightsMax s;
     budgetChosen := budgetChosen s;
     budgetMax := budgetMax s;
     budgetMin := budgetMin s;
     ratingChosen := ratingChosen s;
     ratingMin := ratingMin s;
     period := period s;
     meal := v;
     mealChosen := mealChosen s;
     editingFilter := editingFilter s;
     offset := offset s;
     limit := limit s;
     lastRequestId := lastRequestId s;
     lastResults := lastResults s;
     pendingHotel := pendingHotel s;
     phonePromptShownForHotelId := phonePromptShownForHotelId s;
     aiMode := aiMode s;
     aiDraft := aiDraft s;
     aiAwaiting := aiAwaiting s;
     lastSearchArgs := lastSearchArgs s;
     activeSearchSeq := activeSearchSeq s;
     searchContext := searchContext s;
     pendingBudgetClarification := pendingBudgetClarification s;
     pendingPromptAction := pendingPromptAction s;
     favorites := favorites s;
     favoritesSeq := favoritesSeq s |}.
Definition set_mealChosen (v : bool) (s : ChatState) : ChatState :=
  {| step := step s;
     countryId := countryId s;
     nightsMin := nightsMin s;
     nightsMax := nightsMax s;
     budgetChosen := budgetChosen s;
     budgetMax := budgetMax s;
     budgetMin := budgetMin s;
     ratingChosen := ratingChosen s;
     ratingMin := ratingMin s;
     period := period s;
     meal := meal s;
     mealChosen := v;
     editingFilter := editingFilter s;
     offset := offset s;
     limit := limit s;
     lastRequestId := lastRequestId s;
     lastResults := lastResults s;
     pendingHotel := pendingHotel s;
     phonePromptShownForHotelId := phonePromptShownForHotelId s;
     aiMode := aiMode s;
     aiDraft := aiDraft s;
     aiAwaiting := aiAwaiting s;
     lastSearchArgs := lastSearchArgs s;
     activeSearchSeq := activeSearchSeq s;
     searchContext := searchContext s;
     pendingBudgetClarification := pendingBudgetClarification s;
     pendingPromptAction := pendingPromptAction s;
     favorites := favorites s;
     favoritesSeq := favoritesSeq s |}.
Definition set_editingFilter (v : option Filter) (s : ChatState) : ChatState :=
  {| step := step s;
     countryId := countryId s;
     nightsMin := nightsMin s;
     nightsMax := nightsMax s;
     budgetChosen := budgetChosen s;
     budgetMax := budgetMax s;
     budgetMin := budgetMin s;
     ratingChosen := ratingChosen s;
     ratingMin := ratingMin s;
     period := period s;
     meal := meal s;
     mealChosen := mealChosen s;
     editingFilter := v;
     offset := offset s;
     limit := limit s;
     lastRequestId := lastRequestId s;
     lastResults := lastResults s;
     pendingHotel := pendingHotel s;
     phonePromptShownForHotelId := phonePromptShownForHotelId s;
     aiMode := aiMode s;
     aiDraft := aiDraft s;
     aiAwaiting := aiAwaiting s;
     lastSearchArgs := lastSearchArgs s;
     activeSearchSeq := activeSearchSeq s;
     searchContext := searchContext s;
     pendingBudgetClarification := pendingBudgetClarification s;
     pendingPromptAction := pendingPromptAction s;
     favorites := favorites s;
     favoritesSeq := favoritesSeq s |}.
Definition set_offset (v : Z) (s : ChatState) : ChatState :=
  {| step := step s;
     countryId := countryId s;
     nightsMin := nightsMin s;
     nightsMax := nightsMax s;
     budgetChosen := budgetChosen s;
     budgetMax := budgetMax s;
     budgetMin := budgetMin s;
     ratingChosen := ratingChosen s;
     ratingMin := ratingMin s;
     period := period s;
     meal := meal s;
     mealChosen := mealChosen s;
     editingFilter := editingFilter s;
     offset := v;
     limit := limit s;
     lastRequestId := lastRequestId s;
     lastResults := lastResults s;
     pendingHotel := pendingHotel s;
     phonePromptShownForHotelId := phonePromptShownForHotelId s;
     aiMode := aiMode s;
     aiDraft := aiDraft s;
     aiAwaiting := aiAwaiting s;
     lastSearchArgs := lastSearchArgs s;
     activeSearchSeq := activeSearchSeq s;
     searchContext := searchContext s;
     pendingBudgetClarification := pendingBudgetClarification s;
     pendingPromptAction := pendingPromptAction s;
     favorites := favorites s;
     favoritesSeq := favoritesSeq s |}.
Definition set_limit (v : Z) (s : ChatState) : ChatState :=
  {| step := step s;
     countryId := countryId s;
     nightsMin := nightsMin s;
     nightsMax := nightsMax s;
     budgetChosen := budgetChosen s;
     budgetMax := budgetMax s;
     budgetMin := budgetMin s;
     ratingChosen := ratingChosen s;
     ratingMin := ratingMin s;
     period := period s;
     meal := meal s;
     mealChosen := mealChosen s;
     editingFilter := editingFilter s;
     offset := offset s;
     limit := v;
     lastRequestId := lastRequestId s;
     lastResults := lastResults s;
     pendingHotel := pendingHotel s;
     phonePromptShownForHotelId := phonePromptShownForHotelId s;
     aiMode := aiMode s;
     aiDraft := aiDraft s;
     aiAwaiting := aiAwaiting s;
     lastSearchArgs := lastSearchArgs s;
     activeSearchSeq := activeSearchSeq s;
     searchContext := searchContext s;
     pendingBudgetClarification := pendingBudgetClarification s;
     pendingPromptAction := pendingPromptAction s;
     favorites := favorites s;
     favoritesSeq := favoritesSeq s |}.
Definition set_lastRequestId (v : option str) (s : ChatState) : ChatState :=
  {| step := step s;
     countryId := countryId s;
     nightsMin := nightsMin s;
     nightsMax := nightsMax s;
     budgetChosen := budgetChosen s;
     budgetMax := budgetMax s;
     budgetMin := budgetMin s;
     ratingChosen := ratingChosen s;
     ratingMin := ratingMin s;
     period := period s;
     meal := meal s;
     mealChosen := mealChosen s;
     editingFilter := editingFilter s;
     offset := offset s;
     limit := limit s;
     lastRequestId := v;
     lastResults := lastResults s;
     pendingHotel := pendingHotel s;
     phonePromptShownForHotelId := phonePromptShownForHotelId s;
     aiMode := aiMode s;
     aiDraft := aiDraft s;
     aiAwaiting := aiAwaiting s;
     lastSearchArgs := lastSearchArgs s;
     activeSearchSeq := activeSearchSeq s;
     searchContext := searchContext s;
     pendingBudgetClarification := pendingBudgetClarification s;
     pendingPromptAction := pendingPromptAction s;
     favorites := favorites s;
     favoritesSeq := favoritesSeq s |}.
Definition set_lastResults (v : list Tour) (s : ChatState) : ChatState :=
  {| step := step s;
     countryId := countryId s;
     nightsMin := nightsMin s;
     nightsMax := nightsMax s;
     budgetChosen := budgetChosen s;
     budgetMax := budgetMax s;
     budgetMin := budgetMin s;
     ratingChosen := ratingChosen s;
     ratingMin := ratingMin s;
     period := period s;
     meal := meal s;
     mealChosen := mealChosen s;
     editingFilter := editingFilter s;
     offset := offset s;
     limit := limit s;
     lastRequestId := lastRequestId s;
     lastResults := v;
     pendingHotel := pendingHotel s;
     phonePromptShownForHotelId := phonePromptShownForHotelId s;
     aiMode := aiMode s;
     aiDraft := aiDraft s;
     aiAwaiting := aiAwaiting s;
     lastSearchArgs := lastSearchArgs s;
     activeSearchSeq := activeSearchSeq s;
     searchContext := searchContext s;
     pendingBudgetClarification := pendingBudgetClarification s;
     pendingPromptAction := pendingPromptAction s;
     favorites := favorites s;
     favoritesSeq := favoritesSeq s |}.
Definition set_pendingHotel (v : option Tour) (s : ChatState) : ChatState :=
  {| step := step s;
     countryId := countryId s;
     nightsMin := nightsMin s;
     nightsMax := nightsMax s;
     budgetChosen := budgetChosen s;
     budgetMax := budgetMax s;
     budgetMin := budgetMin s;
     ratingChosen := ratingChosen s;
     ratingMin := ratingMin s;
     period := period s;
     meal := meal s;
     mealChosen := mealChosen s;
     editingFilter := editingFilter s;
     offset := offset s;
     limit := limit s;
     lastRequestId := lastRequestId s;
     lastResults := lastResults s;
     pendingHotel := v;
     phonePromptShownForHotelId := phonePromptShownForHotelId s;
     aiMode := aiMode s;
     aiDraft := aiDraft s;
     aiAwaiting := aiAwaiting s;
     lastSearchArgs := lastSearchArgs s;
     activeSearchSeq := activeSearchSeq s;
     searchContext := searchContext s;
     pendingBudgetClarification := pendingBudgetClarification s;
     pendingPromptAction := pendingPromptAction s;
     favorites := favorites s;
     favoritesSeq := favoritesSeq s |}.
Definition set_phonePromptShownForHotelId (v : option Z) (s : ChatState) : ChatState :=
  {| step := step s;
     countryId := countryId s;
     nightsMin := nightsMin s;
     nightsMax := nightsMax s;
     budgetChosen := budgetChosen s;
     budgetMax := budgetMax s;
     budgetMin := budgetMin s;
     ratingChosen := ratingChosen s;
     ratingMin := ratingMin s;
     period := period s;
     meal := meal s;
     mealChosen := mealChosen s;
     editingFilter := editingFilter s;
     offset := offset s;
     limit := limit s;
     lastRequestId := lastRequestId s;
     lastResults := lastResults s;
     pendingHotel := pendingHotel s;
     phonePromptShownForHotelId := v;
     aiMode := aiMode s;
     aiDraft := aiDraft s;
     aiAwaiting := aiAwaiting s;
     lastSearchArgs := lastSearchArgs s;
     activeSearchSeq := activeSearchSeq s;
     searchContext := searchContext s;
     pendingBudgetClarification := pendingBudgetClarification s;
     pendingPromptAction := pendingPromptAction s;
     favorites := favorites s;
     favoritesSeq := favoritesSeq s |}.
Definition set_aiMode (v : bool) (s : ChatState) : ChatState :=
  {| step := step s;
     countryId := countryId s;
     nightsMin := nightsMin s;
     nightsMax := nightsMax s;
     budgetChosen := budgetChosen s;
     budgetMax := budgetMax s;
     budgetMin := budgetMin s;
     ratingChosen := ratingChosen s;
     ratingMin := ratingMin s;
     period := period s;
     meal := meal s;
     mealChosen := mealChosen s;
     editingFilter := editingFilter s;
     offset := offset s;
     limit := limit s;
     lastRequestId := lastRequestId s;
     lastResults := lastResults s;
     pendingHotel := pendingHotel s;
     phonePromptShownForHotelId := phonePromptShownForHotelId s;
     aiMode := v;
     aiDraft := aiDraft s;
     aiAwaiting := aiAwaiting s;
     lastSearchArgs := lastSearchArgs s;
     activeSearchSeq := activeSearchSeq s;
     searchContext := searchContext s;
     pendingBudgetClarification := pendingBudgetClarification s;
     pendingPromptAction := pendingPromptAction s;
     favorites := favorites s;
     favoritesSeq := favoritesSeq s |}.
Definition set_aiDraft (v : option Draft) (s : ChatState) : ChatState :=
  {| step := step s;
     countryId := countryId s;
     nightsMin := nightsMin s;
     nightsMax := nightsMax s;
     budgetChosen := budgetChosen s;
     budgetMax := budgetMax s;
     budgetMin := budgetMin s;
     ratingChosen := ratingChosen s;
     ratingMin := ratingMin s;
     period := period s;
     meal := meal s;
     mealChosen := mealChosen s;
     editingFilter := editingFilter s;
     offset := offset s;
     limit := limit s;
     lastRequestId := lastRequestId s;
     lastResults := lastResults s;
     pendingHotel := pendingHotel s;
     phonePromptShownForHotelId := phonePromptShownForHotelId s;
     aiMode := aiMode s;
     aiDraft := v;
     aiAwaiting := aiAwaiting s;
     lastSearchArgs := lastSearchArgs s;
     activeSearchSeq := activeSearchSeq s;
     searchContext := searchContext s;
     pendingBudgetClarification := pendingBudgetClarification s;
     pendingPromptAction := pendingPromptAction s;
     favorites := favorites s;
     favoritesSeq := favoritesSeq s |}.
Definition set_aiAwaiting (v : option Awaiting) (s : ChatState) : ChatState :=
  {| step := step s;
     countryId := countryId s;
     nightsMin := nightsMin s;
     nightsMax := nightsMax s;
     budgetChosen := budgetChosen s;
     budgetMax := budgetMax s;
     budgetMin := budgetMin s;
     ratingChosen := ratingChosen s;
     ratingMin := ratingMin s;
     period := period s;
     meal := meal s;
     mealChosen := mealChosen s;
     editingFilter := editingFilter s;
     offset := offset s;
     limit := limit s;
     lastRequestId := lastRequestId s;
     lastResults := lastResults s;
     pendingHotel := pendingHotel s;
     phonePromptShownForHotelId := phonePromptShownForHotelId s;
     aiMode := aiMode s;
     aiDraft := aiDraft s;
     aiAwaiting := v;
     lastSearchArgs := lastSearchArgs s;
     activeSearchSeq := activeSearchSeq s;
     searchContext := searchContext s;
     pendingBudgetClarification := pendingBudgetClarification s;
     pendingPromptAction := pendingPromptAction s;
     favorites := favorites s;
     favoritesSeq := favoritesSeq s |}.
Definition set_lastSearchArgs (v : option SearchToursInput) (s : ChatState) : ChatState :=
  {| step := step s;
     countryId := countryId s;
     nightsMin := nightsMin s;
     nightsMax := nightsMax s;
     budgetChosen := budgetChosen s;
     budgetMax := budgetMax s;
     budgetMin := budgetMin s;
     ratingChosen := ratingChosen s;
     ratingMin := ratingMin s;
     period := period s;
     meal := meal s;
     mealChosen := mealChosen s;
     editingFilter := editingFilter s;
     offset := offset s;
     limit := limit s;
     lastRequestId := lastRequestId s;
     lastResults := lastResults s;
     pendingHotel := pendingHotel s;
     phonePromptShownForHotelId := phonePromptShownForHotelId s;
     aiMode := aiMode s;
     aiDraft := aiDraft s;
     aiAwaiting := aiAwaiting s;
     lastSearchArgs := v;
     activeSearchSeq := activeSearchSeq s;
     searchContext := searchContext s;
     pendingBudgetClarification := pendingBudgetClarification s;
     pendingPromptAction := pendingPromptAction s;
     favorites := favorites s;
     favoritesSeq := favoritesSeq s |}.
Definition set_activeSearchSeq (v : option Z) (s : ChatState) : ChatState :=
  {| step := step s;
     countryId := countryId s;
     nightsMin := nightsMin s;
     nightsMax := nightsMax s;
     budgetChosen := budgetChosen s;
     budgetMax := budgetMax s;
     budgetMin := budgetMin s;
     ratingChosen := ratingChosen s;
     ratingMin := ratingMin s;
     period := period s;
     meal := meal s;
     mealChosen := mealChosen s;
     editingFilter := editingFilter s;
     offset := offset s;
     limit := limit s;
     lastRequestId := lastRequestId s;
     lastResults := lastResults s;
     pendingHotel := pendingHotel s;
     phonePromptShownForHotelId := phonePromptShownForHotelId s;
     aiMode := aiMode s;
     aiDraft := aiDraft s;
     aiAwaiting := aiAwaiting s;
     lastSearchArgs := lastSearchArgs s;
     activeSearchSeq := v;
     searchContext := searchContext s;
     pendingBudgetClarification := pendingBudgetClarification s;
     pendingPromptAction := pendingPromptAction s;
     favorites := favorites s;
     favoritesSeq := favoritesSeq s |}.
Definition set_searchContext (v : option SearchContext) (s : ChatState) : ChatState :=
  {| step := step s;
     countryId := countryId s;
     nightsMin := nightsMin s;
     nightsMax := nightsMax s;
     budgetChosen := budgetChosen s;
     budgetMax := budgetMax s;
     budgetMin := budgetMin s;
     ratingChosen := ratingChosen s;
     ratingMin := ratingMin s;
     period := period s;
     meal := meal s;
     mealChosen := mealChosen s;
     editingFilter := editingFilter s;
     offset := offset s;
     limit := limit s;
     lastRequestId := lastRequestId s;
     lastResults := lastResults s;
     pendingHotel := pendingHotel s;
     phonePromptShownForHotelId := phonePromptShownForHotelId s;
     aiMode := aiMode s;
     aiDraft := aiDraft s;
     aiAwaiting := aiAwaiting s;
     lastSearchArgs := lastSearchArgs s;
     activeSearchSeq := activeSearchSeq s;
     searchContext := v;
     pendingBudgetClarification := pendingBudgetClarification s;
     pendingPromptAction := pendingPromptAction s;
     favorites := favorites s;
     favoritesSeq := favoritesSeq s |}.
Definition set_pendingBudgetClarification (v : option PendingBudget) (s : ChatState) : ChatState :=
  {| step := step s;
     countryId := countryId s;
     nightsMin := nightsMin s;
     nightsMax := nightsMax s;
     budgetChosen := budgetChosen s;
     budgetMax := budgetMax s;
     budgetMin := budgetMin s;
     ratingChosen := ratingChosen s;
     ratingMin := ratingMin s;
     period := period s;
     meal := meal s;
     mealChosen := mealChosen s;
     editingFilter := editingFilter s;
     offset := offset s;
     limit := limit s;
     lastRequestId := lastRequestId s;
     lastResults := lastResults s;
     pendingHotel := pendingHotel s;
     phonePromptShownForHotelId := phonePromptShownForHotelId s;
     aiMode := aiMode s;
     aiDraft := aiDraft s;
     aiAwaiting := aiAwaiting s;
     lastSearchArgs := lastSearchArgs s;
     activeSearchSeq := activeSearchSeq s;
     searchContext := searchContext s;
     pendingBudgetClarification := v;
     pendingPromptAction := pendingPromptAction s;
     favorites := favorites s;
     favoritesSeq := favoritesSeq s |}.
Definition set_pendingPromptAction (v : option PromptAction) (s : ChatState) : ChatState :=
  {| step := step s;
     countryId := countryId s;
     nightsMin := nightsMin s;
     nightsMax := nightsMax s;
     budgetChosen := budgetChosen s;
     budgetMax := budgetMax s;
     budgetMin := budgetMin s;
     ratingChosen := ratingChosen s;
     ratingMin := ratingMin s;
     period := period s;
     meal := meal s;
     mealChosen := mealChosen s;
     editingFilter := editingFilter s;
     offset := offset s;
     limit := limit s;
     lastRequestId := lastRequestId s;
     lastResults := lastResults s;
     pendingHotel := pendingHotel s;
     phonePromptShownForHotelId := phonePromptShownForHotelId s;
     aiMode := aiMode s;
     aiDraft := aiDraft s;
     aiAwaiting := aiAwaiting s;
     lastSearchArgs := lastSearchArgs s;
     activeSearchSeq := activeSearchSeq s;
     searchContext := searchContext s;
     pendingBudgetClarification := pendingBudgetClarification s;
     pendingPromptAction := v;
     favorites := favorites s;
     favoritesSeq := favoritesSeq s |}.
Definition set_favorites (v : FavoritesStore) (s : ChatState) : ChatState :=
  {| step := step s;
     countryId := countryId s;
     nightsMin := nightsMin s;
     nightsMax := nightsMax s;
     budgetChosen := budgetChosen s;
     budgetMax := budgetMax s;
     budgetMin := budgetMin s;
     ratingChosen := ratingChosen s;
     ratingMin := ratingMin s;
     period := period s;
     meal := meal s;
     mealChosen := mealChosen s;
     editingFilter := editingFilter s;
     offset := offset s;
     limit := limit s;
     lastRequestId := lastRequestId s;
     lastResults := lastResults s;
     pendingHotel := pendingHotel s;
     phonePromptShownForHotelId := phonePromptShownForHotelId s;
     aiMode := aiMode s;
     aiDraft := aiDraft s;
     aiAwaiting := aiAwaiting s;
     lastSearchArgs := lastSearchArgs s;
     activeSearchSeq := activeSearchSeq s;
     searchContext := searchContext s;
     pendingBudgetClarification := pendingBudgetClarification s;
     pendingPromptAction := pendingPromptAction s;
     favorites := v;
     favoritesSeq := favoritesSeq s |}.
Definition set_favoritesSeq (v : Z) (s : ChatState) : ChatState :=
  {| step := step s;
     countryId := countryId s;
     nightsMin := nightsMin s;
     nightsMax := nightsMax s;
     budgetChosen := budgetChosen s;
     budgetMax := budgetMax s;
     budgetMin := budgetMin s;
     ratingChosen := ratingChosen s;
     ratingMin := ratingMin s;
     period := period s;
     meal := meal s;
     mealChosen := mealChosen s;
     editingFilter := editingFilter s;
     offset := offset s;
     limit := limit s;
     lastRequestId := lastRequestId s;
     lastResults := lastResults s;
     pendingHotel := pendingHotel s;
     phonePromptShownForHotelId := phonePromptShownForHotelId s;
     aiMode := aiMode s;
     aiDraft := aiDraft s;
     aiAwaiting := aiAwaiting s;
     lastSearchArgs := lastSearchArgs s;
     activeSearchSeq := activeSearchSeq s;
     searchContext := searchContext s;
     pendingBudgetClarification := pendingBudgetClarification s;
     pendingPromptAction := pendingPromptAction s;
     favorites := favorites s;
     favoritesSeq := v |}.

Declare Scope state_scope.
Notation "s |> f" := (f s) (at level 45, left associativity, only parsing) : state_scope.
Local Open Scope state_scope.

(** *** favorites.ts *)

Definition createEmptyFavorites : FavoritesStore := {| tours := []; collections := [] |}.

Definition saveTour (fav : FavoritesStore) (tour : Tour) : FavoritesStore * bool :=
  if existsb (fun t => hotel_id t =? hotel_id tour) (tours fav) then (fav, false)
  else ({| tours := tours fav ++ [tour]; collections := collections fav |}, true).

Definition saveCollection (fav : FavoritesStore) (id : str) (createdAt : Z)
  (country : string) (nights : num) (ts : list Tour) (maxTours : Z)
  : FavoritesStore * SavedSet :=
  let collection :=
    {| set_id := id; set_createdAt := createdAt; set_country := country;
       set_nights := nights; set_tours := firstn (Z.to_nat (Z.max 1 maxTours)) ts |} in
  ({| tours := tours fav; collections := collections fav ++ [collection] |}, collection).

Definition deleteCollection (fav : FavoritesStore) (id : str) : FavoritesStore * bool :=
  let next := List.filter (fun c => negb (str_eqb (set_id c) id)) (collections fav) in
  if (length next =? length (collections fav))%nat then (fav, false)
  else ({| tours := tours fav; collections := next |}, true).

Definition clearFavorites : FavoritesStore := createEmptyFavorites.

(** *** State of a new chat, and the resets *)

Definition initial_state : ChatState :=
  {| step := idle; countryId := None;
     nightsMin := si_nights_min DEFAULT_SEARCH_TOURS_ARGS;
     nightsMax := si_nights_max DEFAULT_SEARCH_TOURS_ARGS;
     budgetChosen := false; budgetMax := None; budgetMin := None;
     ratingChosen := false; ratingMin := None; period := None;
     meal := Some (u "ANY"); mealChosen := false; editingFilter := None;
     offset := 0; limit := si_limit DEFAULT_SEARCH_TOURS_ARGS;
     lastRequestId := None; lastResults := []; pendingHotel := None;
     phonePromptShownForHotelId := None; aiMode := false; aiDraft := None;
     aiAwaiting := None; lastSearchArgs := None; activeSearchSeq := None;
     searchContext := None; pendingBudgetClarification := None;
     pendingPromptAction := None; favorites := createEmptyFavorites;
     favoritesSeq := 0 |}.

Definition resetSearchState (state : ChatState) : ChatState :=
  state
  |> set_nightsMin (si_nights_min DEFAULT_SEARCH_TOURS_ARGS)
  |> set_nightsMax (si_nights_max DEFAULT_SEARCH_TOURS_ARGS)
  |> set_budgetChosen false
  |> set_budgetMax None
  |> set_budgetMin None
  |> set_ratingChosen false
  |> set_ratingMin None
  |> set_period None
  |> set_meal (Some (u "ANY"))
  |> set_mealChosen false
  |> set_editingFilter None
  |> set_offset (si_offset DEFAULT_SEARCH_TOURS_ARGS)
  |> set_limit (si_limit DEFAULT_SEARCH_TOURS_ARGS)
  |> set_lastRequestId None
  |> set_lastResults []
  |> set_pendingHotel None
  |> set_phonePromptShownForHotelId None
  |> set_aiMode false
  |> set_aiDraft None
  |> set_aiAwaiting None
  |> set_lastSearchArgs None
  |> set_activeSearchSeq None
  |> set_searchContext None
  |> set_pendingBudgetClarification None
  |> set_pendingPromptAction None.
  (* favorites persist across new search/reset by design *)

Definition resetFlow (state : ChatState) : ChatState :=
  let keepLastSearchArgs := lastSearchArgs state in
  resetSearchState state
  |> set_lastSearchArgs keepLastSearchArgs
  |> set_step idle
  |> set_pendingPromptAction None.

(** *** What a handler sends *)

Inductive Out :=
| Say (text : string)                  (* ctx.reply with a fixed text *)
| Found (total shown : Z)              (* buildFoundText *)
| Card (tour : Tour)                   (* one result card with its buttons *)
| Recap (tour : Tour)                  (* recapText of the chosen tour *)
| ResultActions (requestId : str)      (* sendResultActions *)
| AskAmount (value : Z)                (* "Не поняла сумму. Напишите «до v» или «около v»." *)
| AskMissing (field : Awaiting).       (* askAiMissingField *)

Definition phone_hint : Out :=
  Say "Напишите номер сообщением (пример: +79991234567) или нажмите «Отмена».".
Definition already_checking : Out := Say "Уже проверяю этот тур ✅".
Definition checking_started : Out := Say "Минутку, проверяю наличие и цену…".

(** *** The search context *)

Definition COUNTRY_LABEL_BY_ID (id : num) : option string :=
  match id with
  | Fin q =>
    if Qeq_bool q 47 then Some "Турция"
    else if Qeq_bool q 54 then Some "Египет"
    else if Qeq_bool q 29 then Some "Таиланд"
    else if Qeq_bool q 63 then Some "ОАЭ"
    else if Qeq_bool q 90 then Some "Мальдивы"
    else if Qeq_bool q 91 then Some "Сейшелы"
    else None
  | _ => None
  end%string.

(** Truthiness of a number: not zero and not [NaN]. *)
Definition truthy (n : num) : bool :=
  match n with Fin q => negb (Qeq_bool q 0) | NaN => false | _ => true end.

Definition empty_context : SearchContext :=
  {| sc_countryId := None; sc_countryName := None; sc_dateFrom := None; sc_dateTo := None;
     sc_period := None; sc_nightsMin := None; sc_nightsMax := None; sc_budgetMax := None;
     sc_budgetMin := None; sc_budgetTarget := None; sc_meal := None; sc_ratingMin := None;
     sc_adults := None; sc_children := None; sc_lastArgs := None; sc_lastResults := None;
     sc_lastRequestId := None |}.

Definition or_prev {A} (patch prev : option A) : option A :=
  match patch with Some _ => patch | None => prev end.

(** [applySearchContext(prev, patch)] in its default "merge" mode: the
    defined fields of the patch replace those of [prev]. *)
Definition applySearchContext (prev : option SearchContext) (patch : SearchContext)
  : SearchContext :=
  let p := match prev with Some c => c | None => empty_context end in
  {| sc_countryId := or_prev (sc_countryId patch) (sc_countryId p);
     sc_countryName := or_prev (sc_countryName patch) (sc_countryName p);
     sc_dateFrom := or_prev (sc_dateFrom patch) (sc_dateFrom p);
     sc_dateTo := or_prev (sc_dateTo patch) (sc_dateTo p);
     sc_period := or_prev (sc_period patch) (sc_period p);
     sc_nightsMin := or_prev (sc_nightsMin patch) (sc_nightsMin p);
     sc_nightsMax := or_prev (sc_nightsMax patch) (sc_nightsMax p);
     sc_budgetMax := or_prev (sc_budgetMax patch) (sc_budgetMax p);
     sc_budgetMin := or_prev (sc_budgetMin patch) (sc_budgetMin p);
     sc_budgetTarget := or_prev (sc_budgetTarget patch) (sc_budgetTarget p);
     sc_meal := or_prev (sc_meal patch) (sc_meal p);
     sc_ratingMin := or_prev (sc_ratingMin patch) (sc_ratingMin p);
     sc_adults := or_prev (sc_adults patch) (sc_adults p);
     sc_children := or_prev (sc_children patch) (sc_children p);
     sc_lastArgs := or_prev (sc_lastArgs patch) (sc_lastArgs p);
     sc_lastResults := or_prev (sc_lastResults patch) (sc_lastResults p);
     sc_lastRequestId := or_prev (sc_lastRequestId patch) (sc_lastRequestId p) |}.

Definition syncSearchContextFromState (state : ChatState) (args : option SearchToursInput)
  : ChatState :=
  let baseArgs := or_prev args (lastSearchArgs state) in
  let cid := or_prev (match baseArgs with Some a => si_country_id a | None => None end)
                      (countryId state) in
  let countryName :=
    match cid with
    | Some i => if truthy i then COUNTRY_LABEL_BY_ID i else None
    | None => None
    end in
  let patch :=
    {| sc_countryId := cid;
       sc_countryName := countryName;
       sc_dateFrom := option_map si_date_from baseArgs;
       sc_dateTo := option_map si_date_to baseArgs;
       sc_period := or_prev (match baseArgs with Some a => si_period a | None => None end)
                            (period state);
       sc_nightsMin := Some (match baseArgs with Some a => si_nights_min a | None => nightsMin state end);
       sc_nightsMax := Some (match baseArgs with Some a => si_nights_max a | None => nightsMax state end);
       sc_budgetMax := match baseArgs with Some a => Some (si_budget_max a) | None => budgetMax state end;
       sc_budgetMin := match baseArgs with
                       | Some a => or_prev (si_budget_min a) (budgetMin state)
                       | None => budgetMin state
                       end;
       sc_budgetTarget := None;
       sc_meal := match baseArgs with
                  | Some a => match si_meal a with
                              | Some m => Some (toUpperCase m)
                              | None => meal state
                              end
                  | None => meal state
                  end;
       sc_ratingMin := match baseArgs with Some a => Some (si_rating a) | None => ratingMin state end;
       sc_adults := Some (match baseArgs with
                          | Some a => si_adults a
                          | None => si_adults DEFAULT_SEARCH_TOURS_ARGS
                          end);
       sc_children := Some (match baseArgs with
                            | Some a => si_children a
                            | None => si_children DEFAULT_SEARCH_TOURS_ARGS
                            end);
       sc_lastArgs := baseArgs;
       sc_lastResults := Some (lastResults state);
       sc_lastRequestId := lastRequestId state |} in
  set_searchContext (Some (applySearchContext (searchContext state) patch)) state.

Definition results_patch (output : SearchOutput) : SearchContext :=
  {| sc_countryId := None; sc_countryName := None; sc_dateFrom := None; sc_dateTo := None;
     sc_period := None; sc_nightsMin := None; sc_nightsMax := None; sc_budgetMax := None;
     sc_budgetMin := None; sc_budgetTarget := None; sc_meal := None; sc_ratingMin := None;
     sc_adults := None; sc_children := None; sc_lastArgs := None;
     sc_lastResults := Some (results output);
     sc_lastRequestId := Some (requestid output) |}.

Definition budget_patch (target : option num) (max : num) : SearchContext :=
  {| sc_countryId := None; sc_countryName := None; sc_dateFrom := None; sc_dateTo := None;
     sc_period := None; sc_nightsMin := None; sc_nightsMax := None; sc_budgetMax := Some max;
     sc_budgetMin := None; sc_budgetTarget := target; sc_meal := None; sc_ratingMin := None;
     sc_adults := None; sc_children := None; sc_lastArgs := None; sc_lastResults := None;
     sc_lastRequestId := None |}.

(** *** Showing a result list *)

Definition buildFoundText (total shown : Z) : list Out :=
  if (total <=? 0) || (shown <=? 0) then [] else [Found total shown].

Definition sendCards (state : ChatState) (output : SearchOutput) : ChatState * list Out :=
  let s1 := state
            |> set_step idle
            |> set_aiAwaiting None
            |> set_aiDraft (Some empty_draft)
            |> set_lastRequestId (Some (requestid output))
            |> set_lastResults (results output) in
  let s2 := syncSearchContextFromState s1 None in
  let s3 := match searchContext s2 with
            | Some ctx =>
              set_searchContext (Some (applySearchContext (Some ctx) (results_patch output))) s2
            | None => s2
            end in
  match results output with
  | [] =>
    (s3, [if 0 <? offset s3
          then Say "Больше туров нет, попробуйте изменить параметры."
          else Say "😕 Ничего не найдено. Попробуем изменить фильтры?"])
  | _ :: _ =>
    let shown := Z.of_nat (length (results output)) in
    let tot := match total output with
               | Some n => if n <? 0 then offset s3 + shown else n
               | None => offset s3 + shown
               end in
    (s3, buildFoundText tot shown ++ map Card (results output) ++
         [Say "Выберите тур и нажмите 💚 — мы уточним наличие и цену. Обычно отвечаем в течение 5–10 минут.";
          ResultActions (requestid output)])
  end.

(** *** The stale-result guard *)

Definition beginSearchSeq (state : ChatState) : ChatState * Z :=
  let next := match activeSearchSeq state with Some n => n | None => 0 end + 1 in
  (set_activeSearchSeq (Some next) state, next).

Definition isSearchSeqStale (state : ChatState) (seq : Z) : bool :=
  negb (match activeSearchSeq state with Some n => n | None => 0 end =? seq).

(** What every search execution does when [callSearchTours] resolves: the
    code after the [await] in [runSearch] and in the text handler's direct,
    follow-up and clarification searches. [state] is the chat's state at that
    moment, [seq] the number captured before the call. *)
Definition on_search_result (state : ChatState) (seq : Z) (output : SearchOutput)
  : ChatState * list Out :=
  if isSearchSeqStale state seq then (state, [])
  else sendCards state output.

(** [buildSearchArgs(chatId, state)] followed by the schema's [parse]; the
    state is assumed to hold values the schema accepts. *)
Definition buildSearchArgs (state : ChatState) : ChatState * SearchToursInput :=
  let state1 :=
    match countryId state with
    | Some i => if truthy i then state else set_countryId (Some (of_Z 47)) state
    | None => set_countryId (Some (of_Z 47)) state
    end in
  (state1,
   {| si_country_id := countryId state1;
      si_date_from := si_date_from DEFAULT_SEARCH_TOURS_ARGS;
      si_date_to := si_date_to DEFAULT_SEARCH_TOURS_ARGS;
      si_nights_min := nightsMin state1;
      si_nights_max := nightsMax state1;
      si_adults := si_adults DEFAULT_SEARCH_TOURS_ARGS;
      si_children := si_children DEFAULT_SEARCH_TOURS_ARGS;
      si_period := match period state1 with
                   | Some [] => None
                   | p => p
                   end;
      si_budget_min := budgetMin state1;
      si_budget_max := match budgetMax state1 with
                       | Some b => b
                       | None => si_budget_max DEFAULT_SEARCH_TOURS_ARGS
                       end;
      si_meal := match meal state1 with
                 | Some m => if str_eqb m [] || str_eqb m (u "ANY") then None else Some m
                 | None => None
                 end;
      si_rating := match ratingMin state1 with
                   | Some r => if gt0 r then r else si_rating DEFAULT_SEARCH_TOURS_ARGS
                   | None => si_rating DEFAULT_SEARCH_TOURS_ARGS
                   end;
      si_limit := limit state1;
      si_offset := offset state1 |}).

(** A search that has been sent to the backend and not yet answered. *)
Record SearchCall := { call_args : SearchToursInput; call_seq : Z }.

(** [runSearch] up to its [await]. *)
Definition runSearch_begin (state : ChatState) : ChatState * SearchCall :=
  let '(s1, seq) := beginSearchSeq state in
  let '(s2, args) := buildSearchArgs s1 in
  let s3 := set_lastSearchArgs (Some args) s2 in
  (syncSearchContextFromState s3 (Some args), {| call_args := args; call_seq := seq |}).

(** *** Slot filling in free-form mode *)

Definition nextAiAwaiting (draft : Draft) : option Awaiting :=
  if negb (hasCountry draft) then Some aw_country
  else if negb (hasNights draft) then Some aw_nights
  else if negb (hasBudget draft) then Some aw_budget
  else None.

Definition hasAiSearchData (draft : Draft) : bool := hasNights draft && hasBudget draft.

Definition askAiMissingField (state : ChatState) : list Out :=
  match aiAwaiting state with
  | Some aw_country => [AskMissing aw_country]
  | Some aw_nights => [AskMissing aw_nights]
  | Some aw_budget => [AskMissing aw_budget]
  | _ => []
  end.

Definition asPositiveNumber (n : num) : option num :=
  if isFinite n && gt0 n then Some n else None.

Definition applyOrchestratedSearchArgsToState (state : ChatState) (args : SearchToursInput)
  : ChatState :=
  let s0 := resetSearchState state
            |> set_nightsMin (si_nights_min args)
            |> set_nightsMax (si_nights_max args) in
  let s1 := match si_country_id args with
            | Some i => set_countryId (Some i) s0
            | None => s0
            end in
  let s2 := if gt0 (si_budget_max args)
            then s1 |> set_budgetChosen true |> set_budgetMax (Some (si_budget_max args))
            else s1 in
  let s3 := match si_budget_min args with
            | Some b => if gt0 b then set_budgetMin (Some b) s2 else s2
            | None => s2
            end in
  let s4 := match asPositiveNumber (si_rating args) with
            | Some r => s3 |> set_ratingChosen true |> set_ratingMin (Some r)
            | None => s3
            end in
  let s5 := match si_period args with
            | Some (c :: p) => set_period (Some (c :: p)) s4
            | _ => s4
            end in
  let s6 := match si_meal args with
            | Some m =>
              let up := toUpperCase m in
              if str_eqb up (u "AI") || str_eqb up (u "BB") || str_eqb up (u "ANY")
              then s5 |> set_mealChosen true |> set_meal (Some up)
              else s5
            | None => s5
            end in
  syncSearchContextFromState
    (s6 |> set_limit (si_limit args) |> set_offset (si_offset args)) (Some args).

(** [searchToursInputSchema.parse({ ...DEFAULT_SEARCH_TOURS_ARGS, ...draft })]
    on the slot fields of a draft. *)
Definition draft_to_input (draft : Draft) : SearchToursInput :=
  let d := DEFAULT_SEARCH_TOURS_ARGS in
  {| si_country_id := country_id draft;
     si_date_from := si_date_from d; si_date_to := si_date_to d;
     si_nights_min := match nights_min draft with Some n => n | None => si_nights_min d end;
     si_nights_max := match nights_max draft with Some n => n | None => si_nights_max d end;
     si_adults := si_adults d; si_children := si_children d; si_period := si_period d;
     si_budget_min := budget_min draft;
     si_budget_max := match budget_max draft with Some n => n | None => si_budget_max d end;
     si_meal := si_meal d; si_rating := si_rating d;
     si_limit := si_limit d; si_offset := si_offset d |}.

(** The result of the synchronous part of a text handler: the new state, the
    messages, and the search that is now in flight (if one was started). *)
Record Step := { st : ChatState; outs : list Out; call : option SearchCall }.

(** [runAiDraftSearch] up to the [await] inside [runSearch]. The progress
    line and the filter summary that precede the call are not modelled. *)
Definition runAiDraftSearch_begin (state : ChatState) : Step :=
  let draft := match aiDraft state with Some d => d | None => empty_draft end in
  let parsed := draft_to_input draft in
  let s1 := applyOrchestratedSearchArgsToState state parsed
            |> set_lastSearchArgs (Some parsed) in
  let '(s2, c) := runSearch_begin s1 in
  {| st := s2; outs := [Say "Запускаю поиск по уточнённым параметрам."]; call := Some c |}.

(** *** Budget answers *)

Inductive BudgetAnswer := ans_none | ans_max (value : Z) | ans_target (value : Z).

Definition parseBudgetAnswer (text : str) : option BudgetAnswer :=
  let normalized := trim (replace_all (chr 160) (u " ") (toLowerCase text)) in
  if includes normalized (u "без") && includes normalized (u "лим") then Some ans_none
  else if test (seq [Bol; chr 45]) normalized then None
  else
    match extractBudget text with
    | None => None
    | Some (BRange _ mx) => Some (ans_max mx)
    | Some (BApprox value _ _) => Some (ans_target value)
    | Some (BMax mx) => Some (ans_max mx)
    end.

(** bot.ts has its own [extractBudgetFromText]: the upper end of whatever
    budget the text holds. *)
Definition extractBudgetFromText (text : str) : option Z :=
  match extractBudget text with
  | None => None
  | Some b => Some (Nlu.budget_max b)
  end.

(** [Math.round(x * 1.2)] *)
Definition times_1_2 (x : Z) : Z := js_round (inject_Z x * (12 # 10)).

Definition za_digit : re := seq [alt [Bol; space]; liti "за"; Star space; digit].

(** The text handler's branch for a pending budget clarification
    ([state.pendingBudgetClarification] is [pending]); [text] is the trimmed
    message. *)
Definition resolve_budget (lower text : str) (pending : PendingBudget) : bool * Z :=
  let explicitTarget :=
    includes lower (u "около") || includes lower (u "примерно")
    || includes lower (u "в районе") || test za_digit lower in
  let parsedBudget :=
    match extractBudgetFromText text with Some b => b | None => pb_value pending end in
  (explicitTarget, parsedBudget).

Definition on_text_pending_budget (state : ChatState) (pending : PendingBudget) (text : str)
  : Step :=
  let lower := toLowerCase text in
  let '(explicitTarget, parsedBudget) := resolve_budget lower text pending in
  if parsedBudget =? 0 then
    {| st := state; outs := [AskAmount (pb_value pending)]; call := None |}
  else
    let s0 := set_pendingBudgetClarification None state in
    let resolvedBudgetMax := if explicitTarget then times_1_2 parsedBudget else parsedBudget in
    let resolvedBudgetTarget := if explicitTarget then Some (of_Z parsedBudget) else None in
    match pb_mode pending, lastSearchArgs s0 with
    | mode_followup, Some last =>
      let nextArgs :=
        {| si_country_id := si_country_id last; si_date_from := si_date_from last;
           si_date_to := si_date_to last; si_nights_min := si_nights_min last;
           si_nights_max := si_nights_max last; si_adults := si_adults last;
           si_children := si_children last; si_period := si_period last;
           si_budget_min := si_budget_min last;
           si_budget_max := of_Z resolvedBudgetMax;
           si_meal := si_meal last; si_rating := si_rating last;
           si_limit := si_limit last; si_offset := 0 |} in
      let s1 := applyOrchestratedSearchArgsToState s0 nextArgs in
      let s2 := set_searchContext
                  (Some (applySearchContext (searchContext s1)
                           (budget_patch resolvedBudgetTarget (of_Z resolvedBudgetMax)))) s1
                |> set_lastSearchArgs (Some nextArgs) in
      let '(s3, seq) := beginSearchSeq s2 in
      {| st := s3; outs := [Say "Обновляю поиск по вашему уточнению ✨"];
         call := Some {| call_args := nextArgs; call_seq := seq |} |}
    | _, _ =>
      let old := match aiDraft s0 with Some d => d | None => empty_draft end in
      let draft :=
        {| country_id := country_id old; country_name := country_name old;
           nights_min := nights_min old; nights_max := nights_max old;
           budget_min := budget_min old;
           budget_max := Some (of_Z resolvedBudgetMax) |} in
      let s1 := s0
                |> set_aiMode true
                |> set_aiDraft (Some draft) in
      let s2 := set_searchContext
                  (Some (applySearchContext (searchContext s1)
                           (budget_patch resolvedBudgetTarget (of_Z resolvedBudgetMax)))) s1
                |> set_aiAwaiting (nextAiAwaiting draft) in
      if hasAiSearchData draft then runAiDraftSearch_begin s2
      else {| st := s2; outs := askAiMissingField s2; call := None |}
    end.

(** The branch for [state.step === "budget_input"] (a budget typed in the
    guided flow). The messages that precede a search are not modelled. *)
Definition on_text_budget_input (state : ChatState) (text : str) : Step :=
  match parseBudgetAnswer text with
  | None =>
    {| st := state;
       outs := [Say "Введите сумму цифрами (например 150000) или «без лимита»."];
       call := None |}
  | Some budget =>
    let s0 := set_budgetChosen true state in
    let s1 :=
      match budget with
      | ans_none =>
        s0 |> set_budgetMax None |> set_budgetMin None
           |> set_searchContext (Some (applySearchContext (searchContext s0) empty_context))
      | ans_target value =>
        let mx := of_Z (times_1_2 value) in
        s0 |> set_budgetMin None |> set_budgetMax (Some mx)
           |> set_searchContext
                (Some (applySearchContext (searchContext s0)
                         (budget_patch (Some (of_Z value)) mx)))
      | ans_max value =>
        s0 |> set_budgetMin None |> set_budgetMax (Some (of_Z value))
           |> set_searchContext
                (Some (applySearchContext (searchContext s0)
                         (budget_patch None (of_Z value))))
      end in
    let s2 := set_step idle s1 in
    match editingFilter s2 with
    | Some f_budget =>
      let '(s3, c) := runSearch_begin (s2 |> set_offset 0 |> set_editingFilter None) in
      {| st := s3; outs := []; call := Some c |}
    | _ => {| st := s2; outs := [Say "Какое качество отеля смотрим?"]; call := None |}
    end
  end.

(** *** Explicit resets *)

(** The branch of the text handler for the command NEW_SEARCH ("новый
    поиск"), once the handler has come as far as the commands (see
    [on_text]), and the buttons "new", "start_search" and "🔎 Найти ещё": all
    four run the same two assignments before asking for a country. *)
Definition on_new_search (state : ChatState) : ChatState * list Out :=
  (resetSearchState state |> set_step idle,
   [Say "Ок, начнём заново. Выберите страну:"]).

(** [replyCancelReset]: "/cancel", the button "ai:cancel" and every text that
    [isCancelText] accepts ("отмена", "сброс", "стоп", ...). *)
Definition replyCancelReset (state : ChatState) : ChatState * list Out :=
  (resetFlow state |> set_aiMode true |> set_aiAwaiting (Some aw_country),
   [Say "Ок, сбросила поиск. Выберите страну или напишите запрос в свободной форме.";
    Say "Доступные страны:"]).

(** "/start" and "/help". *)
Definition on_start (state : ChatState) : ChatState := resetFlow state.

(** The button "country:<id>" of the guided flow. *)
Definition on_country (state : ChatState) (id : Z) : ChatState :=
  resetSearchState state |> set_countryId (Some (of_Z id)).

(** *** Favorites actions *)

Definition saveTourToFavorites (state : ChatState) (tour : Tour) : ChatState * bool :=
  let '(fav, added) := saveTour (favorites state) tour in
  (set_favorites fav state, added).

Definition removeTourFromFavorites (state : ChatState) (hotelId : Z) : ChatState :=
  set_favorites
    {| tours := List.filter (fun t => negb (hotel_id t =? hotelId)) (tours (favorites state));
       collections := collections (favorites state) |} state.

Definition on_clear_favorites (state : ChatState) : ChatState :=
  state |> set_pendingPromptAction None |> set_favorites clearFavorites.

(** *** "Хочу этот тур" *)

Fixpoint dedupe_tours (seen : list Z) (l : list Tour) : list Tour :=
  match l with
  | [] => []
  | t :: l' =>
    if existsb (Z.eqb (hotel_id t)) seen then dedupe_tours seen l'
    else t :: dedupe_tours (hotel_id t :: seen) l'
  end.

Definition collectFavoriteTours (state : ChatState) : list Tour :=
  dedupe_tours []
    (tours (favorites state) ++ List.concat (map set_tours (collections (favorites state)))).

Definition findTourForWantAction (state : ChatState) (hotelId : Z) : option Tour :=
  match find (fun t => hotel_id t =? hotelId) (lastResults state) with
  | Some t => Some t
  | None => find (fun t => hotel_id t =? hotelId) (collectFavoriteTours state)
  end.

Definition isSamePendingHotel (state : ChatState) (hotelId : Z) : bool :=
  match step state, pendingHotel state with
  | await_phone, Some t => hotel_id t =? hotelId
  | _, _ => false
  end.

(** The de-duplication key: user, result set, item and source hint, joined
    by colons. *)
Definition wantKey (userId : Z) (requestId : str) (hotelId : Z) (sourceHint : option str)
  : str :=
  u (pretty userId) ++ u ":" ++ requestId ++ u ":" ++ u (pretty hotelId) ++ u ":" ++
  match sourceHint with Some h => h | None => u "default" end.

Definition DEDUPE_WINDOW : Z := 45000.

(** The handler of the button "want:<requestid>:<hotelId>[:<hint>]".
    [pending] is the module-level map [pendingWantByKey], [now] is
    [Date.now()]. *)
Definition on_want (pending : gmap str Z) (state : ChatState) (now userId : Z)
  (requestId : str) (hotelId : Z) (sourceHint : option str)
  : gmap str Z * ChatState * list Out :=
  let key := wantKey userId requestId hotelId sourceHint in
  let recent :=
    match pending !! key with
    | Some pendingAt => negb (pendingAt =? 0) && (now - pendingAt <? DEDUPE_WINDOW)
    | None => false
    end in
  if recent then (pending, state, [already_checking])
  else
    let pending1 := <[key := now]> pending in
    match findTourForWantAction state hotelId with
    | None =>
      (delete key pending1, state,
       [Say "Не удалось найти тур. Откройте избранное или выполните поиск заново."])
    | Some selected =>
      if isSamePendingHotel state hotelId &&
         match phonePromptShownForHotelId state with
         | Some h => h =? hotelId
         | None => false
         end
      then (delete key pending1, state, [phone_hint])
      else
        (pending1,
         state
         |> set_pendingHotel (Some selected)
         |> set_step await_phone
         |> set_phonePromptShownForHotelId (Some hotelId),
         [checking_started; Recap selected;
          Say "Отличный выбор ✨ Чтобы быстро проверить наличие и финальную цену — оставьте номер.";
          phone_hint])
    end.

(** The timer that [on_want] arms for 60 seconds later. *)
Definition on_want_timeout (pending : gmap str Z) (key : str) (armedAt : Z) : gmap str Z :=
  match pending !! key with
  | Some current => if current =? armedAt then delete key pending else pending
  | None => pending
  end.

(** *** The other search executions, and what follows a search *)


(** Who waits for a search to return: nothing follows in [runSearch]'s direct
    callers and in the text handler's own searches; a slot handler drops the
    draft after [runAiDraftSearch]; the clarification branch first writes the
    clarified budget into the search context. *)
Inductive Caller :=
| plain
| slot_reply
| clarification (target : option num) (max : num).

Definition after_search (c : Caller) (state : ChatState) : ChatState :=
  match c with
  | plain => state
  | slot_reply => state |> set_aiMode false |> set_aiDraft None |> set_aiAwaiting None
  | clarification target max =>
    state
    |> set_searchContext
         (Some (applySearchContext (searchContext state) (budget_patch target max)))
    |> set_aiMode false |> set_aiDraft None |> set_aiAwaiting None
  end.

(** Everything that a handler does once the backend has answered. *)
Definition on_result (c : Caller) (state : ChatState) (seq : Z) (output : SearchOutput)
  : ChatState * list Out :=
  let '(s, o) := on_search_result state seq output in (after_search c s, o).

(** *** Tests of the text handler *)

Definition is_some {A} (x : option A) : bool :=
  match x with Some _ => true | None => false end.

(** [hasExplicitParams] of the text handler; the dates of a parsed query are
    present exactly when its month is. *)
Definition hasExplicitParams (parsedQuery : ParsedQuery) : bool :=
  is_some (p_country parsedQuery) || is_some (p_unknownCountry parsedQuery)
  || is_some (p_nights parsedQuery) || is_some (p_budget parsedQuery)
  || is_some (p_meal parsedQuery) || is_some (p_month parsedQuery).

Definition isCancelText (text : str) : bool :=
  test (alt [liti "отмена"; liti "/cancel"; liti "cancel"; liti "стоп"; liti "stop";
             liti "сброс"; liti "reset"; liti "начать заново"; liti "хватит"]) text.

Definition isAffirmativeText (text : str) : bool :=
  test (whole [alt [liti "да"; liti "ага"; liti "угу"; liti "хочу"; liti "давай"; liti "ок";
                    liti "окей"]]) (trim (toLowerCase text)).

(** [/^\/(start|cancel|help)\b/i] *)
Definition slash_known : re :=
  seq [Bol; chr 47; alt [liti "start"; liti "cancel"; liti "help"]; Wb].

(** A handler that answers and starts no search. *)
Definition reply (state : ChatState) (says : list Out) : Step :=
  {| st := state; outs := says; call := None |}.

(** *** A reply to the question about nights or budget *)

(** [/[^\d]/g] *)
Definition not_digit : re := none_of is_digit.

(** [parsePositiveInt(text)]: the digits of the text read as one number. The
    number is a double in the source (see [parseMoneyToken]); digits that
    overflow to [Infinity] are refused there. *)
Definition parsePositiveInt (text : str) : option Z :=
  match replace_all not_digit [] text with
  | [] => None
  | normalized =>
    let value := digits_value normalized in
    if value <=? 0 then None else Some value
  end.

(** A handler's own message, then what [r] does. *)
Definition say_then (said : list Out) (r : Step) : Step :=
  {| st := st r; outs := said ++ outs r; call := call r |}.

(** The branch of the text handler for [state.aiMode], step "idle" and
    [state.aiAwaiting] "nights" or "budget"; [awaiting] is [state.aiAwaiting]
    and [text] the trimmed message. The number typed for the budget becomes
    [budget_max] as it stands. After a search that this branch starts the
    handler drops the draft ([after_search slot_reply]). *)
Definition on_text_slot_reply (state : ChatState) (awaiting : Awaiting) (text : str) : Step :=
  let old := match aiDraft state with Some d => d | None => empty_draft end in
  let isNights := match awaiting with aw_nights => true | _ => false end in
  if isNights && test (liti "праздник") text then
    reply state
      [Say "Под праздники лучше уточнить месяц или даты. Например: «в ноябре» или «на 7 ночей»."]
  else if isNights && test (liti "выходн") text then
    let draft :=
      {| country_id := country_id old; country_name := country_name old;
         nights_min := Some (of_Z 3); nights_max := Some (of_Z 3);
         budget_min := budget_min old; budget_max := budget_max old |} in
    let s1 := state |> set_aiDraft (Some draft) |> set_aiAwaiting (nextAiAwaiting draft) in
    if hasAiSearchData draft
    then say_then [Say "Ок, поставлю 3 ночи — подойдёт?"] (runAiDraftSearch_begin s1)
    else reply s1 [Say "Ок, поставлю 3 ночи — подойдёт?"]
  else
    match parsePositiveInt text with
    | None => reply state (askAiMissingField state)
    | Some value =>
      let answer :=
        if isNights then
          if (value <? 1) || (30 <? value) then None
          else Some {| country_id := country_id old; country_name := country_name old;
                       nights_min := Some (of_Z value); nights_max := Some (of_Z value);
                       budget_min := budget_min old; budget_max := budget_max old |}
        else
          if value <? 10000 then None
          else Some {| country_id := country_id old; country_name := country_name old;
                       nights_min := nights_min old; nights_max := nights_max old;
                       budget_min := budget_min old; budget_max := Some (of_Z value) |} in
      match answer with
      | None =>
        reply state
          [Say (if isNights then "Введите количество ночей числом от 1 до 30."
                else "Введите бюджет числом, например 120000.")]
      | Some draft =>
        let s1 := state |> set_aiDraft (Some draft) |> set_aiAwaiting (nextAiAwaiting draft) in
        if hasAiSearchData draft then runAiDraftSearch_begin s1
        else reply s1 (askAiMissingField s1)
      end
    end.

(** *** The text handler *)

Inductive OffTopic := ot_meta | ot_smalltalk.

(** [localMetaOrSmalltalk(text)]. The class of the three emoji is, without
    the [u] flag, the class of their surrogate code units. *)
Definition localMetaOrSmalltalk (text : str) : option OffTopic :=
  let t := trim (toLowerCase text) in
  match t with
  | [] => None
  | _ :: _ =>
    if includes t (u "что ты умеешь") || includes t (u "что умеете")
       || includes t (u "помощь") || str_eqb t (u "help") || includes t (u "help")
       || includes t (u "кто ты") then Some ot_meta
    else if str_eqb t (u "привет") || str_eqb t (u "hi") || str_eqb t (u "hello")
            || str_eqb t (u "здравствуй") || str_eqb t (u "здравствуйте")
            || test (whole [plus (any_of (u "👋🙂😊"))]) t then Some ot_smalltalk
    else if str_eqb t (u "ок") || str_eqb t (u "окей") || str_eqb t (u "спасибо")
            || str_eqb t (u "понятно") || test (whole [plus (chr 41)]) t then Some ot_smalltalk
    else None
  end.

(** bot.ts has its own [hasUnsupportedCountryMention]. *)
Definition hasUnsupportedCountryMention (text : str) : bool :=
  let t := toLowerCase text in
  if is_some (normalizeCountryName (Some t)) then false
  else
    existsb (fun stem => includes t (u stem))
      ["африк"; "africa"; "вьет"; "vietnam"; "росси"; "russia"; "африк"; "africa";
       "австрал"; "australia"; "испан"; "spain"; "итал"; "italy"]%string.

Definition is_budget_input (s : ChatStep) : bool :=
  match s with budget_input => true | _ => false end.

(** [bot.on("text")] in the order of its statements, as far as the reply to
    a slot question. [None] stands for the branches that are not modelled:
    the slash commands with a handler of their own, the opening of the
    favorites list, "да" in answer to a question, the commands other than
    NEW_SEARCH and CLEAR_FAVORITES, an unsupported country, small talk, every
    step other than "idle", the question about the country, and everything
    that follows the slot replies in the handler. *)
Definition on_text (state : ChatState) (message : str) : option Step :=
  let text := trim message in
  if startsWith (u "/") text then
    if test slash_known text then None
    else Some (reply state
                 [Say "Команду поняла, но она не поддерживается. Нажмите «🔎 Найти тур» или напишите запрос свободным текстом."])
  else if isCancelText text then
    let '(s, o) := replyCancelReset state in Some (reply s o)
  else if match pendingPromptAction state with
          | Some show_favorites => isAffirmativeText text
          | None => false
          end then None
  else
    match pendingBudgetClarification state with
    | Some pending => Some (on_text_pending_budget state pending text)
    | None =>
      let parsedQuery := parseQuery text in
      let explicit := hasExplicitParams parsedQuery in
      let hasCommand := is_some (command parsedQuery) in
      let state1 :=
        if is_some (pendingPromptAction state)
           && (explicit || hasCommand || negb (smalltalk parsedQuery))
        then set_pendingPromptAction None state
        else state in
      if isAffirmativeText text && negb explicit && negb hasCommand
         && ((aiMode state1 && is_some (aiAwaiting state1)) || is_budget_input (step state1))
      then None
      else if hasCommand && negb explicit then
        match command parsedQuery with
        | Some NEW_SEARCH => let '(s, o) := on_new_search state1 in Some (reply s o)
        | Some CLEAR_FAVORITES =>
          Some (reply (on_clear_favorites state1) [Say "Избранное очищено."])
        | _ => None
        end
      else if is_some (p_unknownCountry parsedQuery) then None
      else if smalltalk parsedQuery && negb explicit && negb hasCommand then None
      else if is_some (localMetaOrSmalltalk text) then None
      else if hasUnsupportedCountryMention text then None
      else
        match step state1 with
        | idle =>
          if aiMode state1 then
            match aiAwaiting state1 with
            | Some aw_nights => Some (on_text_slot_reply state1 aw_nights text)
            | Some aw_budget => Some (on_text_slot_reply state1 aw_budget text)
            | _ => None
            end
          else None
        | _ => None
        end
    end.

(** *** Further functions of favorites.ts and bot.ts *)

(** [favorites.collections.find((c) => c.id === id)] *)
Definition openCollection (fav : FavoritesStore) (id : str) : option SavedSet :=
  find (fun c => str_eqb (set_id c) id) (collections fav).

(** [pluralRu(n, one, few, many)] for a whole number [n]. *)
Definition pluralRu (n : Z) (one few many : str) : str :=
  let normalized := Z.abs n mod 100 in
  let n1 := normalized mod 10 in
  if (10 <? normalized) && (normalized <? 20) then many
  else if (1 <? n1) && (n1 <? 5) then few
  else if n1 =? 1 then one
  else many.

Definition tourWord (n : Z) : str := pluralRu n (u "тур") (u "тура") (u "туров").

(** [truncateText(value, max)] *)
Definition truncateText (value : str) (max : Z) : str :=
  if Z.of_nat (length value) <=? max then value
  else trim (firstn (Z.to_nat (Z.max 1 (max - 1))) value) ++ u "…".

Definition field_eqb (a b : MissingField) : bool :=
  match a, b with
  | country_slot, country_slot | nights_slot, nights_slot | budget_slot, budget_slot => true
  | _, _ => false
  end.

(** [resolveAiAwaiting(missingFields)]: [includes] on the list that the
    orchestrator reports. *)
Definition resolveAiAwaiting (missingFields : list MissingField) : option Awaiting :=
  let hasCountry := existsb (field_eqb country_slot) missingFields in
  let hasNights := existsb (field_eqb nights_slot) missingFields in
  let hasBudget := existsb (field_eqb budget_slot) missingFields in
  if hasCountry then Some aw_country
  else if hasNights && hasBudget then Some aw_nights
  else if hasNights then Some aw_nights
  else if hasBudget then Some aw_budget
  else None.

(** *** Phone numbers *)

(** [/[^\d+]/g] *)
Definition not_phone_char : re := none_of (fun c => is_digit c || (c =? 43)).
(** [/(?!^)\+/g] *)
Definition inner_plus : re := seq [NotAhead Bol; chr 43].
(** [/^\+7\d{10}$/], [/^8\d{10}$/] and [/^7\d{10}$/] *)
Definition phone_plus7 : re := seq [Bol; chr 43; chr 55; Rep 10 0 digit; Eol].
Definition phone_8 : re := seq [Bol; chr 56; Rep 10 0 digit; Eol].
Definition phone_7 : re := seq [Bol; chr 55; Rep 10 0 digit; Eol].

(** [normalizePhone(text)]: the phone of an [ok] answer, or [None]. *)
Definition normalizePhone (text : str) : option str :=
  match trim text with
  | [] => None
  | raw =>
    let cleaned := replace_all inner_plus [] (replace_all not_phone_char [] raw) in
    if str_eqb cleaned [] || str_eqb cleaned (u "+") then None
    else if test phone_plus7 cleaned then Some cleaned
    else if test phone_8 cleaned || test phone_7 cleaned
         then Some (u "+7" ++ skipn 1 cleaned)
    else None
  end.

End Bot.

(* ===================================================================== *)
(** ** mockSearch.ts: the synthetic search backend *)
(* ===================================================================== *)

Module Mock.
Import Js Re.

(** The fields of the input are of type [unknown]. *)
Inductive jsval := VUndef | VNull | VNum (n : num) | VStr (s : str) | VOther.

Record MockInput := {
  seed : jsval;
  sort : jsval;
  limit : jsval;
  offset : jsval;
  period : jsval;
  country_id : jsval;
  country_name : jsval;
  destination : jsval;
  departure_id : jsval;
  date_from : jsval;
  date_to : jsval;
  nights_min : jsval;
  nights_max : jsval;
  adults : jsval;
  children : jsval;
  budget_max : jsval;
  budget_min : jsval;
  rating : jsval;
  meal : jsval
}.

(** What [makeSeedFromInput] serialises when no seed is given. *)
Record SeedPayload := {
  sp_date_from : str; sp_date_to : str; sp_country_id : Q; sp_country_name : str;
  sp_destination : str; sp_period : str; sp_departure_id : Q; sp_adults : Q;
  sp_children : Q; sp_nights_min : Q; sp_nights_max : Q; sp_budget_max : Q;
  sp_budget_min : Q; sp_rating : Q; sp_meal : str + Q
}.

(** The functions of the platform that the backend calls: node:crypto, JSON,
    the conversions [Number(string)] and [String(value)], [Date] parsing, the
    listing of the image directory as [getImagePool] caches it, and the
    MOCK_DEBUG switch. The last two are fixed for the life of the process. *)
Record Platform := {
  sha256_hex : str -> str;
  sha256_readUInt32LE : str -> Z;
  sha1_hex : str -> str;
  sha1_readUInt32BE : str -> Z;
  JSON_stringify : SeedPayload -> str;
  Number_of_string : str -> num;
  String_of : jsval -> str;
  (** [new Date(s + "T00:00:00Z").getTime()], [None] for an invalid date *)
  Date_parse_utc : str -> option Z;
  getImagePool : str -> list str;
  MOCK_DEBUG : bool
}.

Record Destination := {
  d_id : Z; d_name : str; d_slug : str; d_flag : str; d_resorts : list str;
  d_priceFactor : Q
}.

Definition DESTINATIONS : list Destination :=
  [
    {| d_id := 47; d_name := u "Turkey"; d_slug := u "turkey"; d_flag := u "ðŸ‡¹ðŸ‡·";
       d_resorts := [u "Antalya"; u "Kemer"; u "Belek"; u "Alanya"; u "Side"];
       d_priceFactor := 1%Q |};
    {| d_id := 54; d_name := u "Egypt"; d_slug := u "egypt"; d_flag := u "ðŸ‡ªðŸ‡¬";
       d_resorts := [u "Hurghada"; u "Sharm El Sheikh"; u "Marsa Alam"];
       d_priceFactor := (92 # 100)%Q |};
    {| d_id := 29; d_name := u "Thailand"; d_slug := u "thailand"; d_flag := u "ðŸ‡¹ðŸ‡­";
       d_resorts := [u "Phuket"; u "Krabi"; u "Khao Lak"; u "Pattaya"; u "Samui"];
       d_priceFactor := (108 # 100)%Q |};
    {| d_id := 63; d_name := u "UAE"; d_slug := u "uae"; d_flag := u "ðŸ‡¦ðŸ‡ª";
       d_resorts := [u "Dubai"; u "Abu Dhabi"; u "Ras Al Khaimah"];
       d_priceFactor := (125 # 100)%Q |};
    {| d_id := 90; d_name := u "Maldives"; d_slug := u "maldives"; d_flag := u "ðŸ‡²ðŸ‡»";
       d_resorts := [u "North MalÃ© Atoll"; u "South MalÃ© Atoll"; u "Ari Atoll"; u "Baa Atoll"];
       d_priceFactor := (135 # 100)%Q |};
    {| d_id := 91; d_name := u "Seychelles"; d_slug := u "seychelles"; d_flag := u "ðŸ‡¸ðŸ‡¨";
       d_resorts := [u "MahÃ©"; u "Praslin"; u "La Digue"];
       d_priceFactor := (132 # 100)%Q |}
  ].

Definition COUNTRY_ALIASES : list (str * str) :=
  [ (u "turkey", u "Turkey"); (u "turkiye", u "Turkey"); (u "egypt", u "Egypt");
    (u "thailand", u "Thailand"); (u "uae", u "UAE");
    (u "united arab emirates", u "UAE"); (u "emirates", u "UAE");
    (u "maldives", u "Maldives"); (u "seychelles", u "Seychelles") ].

Definition HOTEL_BRANDS : list str :=
  map u ["Asteria"; "Blue Horizon"; "Coral Elite"; "Royal Palm"; "Sunwave"; "Marina Crown";
         "Vista Mare"; "Grand Azure"; "Luna Coast"; "Sea Breeze"; "Crystal Bay";
         "Imperial Sands"]%string.
Definition OPERATORS : list str :=
  map u ["TUI"; "Coral"; "Anex"; "Pegas"; "Tez Tour"; "Biblio Globus"; "Fun&Sun"]%string.
Definition ROOMS : list str :=
  map u ["Standard"; "Superior"; "Deluxe"; "Family Room"; "Junior Suite"; "Suite"]%string.
Definition MEAL_CODES : list str := map u ["RO"; "BB"; "HB"; "FB"; "AI"]%string.

Definition DEFAULT_nights_min : Q := 6%Q.
Definition DEFAULT_nights_max : Q := 10%Q.

Record TourResult := {
  price : Z;
  currency : str;
  t_date_from : str;
  nights : Z;
  operator : option str;
  hotel_id : Z;
  hotel_name : str;
  stars : Z;
  t_rating : option Q;
  t_meal : str;
  room : option str;
  t_country_name : str;
  city_name : option str;
  flag_emoji : str;
  image_url : option str;
  raw_seed : str;
  raw_debug : option (bool * Z * Z)      (* sort is price_desc, limit, offset *)
}.

Definition set_image (img : option str) (t : TourResult) : TourResult :=
  {| price := price t; currency := currency t; t_date_from := t_date_from t;
     nights := nights t; operator := operator t; hotel_id := hotel_id t;
     hotel_name := hotel_name t; stars := stars t; t_rating := t_rating t;
     t_meal := t_meal t; room := room t; t_country_name := t_country_name t;
     city_name := city_name t; flag_emoji := flag_emoji t; image_url := img;
     raw_seed := raw_seed t; raw_debug := raw_debug t |}.

Definition set_raw (sd : str) (dbg : option (bool * Z * Z)) (t : TourResult) : TourResult :=
  {| price := price t; currency := currency t; t_date_from := t_date_from t;
     nights := nights t; operator := operator t; hotel_id := hotel_id t;
     hotel_name := hotel_name t; stars := stars t; t_rating := t_rating t;
     t_meal := t_meal t; room := room t; t_country_name := t_country_name t;
     city_name := city_name t; flag_emoji := flag_emoji t; image_url := image_url t;
     raw_seed := sd; raw_debug := dbg |}.

(** *** Dates: milliseconds since the epoch, in UTC *)

Definition MS_PER_DAY : Z := 86400000.

Definition pad (width : nat) (n : Z) : str :=
  let digits := u (pretty n) in
  repeat 48 (width - length digits) ++ digits.

(** The civil date of a day number (days since 1970-01-01), formatted as
    [toISOString().slice(0, 10)] formats the years 0 to 9999. *)
Definition iso_of_day (day : Z) : str :=
  let z := day + 719468 in
  let era := z / 146097 in
  let doe := z - era * 146097 in
  let yoe := (doe - doe / 1460 + doe / 36524 - doe / 146096) / 365 in
  let doy := doe - (365 * yoe + yoe / 4 - yoe / 100) in
  let mp := (5 * doy + 2) / 153 in
  let d := doy - (153 * mp + 2) / 5 + 1 in
  let m := if mp <? 10 then mp + 3 else mp - 9 in
  let y := yoe + era * 400 + (if m <=? 2 then 1 else 0) in
  pad 4 y ++ u "-" ++ pad 2 m ++ u "-" ++ pad 2 d.

Definition toIsoDate (date : Z) : str := iso_of_day (date / MS_PER_DAY).

Definition addDays (base days : Z) : Z := base + days * MS_PER_DAY.

Section WithPlatform.
Variable P : Platform.

Definition toFiniteNumber (value : jsval) : option Q :=
  match value with
  | VNum (Fin q) => Some q
  | VStr s =>
    match trim s with
    | [] => None
    | _ :: _ => match Number_of_string P s with Fin q => Some q | _ => None end
    end
  | _ => None
  end.

Definition date_shape : re :=
  seq [Bol; Rep 4 0 digit; chr 45; Rep 2 0 digit; chr 45; Rep 2 0 digit; Eol].

Definition normalizeDate (value : jsval) : option str :=
  match value with
  | VStr s => if test date_shape s then Some s else None
  | _ => None
  end.

Definition normalizeText (value : jsval) : option str :=
  match value with
  | VStr s => match trim s with [] => None | c :: n => Some (c :: n) end
  | _ => None
  end.

Definition or_zero (x : option Q) : Q := match x with Some q => q | None => 0%Q end.
Definition or_empty (x : option str) : str := match x with Some s => s | None => [] end.

Definition makeSeedFromInput (input : MockInput) : str :=
  let given :=
    match seed input with
    | VUndef | VNull => false
    | v => negb (str_eqb (trim (String_of P v)) [])
    end in
  if given then String_of P (seed input)
  else
    sha256_hex P (JSON_stringify P
      {| sp_date_from := or_empty (normalizeDate (date_from input));
         sp_date_to := or_empty (normalizeDate (date_to input));
         sp_country_id := or_zero (toFiniteNumber (country_id input));
         sp_country_name := or_empty (normalizeText (country_name input));
         sp_destination := or_empty (normalizeText (destination input));
         sp_period := or_empty (normalizeText (period input));
         sp_departure_id := or_zero (toFiniteNumber (departure_id input));
         sp_adults := or_zero (toFiniteNumber (adults input));
         sp_children := or_zero (toFiniteNumber (children input));
         sp_nights_min := or_zero (toFiniteNumber (nights_min input));
         sp_nights_max := or_zero (toFiniteNumber (nights_max input));
         sp_budget_max := or_zero (toFiniteNumber (budget_max input));
         sp_budget_min := or_zero (toFiniteNumber (budget_min input));
         sp_rating := or_zero (toFiniteNumber (rating input));
         sp_meal := match meal input with
                    | VStr m => inl (toUpperCase m)
                    | v => inr (or_zero (toFiniteNumber v))
                    end |}).

(** *** The generator: xorshift on 32 bits *)

Definition u32 (x : Z) : Z := x mod 4294967296.

(** The state of an [Rng] closure. *)
Definition makeRng (sd : str) : Z :=
  let h := u32 (sha256_readUInt32LE P sd) in
  if h =? 0 then 1 else h.

(** One call [rng()]: the value and the next state. *)
Definition rng (state : Z) : Q * Z :=
  let s1 := u32 (Z.lxor state (Z.shiftl state 13)) in
  let s2 := u32 (Z.lxor s1 (Z.shiftr s1 17)) in
  let s3 := u32 (Z.lxor s2 (Z.shiftl s2 5)) in
  ((inject_Z (u32 s3) / 4294967295)%Q, s3).

Definition randomInt (state : Z) (min max : Z) : Z * Z :=
  let '(r, state') := rng state in
  (Qfloor (r * inject_Z (max - min + 1))%Q + min, state').

Definition pick (state : Z) (values : list str) : option str * Z :=
  let '(i, state') := randomInt state 0 (Z.of_nat (length values) - 1) in
  (nth_error values (Z.to_nat i), state').

Definition clamp (n min max : Q) : Q := qmax min (qmin max n).

Definition roundPrice (value : Q) (step : Z) : Z :=
  Nlu.js_round (value / inject_Z step)%Q * step.

Definition parseDateSafe (value : jsval) (fallback : Z) : Z :=
  match normalizeDate value with
  | None => fallback
  | Some normalized =>
    match Date_parse_utc P normalized with
    | Some d => d
    | None => fallback
    end
  end.

Definition resolveEffectiveNightsRange (input : MockInput) : Z * Z :=
  let rawMin := toFiniteNumber (nights_min input) in
  let rawMax := toFiniteNumber (nights_max input) in
  let min := clamp (match rawMin with Some q => q | None => DEFAULT_nights_min end) 1 30 in
  let max := clamp (match rawMax with Some q => q | None => DEFAULT_nights_max end) 1 30 in
  if Qltb max min then (Qfloor max, Qfloor min) else (Qfloor min, Qfloor max).

Definition normalizeMealFilter (m : jsval) : option str :=
  match m with
  | VUndef | VNull => None
  | VStr s =>
    let normalized := toUpperCase (trim s) in
    if str_eqb normalized [] || str_eqb normalized (u "0") then None else Some normalized
  | v =>
    match toFiniteNumber v with
    | None => None
    | Some numeric =>
      if Qle_bool numeric 0 then None
      else if Qeq_bool (inject_Z (Qfloor numeric)) numeric
              && Qle_bool 1 numeric && Qle_bool numeric 5
      then nth_error MEAL_CODES (Z.to_nat (Qfloor numeric - 1))
      else None
    end
  end.

(** [true] for "price_desc". *)
Definition normalizeSort (s : jsval) : bool :=
  match s with VStr x => str_eqb x (u "price_desc") | _ => false end.

Inductive Period := next_month | one_two_months | summer | autumn.

Definition normalizePeriod (p : jsval) : option Period :=
  match normalizeText p with
  | None => None
  | Some normalized =>
    if str_eqb normalized (u "next_month") then Some next_month
    else if str_eqb normalized (u "1_2_months") then Some one_two_months
    else if str_eqb normalized (u "summer") then Some summer
    else if str_eqb normalized (u "autumn") then Some autumn
    else None
  end.

Definition normalizeLimit (l : jsval) : Z :=
  match toFiniteNumber l with
  | None => 10
  | Some numeric =>
    if Qle_bool numeric 0 then 10 else Z.min 20 (Qfloor numeric)
  end.

Definition normalizeOffset (o : jsval) : Z :=
  match toFiniteNumber o with
  | None => 0
  | Some numeric => if Qltb numeric 0 then 0 else Qfloor numeric
  end.

Definition hashToInt (input : str) : Z := u32 (sha1_readUInt32BE P input).

Definition default_destination : Destination :=
  {| d_id := 47; d_name := u "Turkey"; d_slug := u "turkey"; d_flag := u "ðŸ‡¹ðŸ‡·";
     d_resorts := [u "Antalya"; u "Kemer"; u "Belek"; u "Alanya"; u "Side"];
     d_priceFactor := 1%Q |}.

(** [COUNTRY_ALIASES[token]] is a property lookup in an object literal, which
    also answers for the members of [Object.prototype]. The token is in lower
    case, and the members with a lower-case name are [constructor] and
    [__proto__]: for them the alias is a function or an object,
    [alias ?? text.trim()] keeps it, and [targetName.toLowerCase()] raises a
    TypeError in the callback of [find]. *)
Definition prototype_member (token : str) : bool :=
  str_eqb token (u "constructor") || str_eqb token (u "__proto__").

(** The call [resolveDestinationByText(text)] raises instead of returning. *)
Definition resolveDestinationByText_throws (text : option str) : bool :=
  match text with
  | None => false
  | Some t => prototype_member (toLowerCase (trim t))
  end.

(** What [resolveDestinationByText(text)] returns when it returns (see
    [resolveDestinationByText_throws]). *)
Definition resolveDestinationByText (text : option str) : option Destination :=
  match text with
  | None => None
  | Some t =>
    let token := toLowerCase (trim t) in
    let targetName :=
      match find (fun kv => str_eqb (fst kv) token) COUNTRY_ALIASES with
      | Some kv => snd kv
      | None => trim t
      end in
    find (fun d => str_eqb (toLowerCase (d_name d)) (toLowerCase targetName)) DESTINATIONS
  end.

Definition resolveDestination (input : MockInput) : Destination :=
  let byId :=
    match toFiniteNumber (country_id input) with
    | Some countryId => find (fun d => d_id d =? Qfloor countryId) DESTINATIONS
    | None => None
    end in
  match byId with
  | Some d => d
  | None =>
    match resolveDestinationByText (normalizeText (country_name input)) with
    | Some d => d
    | None =>
      match resolveDestinationByText (normalizeText (destination input)) with
      | Some d => d
      | None => default_destination
      end
    end
  end.

(** [resolveDestination(input)] raises: no destination is found by id, and
    the first name that is looked up without success, or the first of all,
    makes the lookup raise. [buildTours] and [mockSearchTours] call
    [resolveDestination] before anything else can fail, so this is also when
    a search raises instead of answering; the functions below describe the
    answer of a search that returns. *)
Definition resolveDestination_throws (input : MockInput) : bool :=
  let byId :=
    match toFiniteNumber (country_id input) with
    | Some countryId => find (fun d => d_id d =? Qfloor countryId) DESTINATIONS
    | None => None
    end in
  match byId with
  | Some _ => false
  | None =>
    resolveDestinationByText_throws (normalizeText (country_name input)) ||
    match resolveDestinationByText (normalizeText (country_name input)) with
    | Some _ => false
    | None => resolveDestinationByText_throws (normalizeText (destination input))
    end
  end.

(** The clock is read twice, in [buildTours] and in [resolvePeriodDates]. *)
Record Clock := { at_buildTours : Z; at_resolvePeriodDates : Z }.

(** [now] is the reading of the clock ([new Date()]). *)
Definition resolvePeriodDates (now : Z) (p : option Period) (dateFrom dateTo : Z) : Z * Z :=
  match p with
  | None => (dateFrom, dateTo)
  | Some summer => (20605 * MS_PER_DAY, 20696 * MS_PER_DAY)      (* 2026-06-01, 2026-08-31 *)
  | Some autumn => (20697 * MS_PER_DAY, 20787 * MS_PER_DAY)      (* 2026-09-01, 2026-11-30 *)
  | Some rel =>
    let fromDate := (now / MS_PER_DAY) * MS_PER_DAY in
    let delta := match rel with next_month => 30 | _ => 60 end in
    (fromDate, addDays fromDate delta)
  end.

Definition clamp_int (n min max : Z) : Z := Z.max min (Z.min max n).

(** [a % b] on finite numbers: the remainder has the sign of [a]. *)
Definition js_rem (a b : Q) : Q :=
  let q := (a / b)%Q in
  let t := if Qle_bool 0 q then Qfloor q else Qceiling q in
  (a - b * inject_Z t)%Q.

Definition opt_text (x : option str) : str :=
  match x with Some s => s | None => u "undefined" end.

Definition is_operator (x : option str) (name : string) : bool :=
  match x with Some s => str_eqb s (u name) | None => false end.

Definition meal_of_roll (mealRoll : Q) : str :=
  if Qltb mealRoll (14 # 100) then u "RO"
  else if Qltb mealRoll (34 # 100) then u "BB"
  else if Qltb mealRoll (62 # 100) then u "HB"
  else if Qltb mealRoll (82 # 100) then u "FB"
  else u "AI".

Definition mealFactor (m : str) : Q :=
  if str_eqb m (u "AI") then 12 # 10
  else if str_eqb m (u "FB") then 112 # 100
  else if str_eqb m (u "HB") then 107 # 100
  else if str_eqb m (u "BB") then 103 # 100
  else 98 # 100.

Definition makeHotelName (state : Z) (city : option str) : str * Z :=
  let '(brand, s1) := pick state HOTEL_BRANDS in
  let '(r, s2) := rng s1 in
  (if Qltb r (65 # 100)
   then opt_text brand ++ u " Resort " ++ opt_text city
   else opt_text brand ++ u " " ++ opt_text city, s2).

Definition maybeMissingRating (state : Z) (rating : Q) : option Q * Z :=
  let '(r, s) := rng state in
  (if Qltb r (6 # 100) then None else Some rating, s).

(** What the loop of [buildTours] needs from outside an iteration. *)
Record Market := {
  m_seed : str;
  m_destination : Destination;
  m_fromDate : Z;
  m_rangeDays : Z;
  m_nights : Z * Z;
  m_occupancyFactor : Q;
  m_departureFactor : Q
}.

(** One iteration of the loop of [buildTours]: tour number [i] and the state
    of the generator after it. *)
Definition make_tour (m : Market) (i : Z) (state : Z) : TourResult * Z :=
  let '(starRoll, s) := rng state in
  let stars := if Qltb starRoll (3 # 10) then 3 else if Qltb starRoll (72 # 100) then 4 else 5 in
  let '(drawn, s) := randomInt s (fst (m_nights m)) (snd (m_nights m)) in
  let nights := if i =? 4 then clamp_int 8 (fst (m_nights m)) (snd (m_nights m)) else drawn in
  let '(startOffset, s) :=
    if 0 <? m_rangeDays m then randomInt s 0 (m_rangeDays m) else randomInt s 0 21 in
  let dateFrom := toIsoDate (addDays (m_fromDate m) startOffset) in
  let '(mealRoll, s) := rng s in
  let meal := if i <? Z.of_nat (length MEAL_CODES)
              then nth (Z.to_nat i) MEAL_CODES []
              else meal_of_roll mealRoll in
  let '(operator, s) := pick s OPERATORS in
  let '(room, s) := pick s ROOMS in
  let '(cityName, s) := pick s (d_resorts (m_destination m)) in
  let '(r1, s) := rng s in
  let baseRating :=
    (if stars =? 5 then (425 # 100) + r1 * (75 # 100)
     else if stars =? 4 then (375 # 100) + r1 * (9 # 10)
     else 3 + r1 * (115 # 100))%Q in
  let rating := (inject_Z (Nlu.js_round (clamp baseRating 3 5 * 10)) / 10)%Q in
  let starFactor := (if stars =? 5 then 15 # 10 else if stars =? 4 then 12 # 10 else 95 # 100)%Q in
  let '(operatorFactor, s) :=
    if is_operator operator "TUI" || is_operator operator "Tez Tour"
    then ((106 # 100)%Q, s)
    else let '(r, s') := rng s in (((97 # 100) + r * (1 # 10))%Q, s') in
  let '(r2, s) := rng s in
  let noise := ((9 # 10) + r2 * (22 # 100))%Q in
  let grossPrice :=
    (42000 * starFactor * mealFactor meal * ((84 # 100) + inject_Z nights * (75 # 1000))
     * m_occupancyFactor m * d_priceFactor (m_destination m) * m_departureFactor m
     * operatorFactor * noise)%Q in
  let '(r3, s) := rng s in
  let priceStep := if Qltb r3 (2 # 10) then 10 else 100 in
  let price := roundPrice grossPrice priceStep in
  let hotelId := 1000 + i in
  let '(name, s) := makeHotelName s cityName in
  let '(shownRating, s) := maybeMissingRating s rating in
  ({| price := price; currency := u "RUB"; t_date_from := dateFrom; nights := nights;
      operator := operator; hotel_id := hotelId; hotel_name := name; stars := stars;
      t_rating := shownRating; t_meal := meal; room := room;
      t_country_name := d_name (m_destination m); city_name := cityName;
      flag_emoji := d_flag (m_destination m); image_url := None;
      raw_seed := m_seed m; raw_debug := None |}, s).

Fixpoint make_tours (m : Market) (count : nat) (i : Z) (state : Z) : list TourResult :=
  match count with
  | O => []
  | S count' =>
    let '(tour, state') := make_tour m i state in
    tour :: make_tours m count' (i + 1) state'
  end.

(** The window of departure dates: the only place where the clock enters. *)
Definition date_window (clock : Clock) (input : MockInput) : Z * Z :=
  let now := at_buildTours clock in
  let parsedFromDate := parseDateSafe (date_from input) now in
  let parsedToDate := parseDateSafe (date_to input) (addDays parsedFromDate 30) in
  resolvePeriodDates (at_resolvePeriodDates clock) (normalizePeriod (period input))
    parsedFromDate parsedToDate.

Definition buildTours (clock : Clock) (input : MockInput) (sd : str) : list TourResult :=
  let '(marketSize, state) := randomInt (makeRng (sd ++ u ":market")) 60 100 in
  let destination := resolveDestination input in
  let '(fromDate, toDate) := date_window clock input in
  let rangeDays := Z.max 0 ((toDate - fromDate) / MS_PER_DAY) in
  let nightsRange := resolveEffectiveNightsRange input in
  let adults := clamp (match toFiniteNumber (adults input) with Some q => q | None => 2%Q end) 1 6 in
  let children := clamp (or_zero (toFiniteNumber (children input))) 0 4 in
  let occupancyFactor := (1 + adults * (18 # 100) + children * (9 # 100))%Q in
  let departureFactor :=
    ((9 # 10) + js_rem (or_zero (toFiniteNumber (departure_id input))) 5 * (4 # 100))%Q in
  make_tours
    {| m_seed := sd; m_destination := destination; m_fromDate := fromDate;
       m_rangeDays := rangeDays; m_nights := nightsRange;
       m_occupancyFactor := occupancyFactor; m_departureFactor := departureFactor |}
    (Z.to_nat marketSize) 0 state.

(** *** Images *)

Fixpoint probe (fuel : nat) (used : list Z) (poolSize idx : Z) : Z :=
  match fuel with
  | O => idx
  | S fuel' =>
    if existsb (Z.eqb idx) used then probe fuel' used poolSize ((idx + 1) mod poolSize)
    else idx
  end.

Fixpoint assign_from (sd : str) (offset : Z) (pool : list str) (pageSize start : Z)
  (indexInPage : Z) (used : list Z) (page : list TourResult) : list TourResult :=
  match page with
  | [] => []
  | tour :: rest =>
    let poolSize := Z.of_nat (length pool) in
    let spin := hashToInt (sd ++ u "|" ++ u (pretty (hotel_id tour)) ++ u "|" ++
                           u (pretty offset) ++ u "|" ++ u (pretty indexInPage))
                mod poolSize in
    let idx0 := (start + indexInPage + spin) mod poolSize in
    let '(idx, used') :=
      if pageSize <=? poolSize
      then let idx := probe (length pool) used poolSize idx0 in (idx, idx :: used)
      else (idx0, used) in
    set_image (nth_error pool (Z.to_nat idx)) tour
    :: assign_from sd offset pool pageSize start (indexInPage + 1) used' rest
  end.

Definition assignImagesForPage (sd slug : str) (offset : Z) (page : list TourResult)
  : list TourResult :=
  let pool := getImagePool P slug in
  match pool with
  | [] => map (set_image None) page
  | _ :: _ =>
    let start := hashToInt (sd ++ u "|" ++ slug ++ u "|" ++ u (pretty offset))
                 mod Z.of_nat (length pool) in
    assign_from sd offset pool (Z.of_nat (length page)) start 0 [] page
  end.

(** *** The search *)

Record Filters := {
  f_nights : Z * Z;
  f_budgetMax : Q;
  f_budgetMin : Q;
  f_ratingMin : option Q;
  f_meal : option str
}.

Definition filters_of (input : MockInput) : Filters :=
  {| f_nights := resolveEffectiveNightsRange input;
     f_budgetMax := or_zero (toFiniteNumber (budget_max input));
     f_budgetMin := or_zero (toFiniteNumber (budget_min input));
     f_ratingMin := toFiniteNumber (rating input);
     f_meal := normalizeMealFilter (meal input) |}.

(** The callback of [generated.filter]. *)
Definition keeps (f : Filters) (tour : TourResult) : bool :=
  if nights tour <? fst (f_nights f) then false
  else if snd (f_nights f) <? nights tour then false
  else if Qltb 0 (f_budgetMin f) && Qltb (inject_Z (price tour)) (f_budgetMin f) then false
  else if Qltb 0 (f_budgetMax f) && Qltb (f_budgetMax f) (inject_Z (price tour)) then false
  else if match f_ratingMin f with
          | Some ratingMin =>
            Qltb 0 ratingMin &&
            match t_rating tour with
            | None => true
            | Some value => Qltb value ratingMin
            end
          | None => false
          end then false
  else if match f_meal f with
          | Some mealFilter =>
            negb (str_eqb mealFilter []) &&
            negb (str_eqb (toUpperCase (t_meal tour)) mealFilter)
          | None => false
          end then false
  else true.

(** [Array.prototype.sort] is stable; [before a b] says that the comparator
    does not put [b] before [a]. *)
Fixpoint insert_sorted (before : TourResult -> TourResult -> bool) (x : TourResult)
  (l : list TourResult) : list TourResult :=
  match l with
  | [] => [x]
  | y :: l' => if before x y then x :: l else y :: insert_sorted before x l'
  end.

Definition sort_tours (desc : bool) (l : list TourResult) : list TourResult :=
  fold_right
    (insert_sorted (fun a b => if desc then price b <=? price a else price a <=? price b))
    [] l.

Definition slice (start count : Z) (l : list TourResult) : list TourResult :=
  firstn (Z.to_nat count) (skipn (Z.to_nat start) l).

Record SearchToursOutput := { requestid : str; results : list TourResult }.

Definition mockSearchTours (clock : Clock) (input : MockInput) : SearchToursOutput :=
  let sd := makeSeedFromInput input in
  let generated := buildTours clock input sd in
  let desc := normalizeSort (sort input) in
  let lim := normalizeLimit (limit input) in
  let off := normalizeOffset (offset input) in
  let destination := resolveDestination input in
  let filtered := List.filter (keeps (filters_of input)) generated in
  let page := slice off lim (sort_tours desc filtered) in
  let withImages := assignImagesForPage sd (d_slug destination) off page in
  {| requestid := u "mock-" ++ firstn 12 (sha1_hex P sd);
     results :=
       map (set_raw sd (if MOCK_DEBUG P then Some (desc, lim, off) else None)) withImages |}.

(** A call of [mockSearchTours] raises ([None]) or returns its answer. *)
Definition mockSearchTours_checked (clock : Clock) (input : MockInput)
  : option SearchToursOutput :=
  if resolveDestination_throws input then None else Some (mockSearchTours clock input).

End WithPlatform.
End Mock.

(* ===================================================================== *)
(** ** The properties, as the specification words them *)
(* ===================================================================== *)

Module Spec.
Import Js Re Nlu Orchestrator Bot.

(** The required slots, in the order in which they are asked for. *)
Definition required_slots : list MissingField := [country_slot; nights_slot; budget_slot].

(** A slot is present: the country by a numeric id or by a name of which
    something is left after trimming; the nights when both bounds are finite
    numbers; the budget when its upper bound is a finite number above zero. *)
Definition finite_number (x : option num) : bool :=
  match x with Some (Fin _) => true | _ => false end.

Definition positive_finite (x : option num) : bool :=
  match x with Some (Fin q) => Qltb 0 q | _ => false end.

Definition named (x : option str) : bool :=
  match x with
  | Some name => match trim name with [] => false | _ :: _ => true end
  | None => false
  end.

Definition slot_present (d : Draft) (slot : MissingField) : bool :=
  match slot with
  | country_slot => match country_id d with Some _ => true | None => named (country_name d) end
  | nights_slot => finite_number (nights_min d) && finite_number (nights_max d)
  | budget_slot => positive_finite (budget_max d)
  end.

Definition missing_slots (d : Draft) : list MissingField :=
  List.filter (fun slot => negb (slot_present d slot)) required_slots.

Definition awaiting_of (slot : MissingField) : Awaiting :=
  match slot with
  | country_slot => aw_country
  | nights_slot => aw_nights
  | budget_slot => aw_budget
  end.

Definition first_missing (d : Draft) : option Awaiting :=
  match missing_slots d with
  | [] => None
  | slot :: _ => Some (awaiting_of slot)
  end.

(** The sequence number a chat currently holds. *)
Definition current_seq (state : ChatState) : Z :=
  match activeSearchSeq state with Some n => n | None => 0 end.



(** The updates of the chat state that are not favorites actions, as far as
    the handlers are modelled. *)
Inductive Update :=
| new_search                                   (* NEW_SEARCH, "new", "start_search" *)
| cancel_reset                                 (* /cancel, "отмена", "сброс", ... *)
| start_or_help                                (* /start, /help *)
| choose_country (id : Z)                      (* country:<id> *)
| search_started                               (* runSearch up to its await *)
| search_answered (seq : Z) (output : SearchOutput)
| draft_search_started                         (* runAiDraftSearch up to its await *)
| cards_shown (output : SearchOutput)          (* sendCards *)
| budget_clarified (pending : PendingBudget) (text : str)
| budget_typed (text : str)
| want_pressed (pending : gmap str Z) (now userId : Z) (requestId : str)
               (hotelId : Z) (sourceHint : option str).

Definition perform (a : Update) (state : ChatState) : ChatState :=
  match a with
  | new_search => fst (on_new_search state)
  | cancel_reset => fst (replyCancelReset state)
  | start_or_help => on_start state
  | choose_country id => on_country state id
  | search_started => fst (runSearch_begin state)
  | search_answered seq output => fst (on_search_result state seq output)
  | draft_search_started => st (runAiDraftSearch_begin state)
  | cards_shown output => fst (sendCards state output)
  | budget_clarified pending text => st (on_text_pending_budget state pending text)
  | budget_typed text => st (on_text_budget_input state text)
  | want_pressed pending now userId requestId hotelId sourceHint =>
    snd (fst (on_want pending state now userId requestId hotelId sourceHint))
  end.











(** The budget ceiling of the search that a handler has started. *)
Definition started_ceiling (r : Step) : option num :=
  option_map (fun c => si_budget_max (call_args c)) (call r).







(** What the handler of the "want" button returns. *)
Definition want_pending (r : gmap str Z * ChatState * list Out) : gmap str Z := fst (fst r).
Definition want_state (r : gmap str Z * ChatState * list Out) : ChatState := snd (fst r).
Definition want_outs (r : gmap str Z * ChatState * list Out) : list Out := snd r.

(** The handler takes the press for a new one: there is no entry for the
    key, or the entry is older than the window. *)
Definition not_recent (pending : gmap str Z) (key : str) (now : Z) : bool :=
  match pending !! key with
  | Some pendingAt => (pendingAt =? 0) || (DEDUPE_WINDOW <=? now - pendingAt)
  | None => true
  end.

(** The tour is already the pinned selection and its phone prompt is on
    screen. *)
Definition already_pinned (state : ChatState) (hotelId : Z) : bool :=
  isSamePendingHotel state hotelId &&
  match phonePromptShownForHotelId state with
  | Some h => h =? hotelId
  | None => false
  end.

(** The messages of one kind among those a handler sent. *)
Definition count_out (o : Out) (l : list Out) : nat :=
  length (List.filter (fun x => match x, o with
                                | Say a, Say b => String.eqb a b
                                | _, _ => false
                                end) l).

(** A hotel is among the favorites: saved on its own or inside a saved
    collection. *)
Definition kept (fav : FavoritesStore) (t : Tour) : Prop :=
  In t (tours fav) \/ exists c, In c (collections fav) /\ In t (set_tours c).

(** "+7" and ten digits. *)
Definition russian_mobile (phone : str) : Prop :=
  exists digits, phone = u "+7" ++ digits /\ length digits = 10%nat /\
                 forallb is_digit digits = true.

(** What [normalizeText] does to one code unit. *)
Definition plain_char (c : Z) : Z :=
  let c1 := if c =? 1105 then 1077 else c in
  let c2 := if existsb (Z.eqb c1) [8208; 8209; 8210; 8211; 8212; 8213] then 45 else c1 in
  if existsb (Z.eqb c2) [160; 8201; 8239] then 32 else c2.

End Spec.

Module MockSpec.
Import Js Re Mock.

(** The input does not make the backend consult the clock: the period is a
    fixed season, or there is no period and [date_from] is a valid date. *)
Definition clock_free (P : Platform) (input : MockInput) : bool :=
  match normalizePeriod (period input) with
  | Some summer | Some autumn => true
  | Some _ => false
  | None =>
    match normalizeDate (date_from input) with
    | Some d => match Date_parse_utc P d with Some _ => true | None => false end
    | None => false
    end
  end.

(** A request without any field. *)
Definition no_fields : MockInput :=
  {| seed := VUndef; sort := VUndef; limit := VUndef; offset := VUndef; period := VUndef;
     country_id := VUndef; country_name := VUndef; destination := VUndef;
     departure_id := VUndef; date_from := VUndef; date_to := VUndef;
     nights_min := VUndef; nights_max := VUndef; adults := VUndef; children := VUndef;
     budget_max := VUndef; budget_min := VUndef; rating := VUndef; meal := VUndef |}.

(** A request that names a country and has no other field. *)
Definition named (name : str) : MockInput :=
  {| seed := VUndef; sort := VUndef; limit := VUndef; offset := VUndef; period := VUndef;
     country_id := VUndef; country_name := VStr name; destination := VUndef;
     departure_id := VUndef; date_from := VUndef; date_to := VUndef;
     nights_min := VUndef; nights_max := VUndef; adults := VUndef; children := VUndef;
     budget_max := VUndef; budget_min := VUndef; rating := VUndef; meal := VUndef |}.

(** The clock at day [d] after 1970-01-01, at midnight. *)
Definition midnight (d : Z) : Clock :=
  {| at_buildTours := d * MS_PER_DAY; at_resolvePeriodDates := d * MS_PER_DAY |}.




(** Thirty-two consecutive days. *)
Definition offsets : list Z := map Z.of_nat (List.seq 0 32).

(** The order of two prices in a result list: ascending, or descending for
    "price_desc". *)
Definition price_order (desc : bool) (a b : Z) : Prop := if desc then b <= a else a <= b.

(** The same request for another page. *)
Definition with_page (input : MockInput) (off lim : Z) : MockInput :=
  {| Mock.seed := Mock.seed input; Mock.sort := Mock.sort input;
     Mock.limit := VNum (of_Z lim); Mock.offset := VNum (of_Z off);
     Mock.period := Mock.period input; Mock.country_id := Mock.country_id input;
     Mock.country_name := Mock.country_name input;
     Mock.destination := Mock.destination input;
     Mock.departure_id := Mock.departure_id input; Mock.date_from := Mock.date_from input;
     Mock.date_to := Mock.date_to input; Mock.nights_min := Mock.nights_min input;
     Mock.nights_max := Mock.nights_max input; Mock.adults := Mock.adults input;
     Mock.children := Mock.children input; Mock.budget_max := Mock.budget_max input;
     Mock.budget_min := Mock.budget_min input; Mock.rating := Mock.rating input;
     Mock.meal := Mock.meal input |}.

(** A result without its image and its [raw] record (provider, seed,
    debugging data). *)
Definition bare (t : TourResult) : TourResult := set_raw [] None (set_image None t).

(** The request filters nothing but the nights: no budget above zero, no
    rating above zero and no meal. *)
Definition unfiltered (P : Platform) (input : MockInput) : bool :=
  Qle_bool (or_zero (toFiniteNumber P (budget_max input))) 0 &&
  Qle_bool (or_zero (toFiniteNumber P (budget_min input))) 0 &&
  match toFiniteNumber P (rating input) with Some r => Qle_bool r 0 | None => true end &&
  match normalizeMealFilter P (meal input) with Some _ => false | None => true end.

(** The number of generated tours that pass the filters of a request. *)
Definition matching (P : Platform) (clock : Clock) (input : MockInput) : Z :=
  Z.of_nat (length (List.filter (keeps (filters_of P input))
                      (buildTours P clock input (makeSeedFromInput P input)))).

End MockSpec.

(** Concrete chats and messages on which the statements below are
    evaluated. *)
Module Examples.
Import Js Re Nlu Orchestrator Bot.
Local Open Scope state_scope.

Definition tour5 : Tour :=
  {| hotel_id := 5; hotel_name := Some (u "Asteria Resort Kemer");
     price := Some (of_Z 98000); image_url := None |}.

Definition output5 : SearchOutput :=
  {| requestid := u "mock-1a2b3c"; results := [tour5]; total := Some 1 |}.


(** The last search of a chat: Turkey, 7 nights, up to 150 000. *)
Definition last_turkey : SearchToursInput :=
  {| si_country_id := Some (of_Z 47); si_date_from := u "2026-06-01";
     si_date_to := u "2026-06-20"; si_nights_min := of_Z 7; si_nights_max := of_Z 7;
     si_adults := of_Z 2; si_children := of_Z 0; si_period := None;
     si_budget_min := None; si_budget_max := of_Z 150000; si_meal := None;
     si_rating := of_Z 0; si_limit := 5; si_offset := 0 |}.

Definition asked_100000 : PendingBudget := {| pb_value := 100000; pb_mode := mode_followup |}.

(** The bot has just asked whether 100000 is a maximum or a target. *)
Definition clarifying : ChatState :=
  initial_state
  |> Bot.set_lastSearchArgs (Some last_turkey)
  |> Bot.set_pendingBudgetClarification (Some asked_100000).

(** The guided flow is waiting for a typed budget. *)
Definition typing_budget : ChatState :=
  initial_state |> Bot.set_countryId (Some (of_Z 47)) |> Bot.set_step budget_input.


(** A chat that shows tour 5 and already waits for the phone number of its
    user, who pressed the button more than a minute ago. *)
Definition waiting_for_phone : ChatState :=
  initial_state
  |> Bot.set_lastRequestId (Some (u "mock-1a2b3c"))
  |> Bot.set_lastResults [tour5]
  |> Bot.set_pendingHotel (Some tour5)
  |> Bot.set_step await_phone
  |> Bot.set_phonePromptShownForHotelId (Some 5).

(** A platform with stand-ins for the hash functions, three images per
    destination and a calendar for June 2026. *)
Definition small_platform : Mock.Platform :=
  {| Mock.sha256_hex := fun s => s;
     Mock.sha256_readUInt32LE := fun s => 123456789 + Z.of_nat (length s);
     Mock.sha1_hex := fun s => s;
     Mock.sha1_readUInt32BE := fun s => 77 + fold_left Z.add s 0;
     Mock.JSON_stringify := fun _ => u "{}";
     Mock.Number_of_string := fun _ => NaN;
     Mock.String_of := fun v => match v with Mock.VStr s => s | _ => u "null" end;
     Mock.Date_parse_utc := fun s => if str_eqb s (u "2026-06-01") then Some (20605 * 86400000)
                                     else if str_eqb s (u "2026-06-20") then Some (20624 * 86400000)
                                     else None;
     Mock.getImagePool := fun slug => [slug ++ u "_01.jpg"; slug ++ u "_02.jpg"; slug ++ u "_03.jpg"];
     Mock.MOCK_DEBUG := false |}.

(** Maldives, 6 to 10 nights in June 2026, up to 150 000, all inclusive, three
    results. *)
Definition maldives_june : Mock.MockInput :=
  {| Mock.seed := Mock.VStr (u "front-determinism"); Mock.sort := Mock.VUndef;
     Mock.limit := Mock.VNum (of_Z 3); Mock.offset := Mock.VUndef;
     Mock.period := Mock.VUndef; Mock.country_id := Mock.VNum (of_Z 90);
     Mock.country_name := Mock.VUndef; Mock.destination := Mock.VUndef;
     Mock.departure_id := Mock.VNum (of_Z 1); Mock.date_from := Mock.VStr (u "2026-06-01");
     Mock.date_to := Mock.VStr (u "2026-06-20"); Mock.nights_min := Mock.VNum (of_Z 6);
     Mock.nights_max := Mock.VNum (of_Z 10); Mock.adults := Mock.VNum (of_Z 2);
     Mock.children := Mock.VNum (of_Z 0); Mock.budget_max := Mock.VNum (of_Z 150000);
     Mock.budget_min := Mock.VUndef; Mock.rating := Mock.VUndef;
     Mock.meal := Mock.VStr (u "ai") |}.

(** The cheapest of the three tours that the backend returns for
    [maldives_june] on [small_platform]. *)
Definition cheapest_maldives : Mock.TourResult :=
  {| Mock.price := 106500; Mock.currency := u "RUB"; Mock.t_date_from := u "2026-06-01";
     Mock.nights := 6; Mock.operator := Some (u "Coral"); Mock.hotel_id := 1065;
     Mock.hotel_name := u "Vista Mare Resort Baa Atoll"; Mock.stars := 3;
     Mock.t_rating := Some (32 # 10)%Q; Mock.t_meal := u "AI";
     Mock.room := Some (u "Family Room"); Mock.t_country_name := u "Maldives";
     Mock.city_name := Some (u "Baa Atoll"); Mock.flag_emoji := u "ðŸ‡²ðŸ‡»";
     Mock.image_url := Some (u "maldives_01.jpg"); Mock.raw_seed := u "front-determinism";
     Mock.raw_debug := None |}.

(** What a classifier returns for a week in Turkey for up to 100 000. *)
Definition week_in_turkey : SearchArgs :=
  {| a_country_name := Some (u "Turkey"); a_nights_min := Some (of_Z 7);
     a_nights_max := Some (of_Z 7); a_budget_max := Some (of_Z 100000) |}.

(** A chat that shows tour 5 and has no selection yet. *)
Definition showing_results : ChatState :=
  initial_state
  |> Bot.set_lastRequestId (Some (u "mock-1a2b3c"))
  |> Bot.set_lastResults [tour5].

(** What the rules make of "хочу в Турцию за 100000": a draft for Turkey
    with the band around 100000 and no nights. *)
Definition turkey_draft : Draft :=
  {| country_id := Some (of_Z 47); country_name := Some (u "Turkey"); nights_min := None;
     nights_max := None; budget_min := Some (of_Z 90000); budget_max := Some (of_Z 110000) |}.

(** The chat after that message: the bot has asked whether 100000 is a
    maximum or a target, and the draft waits for its nights. *)
Definition asked_in_dialogue : ChatState :=
  initial_state
  |> Bot.set_aiMode true
  |> Bot.set_aiDraft (Some turkey_draft)
  |> Bot.set_aiAwaiting (Some aw_nights)
  |> Bot.set_pendingBudgetClarification (Some {| pb_value := 100000; pb_mode := mode_ai |}).



End Examples.

(* ===================================================================== *)
(** ** Theorems *)
(* ===================================================================== *)

Import Js Re Nlu Orchestrator Bot Spec.

(** *** Missing slots *)

(** C1. For every draft, [getMissingFields] reports exactly the required
    slots that are not present, in the order country, nights, budget (the
    country being present by a numeric id or by a name that is not blank, the
    nights when both bounds are finite numbers, the budget when
    [budget_max] is a finite number above zero), and [nextAiAwaiting] is the
    first of them, or null when there is none. *)
Theorem missing_slots_exact (d : Draft) :
  getMissingFields d = missing_slots d /\ nextAiAwaiting d = first_missing d.
Proof.
  destruct d as [cid cname nmin nmax bmin bmax].
  unfold getMissingFields, nextAiAwaiting, first_missing, missing_slots,
    hasCountry, hasNights, hasBudget, finite_field, slot_present, required_slots,
    named, finite_number, positive_finite; simpl.
  assert (Hname : forall n : str,
             negb (str_eqb (trim n) []) = match trim n with [] => false | _ :: _ => true end)
    by (intros n; destruct (trim n); reflexivity).
  destruct cid as [i|]; [|destruct cname as [n|]; [rewrite Hname; destruct (trim n)|]];
    destruct nmin as [[q1| | |]|]; destruct nmax as [[q2| | |]|];
    destruct bmax as [[q3| | |]|]; simpl; try destruct (Qltb 0 q3); split; reflexivity.
Qed.

(** *** Stale search results *)

Lemma fresh_result_shown (state : ChatState) (seq : Z) (output : SearchOutput) :
  current_seq state = seq -> on_search_result state seq output = sendCards state output.
Proof.
  unfold on_search_result, isSearchSeqStale, current_seq. intros ->.
  now rewrite Z.eqb_refl.
Qed.

Lemma activeSearchSeq_sync state args :
  activeSearchSeq (syncSearchContextFromState state args) = activeSearchSeq state.
Proof. reflexivity. Qed.

Lemma activeSearchSeq_applyOrchestrated state args :
  activeSearchSeq (applyOrchestratedSearchArgsToState state args) = None.
Proof.
  unfold applyOrchestratedSearchArgsToState. cbv zeta. rewrite activeSearchSeq_sync.
  repeat match goal with
         | |- context [match ?x with _ => _ end] => destruct x
         end; reflexivity.
Qed.









(** *** Resets and the favorites *)

Lemma favorites_set_step v s : favorites (set_step v s) = favorites s.
Proof. reflexivity. Qed.
Lemma favorites_set_countryId v s : favorites (set_countryId v s) = favorites s.
Proof. reflexivity. Qed.
Lemma favorites_set_nightsMin v s : favorites (set_nightsMin v s) = favorites s.
Proof. reflexivity. Qed.
Lemma favorites_set_nightsMax v s : favorites (set_nightsMax v s) = favorites s.
Proof. reflexivity. Qed.
Lemma favorites_set_budgetChosen v s : favorites (set_budgetChosen v s) = favorites s.
Proof. reflexivity. Qed.
Lemma favorites_set_budgetMax v s : favorites (set_budgetMax v s) = favorites s.
Proof. reflexivity. Qed.
Lemma favorites_set_budgetMin v s : favorites (set_budgetMin v s) = favorites s.
Proof. reflexivity. Qed.
Lemma favorites_set_ratingChosen v s : favorites (set_ratingChosen v s) = favorites s.
Proof. reflexivity. Qed.
Lemma favorites_set_ratingMin v s : favorites (set_ratingMin v s) = favorites s.
Proof. reflexivity. Qed.
Lemma favorites_set_period v s : favorites (set_period v s) = favorites s.
Proof. reflexivity. Qed.
Lemma favorites_set_meal v s : favorites (set_meal v s) = favorites s.
Proof. reflexivity. Qed.
Lemma favorites_set_mealChosen v s : favorites (set_mealChosen v s) = favorites s.
Proof. reflexivity. Qed.
Lemma favorites_set_editingFilter v s : favorites (set_editingFilter v s) = favorites s.
Proof. reflexivity. Qed.
Lemma favorites_set_offset v s : favorites (set_offset v s) = favorites s.
Proof. reflexivity. Qed.
Lemma favorites_set_limit v s : favorites (set_limit v s) = favorites s.
Proof. reflexivity. Qed.
Lemma favorites_set_lastRequestId v s : favorites (set_lastRequestId v s) = favorites s.
Proof. reflexivity. Qed.
Lemma favorites_set_lastResults v s : favorites (set_lastResults v s) = favorites s.
Proof. reflexivity. Qed.
Lemma favorites_set_pendingHotel v s : favorites (set_pendingHotel v s) = favorites s.
Proof. reflexivity. Qed.
Lemma favorites_set_phonePromptShownForHotelId v s : favorites (set_phonePromptShownForHotelId v s) = favorites s.
Proof. reflexivity. Qed.
Lemma favorites_set_aiMode v s : favorites (set_aiMode v s) = favorites s.
Proof. reflexivity. Qed.
Lemma favorites_set_aiDraft v s : favorites (set_aiDraft v s) = favorites s.
Proof. reflexivity. Qed.
Lemma favorites_set_aiAwaiting v s : favorites (set_aiAwaiting v s) = favorites s.
Proof. reflexivity. Qed.
Lemma favorites_set_lastSearchArgs v s : favorites (set_lastSearchArgs v s) = favorites s.
Proof. reflexivity. Qed.
Lemma favorites_set_activeSearchSeq v s : favorites (set_activeSearchSeq v s) = favorites s.
Proof. reflexivity. Qed.
Lemma favorites_set_searchContext v s : favorites (set_searchContext v s) = favorites s.
Proof. reflexivity. Qed.
Lemma favorites_set_pendingBudgetClarification v s : favorites (set_pendingBudgetClarification v s) = favorites s.
Proof. reflexivity. Qed.
Lemma favorites_set_pendingPromptAction v s : favorites (set_pendingPromptAction v s) = favorites s.
Proof. reflexivity. Qed.
Lemma favorites_set_favoritesSeq v s : favorites (set_favoritesSeq v s) = favorites s.
Proof. reflexivity. Qed.

Create Rewrite HintDb frame.
Hint Rewrite favorites_set_step favorites_set_countryId favorites_set_nightsMin favorites_set_nightsMax favorites_set_budgetChosen favorites_set_budgetMax favorites_set_budgetMin favorites_set_ratingChosen favorites_set_ratingMin favorites_set_period favorites_set_meal favorites_set_mealChosen favorites_set_editingFilter favorites_set_offset favorites_set_limit favorites_set_lastRequestId favorites_set_lastResults favorites_set_pendingHotel favorites_set_phonePromptShownForHotelId favorites_set_aiMode favorites_set_aiDraft favorites_set_aiAwaiting favorites_set_lastSearchArgs favorites_set_activeSearchSeq favorites_set_searchContext favorites_set_pendingBudgetClarification favorites_set_pendingPromptAction favorites_set_favoritesSeq : frame.

(** Case analysis on whatever decides which state a handler returns. *)
Ltac case_frame :=
  repeat first
    [ progress autorewrite with frame
    | match goal with
      | |- favorites (match ?x with _ => _ end) = _ => destruct x
      | |- favorites (if ?b then _ else _) = _ => destruct b
      end ];
  try reflexivity.

Lemma favorites_resetSearchState state : favorites (resetSearchState state) = favorites state.
Proof. reflexivity. Qed.

Lemma favorites_sync state args :
  favorites (syncSearchContextFromState state args) = favorites state.
Proof. reflexivity. Qed.

Hint Rewrite favorites_resetSearchState favorites_sync : frame.

Lemma favorites_applyOrchestrated state args :
  favorites (applyOrchestratedSearchArgsToState state args) = favorites state.
Proof. unfold applyOrchestratedSearchArgsToState. cbv zeta. case_frame. Qed.

Lemma favorites_sendCards state output :
  favorites (fst (sendCards state output)) = favorites state.
Proof.
  unfold sendCards.
  match goal with |- context [searchContext ?x] =>
    assert (Hs : favorites x = favorites state) by reflexivity;
    generalize Hs; clear Hs; generalize x; intros s' Hs
  end.
  destruct (searchContext s'); destruct (results output); cbn [fst];
    autorewrite with frame; exact Hs.
Qed.

Lemma favorites_buildSearchArgs state :
  favorites (fst (buildSearchArgs state)) = favorites state.
Proof.
  unfold buildSearchArgs. cbn [fst].
  destruct (countryId state) as [i|]; [destruct (truthy i)|]; reflexivity.
Qed.

Lemma favorites_runSearch_begin state :
  favorites (fst (runSearch_begin state)) = favorites state.
Proof.
  unfold runSearch_begin.
  destruct (beginSearchSeq state) as [s1 seq] eqn:E1.
  assert (favorites s1 = favorites state) as <- by (inversion E1; reflexivity).
  pose proof (favorites_buildSearchArgs s1) as H.
  destruct (buildSearchArgs s1) as [s2 args]. exact H.
Qed.

Lemma favorites_runAiDraftSearch_begin state :
  favorites (st (runAiDraftSearch_begin state)) = favorites state.
Proof.
  unfold runAiDraftSearch_begin.
  match goal with |- context [runSearch_begin ?s] =>
    pose proof (favorites_runSearch_begin s) as H; destruct (runSearch_begin s) as [s2 c]
  end.
  cbn [st fst] in *. rewrite H.
  rewrite favorites_set_lastSearchArgs. apply favorites_applyOrchestrated.
Qed.

Lemma favorites_pending_budget state pending text :
  favorites (st (on_text_pending_budget state pending text)) = favorites state.
Proof.
  unfold on_text_pending_budget.
  match goal with |- context [resolve_budget ?a ?b ?c] =>
    destruct (resolve_budget a b c) as [explicitTarget parsedBudget]
  end.
  destruct (parsedBudget =? 0); [reflexivity|].
  assert (Hai : forall s d,
    favorites s = favorites state ->
    favorites (st (if hasAiSearchData d then runAiDraftSearch_begin s
                   else {| st := s; outs := askAiMissingField s; call := None |}))
    = favorites state).
  { intros s d Hs. destruct (hasAiSearchData d);
      [rewrite favorites_runAiDraftSearch_begin|]; exact Hs. }
  destruct (pb_mode pending).
  - apply Hai. autorewrite with frame. reflexivity.
  - destruct (lastSearchArgs (set_pendingBudgetClarification None state)) as [last|].
    + cbn [st fst snd beginSearchSeq]. autorewrite with frame.
      rewrite favorites_applyOrchestrated. autorewrite with frame. reflexivity.
    + apply Hai. autorewrite with frame. reflexivity.
Qed.

Lemma favorites_budget_input state text :
  favorites (st (on_text_budget_input state text)) = favorites state.
Proof.
  unfold on_text_budget_input.
  destruct (parseBudgetAnswer text) as [budget|]; [|reflexivity].
  match goal with |- context [editingFilter ?x] =>
    assert (Hs : favorites x = favorites state)
      by (destruct budget; autorewrite with frame; reflexivity);
    generalize Hs; clear Hs; generalize x; intros s' Hs
  end.
  destruct (editingFilter s') as [[]|]; try exact Hs.
  match goal with |- context [runSearch_begin ?s0] =>
    pose proof (favorites_runSearch_begin s0) as H; destruct (runSearch_begin s0) as [s3 c]
  end.
  cbn [st fst] in *. rewrite H. autorewrite with frame. exact Hs.
Qed.

Lemma favorites_want pending state now userId requestId hotelId sourceHint :
  favorites (snd (fst (on_want pending state now userId requestId hotelId sourceHint)))
  = favorites state.
Proof.
  unfold on_want.
  match goal with |- context [if ?b then (pending, state, _) else _] => destruct b end;
    [reflexivity|].
  destruct (findTourForWantAction state hotelId); [|reflexivity].
  match goal with |- context [if ?b then _ else _] => destruct b end; reflexivity.
Qed.

(** No update of the chat state other than the favorites actions changes the
    favorites store, as far as the handlers are modelled. *)
Lemma modelled_updates_keep_favorites (state : ChatState) (a : Update) :
  favorites (perform a state) = favorites state.
Proof.
  destruct a as [ | | |id| |sq output| |output|pending text|text|pending now uid rid hid hint].
  - reflexivity.
  - reflexivity.
  - reflexivity.
  - reflexivity.
  - apply favorites_runSearch_begin.
  - cbn [perform]. unfold on_search_result.
    destruct (isSearchSeqStale state sq); [reflexivity|apply favorites_sendCards].
  - apply favorites_runAiDraftSearch_begin.
  - apply favorites_sendCards.
  - apply favorites_pending_budget.
  - apply favorites_budget_input.
  - apply favorites_want.
Qed.

(** C8. The button "new" (as the cancel phrases) clears the draft, the pinned
    selection, the pending budget clarification, the offset and the cached
    results in every state and keeps the favorites, and so does the typed
    command "новый поиск" when no budget clarification is pending. While one
    is pending, the text handler takes the command for the answer to its
    question: after a follow-up it starts a search with the amount it asked
    about, whose results then fill the cache again; in slot filling it keeps
    the draft, writes the amount into it and asks for the nights. *)
Theorem typed_new_search_during_clarification :
  command (parseQuery (u "новый поиск")) = Some NEW_SEARCH /\
  hasExplicitParams (parseQuery (u "новый поиск")) = false /\
  on_text Examples.showing_results (u "новый поиск")
  = Some (reply (fst (on_new_search Examples.showing_results))
            [Say "Ок, начнём заново. Выберите страну:"]) /\
  (exists r c,
     on_text Examples.clarifying (u "новый поиск") = Some r /\
     outs r = [Say "Обновляю поиск по вашему уточнению ✨"] /\
     call r = Some c /\
     si_budget_max (call_args c) = of_Z 100000 /\
     lastResults (fst (on_result plain (st r) (call_seq c) Examples.output5))
     = [Examples.tour5] /\
     favorites (st r) = favorites Examples.clarifying) /\
  (exists r,
     on_text Examples.asked_in_dialogue (u "новый поиск") = Some r /\
     outs r = [AskMissing aw_nights] /\
     call r = None /\
     aiMode (st r) = true /\
     aiDraft (st r)
     = Some {| country_id := Some (of_Z 47); country_name := Some (u "Turkey");
               nights_min := None; nights_max := None;
               budget_min := Some (of_Z 90000); budget_max := Some (of_Z 100000) |} /\
     favorites (st r) = favorites Examples.asked_in_dialogue) /\
  (forall state : ChatState,
     let s := fst (on_new_search state) in
     aiDraft s = None /\ pendingHotel s = None /\ pendingBudgetClarification s = None /\
     offset s = 0 /\ lastResults s = [] /\ step s = idle /\
     favorites s = favorites state /\ favoritesSeq s = favoritesSeq state) /\
  (forall state : ChatState,
     let s := fst (replyCancelReset state) in
     aiDraft s = None /\ pendingHotel s = None /\ pendingBudgetClarification s = None /\
     offset s = 0 /\ lastResults s = [] /\ step s = idle /\
     favorites s = favorites state /\ favoritesSeq s = favoritesSeq state).
Proof.
  split; [vm_compute; reflexivity|]. split; [vm_compute; reflexivity|].
  split; [vm_compute; reflexivity|]. split; [|split; [|split]].
  - eexists. eexists. split; [vm_compute; reflexivity|]. cbn [outs call st].
    split; [reflexivity|]. split; [reflexivity|]. cbn [call_args call_seq si_budget_max].
    split; [reflexivity|]. split; vm_compute; reflexivity.
  - eexists. split; [vm_compute; reflexivity|]. cbn [outs call st].
    repeat split.
  - intros state. cbv zeta. repeat split.
  - intros state. cbv zeta. repeat split.
Qed.

(** *** The budget clarification *)

(** C2. The branch that resolves a pending budget clarification multiplies
    by 1.2 the upper end of the band that the extractor builds around X, not
    X itself: after the bot asked about 100000, the answers "около 100000"
    and "за 100000" start a search with a ceiling of 132000, where
    round(100000 * 1.2) is 120000. The answer "до 100000" gives 100000, and
    the guided budget step gives 120000 for "около 100000". *)
Theorem clarified_target_compounds_the_band :
  started_ceiling
    (on_text_pending_budget Examples.clarifying Examples.asked_100000 (u "около 100000"))
  = Some (of_Z 132000) /\
  started_ceiling
    (on_text_pending_budget Examples.clarifying Examples.asked_100000 (u "за 100000"))
  = Some (of_Z 132000) /\
  times_1_2 100000 = 120000 /\
  started_ceiling
    (on_text_pending_budget Examples.clarifying Examples.asked_100000 (u "до 100000"))
  = Some (of_Z 100000) /\
  budgetMax (st (on_text_budget_input Examples.typing_budget (u "около 100000")))
  = Some (of_Z 120000).
Proof. vm_compute. repeat split. Qed.

(** *** Ranges with one thousands marker *)

Lemma parseMoneyToken_positive token force v :
  parseMoneyToken token force = Some v -> 0 < v.
Proof.
  unfold parseMoneyToken.
  destruct (trim _); [discriminate|].
  destruct (List.filter _ _); [discriminate|].
  match goal with |- context [digits_value ?d] => generalize (digits_value d) end.
  intros num. destruct (Z.leb_spec num 0); [discriminate|].
  intros [= <-]. destruct (_ || _); lia.
Qed.

Lemma range_of_ordered m mn mx : range_of m = Some (BRange mn mx) -> mn <= mx.
Proof.
  unfold range_of.
  destruct (parseMoneyToken _ _) as [a|]; [|discriminate].
  destruct (parseMoneyToken _ _) as [b|]; [|discriminate].
  intros [= <- <-]. lia.
Qed.

(** Every way in which [extractBudget] produces its answer. *)
Lemma extractBudget_cases text b :
  extractBudget text = Some b ->
  (exists m, range_of m = Some b) \/
  (exists token, option_map BMax (parseMoneyToken token false) = Some b) \/
  (exists token, option_map approx_of (parseMoneyToken token false) = Some b).
Proof.
  unfold extractBudget, via.
  repeat match goal with
         | |- context [exec ?r ?t] => destruct (exec r t) as [?m|]
         | |- match ?x with Some _ => _ | None => _ end = _ -> _ =>
           destruct x eqn:?
         end;
    intros [= <-] || intros Habs; try discriminate; eauto.
Qed.

(** Every range budget that the extractor produces is ordered. *)
Lemma extracted_range_ordered text mn mx :
  extractBudget text = Some (BRange mn mx) -> mn <= mx.
Proof.
  intros H. apply extractBudget_cases in H as [[m H]|[[token H]|[token H]]].
  - eapply range_of_ordered; eauto.
  - destruct (parseMoneyToken token false); discriminate.
  - destruct (parseMoneyToken token false); discriminate.
Qed.

(** C6. "90–120к" is extracted as the range 90000 to 120000, but the
    markers "т" and "т.р." are not recognised as thousands: "90-120т" and
    "от 90 до 120т" give the range 90 to 120, and "90-120т.р." scales only
    the side without the marker and gives 120 to 90000. *)
Theorem one_sided_marker_examples :
  extractBudget (u "90–120к") = Some (BRange 90000 120000) /\
  extractBudget (u "90-120т") = Some (BRange 90 120) /\
  extractBudget (u "от 90 до 120т") = Some (BRange 90 120) /\
  extractBudget (u "90-120т.р.") = Some (BRange 120 90000).
Proof. vm_compute. repeat split. Qed.

(** *** Unsupported destinations *)













Section TrimFlatMap.
Variable g : Z -> list Z.
Hypothesis g_space : forall c, is_space c = true -> g c = [c].
Hypothesis g_other : forall c, is_space c = false ->
  g c <> [] /\ forallb (fun x => negb (is_space x)) (g c) = true.


End TrimFlatMap.









(** The orchestrator's list has no entry for Франция and Греция, which the
    table of the extractor has: a message that names France is unsupported
    for the extractor and a search for the orchestrator. *)
Lemma labels_missing_from_orchestrator :
  unknownCountry (extractCountry (u "хочу во Францию")) = Some "Франция"%string /\
  hasUnsupportedDestinationMention (u "хочу во Францию") = false /\
  intent_type (handleUserMessage (u "хочу во Францию") (unknown_intent None))
  = it_search_tours.
Proof. vm_compute. repeat split. Qed.



(** *** Approximate budgets *)

Lemma round100_monotone (a b : Q) : (a <= b)%Q -> round100 a <= round100 b.
Proof.
  intros H. unfold round100, js_round.
  apply Z.mul_le_mono_nonneg_r; [lia|].
  apply Qfloor_resp_le. apply Qplus_le_l. unfold Qdiv.
  apply Qmult_le_compat_r; [exact H|]. vm_compute. discriminate.
Qed.


Lemma approx_of_band (v : Z) :
  0 < v ->
  approx_of v = BApprox v (round100 (inject_Z v * (9 # 10))) (round100 (inject_Z v * (11 # 10))).
Proof.
  intros Hv. unfold approx_of.
  change (1 - APPROX_PCT)%Q with (9 # 10)%Q. change (1 + APPROX_PCT)%Q with (11 # 10)%Q.
  assert (H0 : (0 <= inject_Z v)%Q) by (change 0%Q with (inject_Z 0); rewrite <- Zle_Qle; lia).
  assert (Hle : round100 (inject_Z v * (9 # 10)) <= round100 (inject_Z v * (11 # 10)))
    by (apply round100_monotone; lra).
  rewrite Z.min_l, Z.max_r by exact Hle. reflexivity.
Qed.

(** An approx budget comes from a positive amount. *)
Lemma extracted_approx_cases text v mn mx :
  extractBudget text = Some (BApprox v mn mx) ->
  0 < v /\ approx_of v = BApprox v mn mx.
Proof.
  intros H. apply extractBudget_cases in H as [[m H]|[[token H]|[token H]]].
  - unfold range_of in H. repeat destruct (parseMoneyToken _ _); discriminate.
  - destruct (parseMoneyToken token false); discriminate.
  - destruct (parseMoneyToken token false) as [w|] eqn:E; [|discriminate].
    apply parseMoneyToken_positive in E. cbn [option_map] in H.
    assert (w = v) as -> by (unfold approx_of in H; congruence).
    split; [exact E|congruence].
Qed.





(** *** Double presses of "Хочу этот тур" *)

(** The claim as worded fails: when the tour is already the pinned selection
    with its phone prompt on screen (the user pressed the button more than a
    minute ago), two presses one second apart both repeat the phone prompt;
    neither is answered with "already checking". *)
Lemma repeated_press_on_pinned_tour :
  let first := on_want ∅ Examples.waiting_for_phone 100000 1 (u "mock-1a2b3c") 5 None in
  let second :=
    on_want (want_pending first) (want_state first) 101000 1 (u "mock-1a2b3c") 5 None in
  101000 - 100000 < DEDUPE_WINDOW /\
  want_outs first = [phone_hint] /\
  want_outs second = [phone_hint] /\
  count_out phone_hint (want_outs first ++ want_outs second) = 2%nat /\
  count_out already_checking (want_outs second) = 0%nat.
Proof. vm_compute. repeat split. Qed.

(** C7, amended. If the first of two identical presses starts a booking
    flow (it is not itself a repeat inside the window, the tour is found, and
    the tour is not already the pinned selection with its phone prompt
    shown), then a second press with the same user, result set and item that
    arrives less than 45 seconds later is answered with "already checking"
    only and changes neither the pinned selection nor anything else: the two
    presses together send one phone prompt. *)
Theorem second_want_is_deduplicated
  (pending : gmap str Z) (state : ChatState) (now1 now2 userId : Z) (requestId : str)
  (hotelId : Z) (sourceHint : option str) (selected : Tour) :
  not_recent pending (wantKey userId requestId hotelId sourceHint) now1 = true ->
  findTourForWantAction state hotelId = Some selected ->
  already_pinned state hotelId = false ->
  now1 <> 0 ->
  now2 - now1 < DEDUPE_WINDOW ->
  let first := on_want pending state now1 userId requestId hotelId sourceHint in
  let second :=
    on_want (want_pending first) (want_state first) now2 userId requestId hotelId
      sourceHint in
  pendingHotel (want_state first) = Some selected /\
  step (want_state first) = await_phone /\
  count_out checking_started (want_outs first) = 1%nat /\
  count_out phone_hint (want_outs first ++ want_outs second) = 1%nat /\
  want_outs second = [already_checking] /\
  want_state second = want_state first /\
  want_pending second = want_pending first.
Proof.
  intros Hnew Hfound Hpinned Hnow1 Hwindow first second.
  assert (Hfirst : first =
    (<[wantKey userId requestId hotelId sourceHint := now1]> pending,
     set_phonePromptShownForHotelId (Some hotelId)
       (set_step await_phone (set_pendingHotel (Some selected) state)),
     [checking_started; Recap selected;
      Say "Отличный выбор ✨ Чтобы быстро проверить наличие и финальную цену — оставьте номер.";
      phone_hint])).
  { subst first. unfold on_want. unfold not_recent in Hnew.
    destruct (pending !! wantKey userId requestId hotelId sourceHint) as [pendingAt|].
    - apply orb_prop in Hnew.
      assert (negb (pendingAt =? 0) && (now1 - pendingAt <? DEDUPE_WINDOW) = false) as ->.
      { destruct Hnew as [H|H].
        - rewrite H. reflexivity.
        - apply Z.leb_le in H. destruct (now1 - pendingAt <? DEDUPE_WINDOW) eqn:E.
          + apply Z.ltb_lt in E. lia.
          + apply andb_false_r. }
      rewrite Hfound. unfold already_pinned in Hpinned. rewrite Hpinned. reflexivity.
    - rewrite Hfound. unfold already_pinned in Hpinned. rewrite Hpinned. reflexivity. }
  assert (Hsecond : second = (want_pending first, want_state first, [already_checking])).
  { subst second. rewrite Hfirst. unfold want_pending, want_state. cbn [fst snd].
    unfold on_want. rewrite lookup_insert_eq.
    assert (negb (now1 =? 0) && (now2 - now1 <? DEDUPE_WINDOW) = true) as ->.
    { apply andb_true_intro. split.
      - apply negb_true_iff. apply Z.eqb_neq. exact Hnow1.
      - apply Z.ltb_lt. exact Hwindow. }
    reflexivity. }
  rewrite Hsecond. rewrite Hfirst.
  unfold want_pending, want_state, want_outs. cbn [fst snd].
  repeat split.
Qed.

Lemma second_want_witness :
  not_recent ∅ (wantKey 1 (u "mock-1a2b3c") 5 None) 100000 = true /\
  findTourForWantAction Examples.showing_results 5 = Some Examples.tour5 /\
  already_pinned Examples.showing_results 5 = false /\
  100000 <> 0 /\
  101000 - 100000 < DEDUPE_WINDOW /\
  want_outs
    (on_want
       (want_pending (on_want ∅ Examples.showing_results 100000 1 (u "mock-1a2b3c") 5 None))
       (want_state (on_want ∅ Examples.showing_results 100000 1 (u "mock-1a2b3c") 5 None))
       101000 1 (u "mock-1a2b3c") 5 None)
  = [already_checking].
Proof.
  assert (H1 : not_recent ∅ (wantKey 1 (u "mock-1a2b3c") 5 None) 100000 = true)
    by reflexivity.
  assert (H2 : findTourForWantAction Examples.showing_results 5 = Some Examples.tour5)
    by reflexivity.
  assert (H3 : already_pinned Examples.showing_results 5 = false) by reflexivity.
  assert (H4 : 100000 <> 0) by lia.
  assert (H5 : 101000 - 100000 < DEDUPE_WINDOW) by (unfold DEDUPE_WINDOW; lia).
  repeat (split; [assumption|]).
  apply (second_want_is_deduplicated ∅ Examples.showing_results 100000 101000 1
           (u "mock-1a2b3c") 5 None Examples.tour5 H1 H2 H3 H4 H5).
Defined.

(* ===================================================================== *)
(** ** Further properties of the extractors, the drafts and the bot *)
(* ===================================================================== *)

(** *** Nights *)

Lemma night_value_range m v : night_value m = Some v -> 1 <= v <= 30.
Proof.
  unfold night_value. destruct (cap 1 m) as [d|]; [|discriminate].
  destruct (Z.leb_spec 1 (digits_value d)); [|discriminate].
  destruct (Z.leb_spec (digits_value d) 30); [|discriminate].
  intros [= <-]. lia.
Qed.

(** X1. A number of nights read from a text is between 1 and 30. *)
Theorem extractNights_range (text : str) (nights : Z) :
  extractNights text = Some nights -> 1 <= nights <= 30.
Proof.
  unfold extractNights.
  repeat match goal with
         | |- context [if includes ?a ?b then _ else _] => destruct (includes a b)
         end; try (intros [= <-]; lia).
  destruct (exec nights_direct (normalizeLower text)) as [m|].
  - destruct (night_value m) as [v|] eqn:E.
    + intros [= <-]. eapply night_value_range; exact E.
    + destruct (exec nights_shorthand (normalizeLower text)) as [m'|]; [|discriminate].
      apply night_value_range.
  - destruct (exec nights_shorthand (normalizeLower text)) as [m'|]; [|discriminate].
    apply night_value_range.
Qed.

Lemma extractNights_range_witness :
  extractNights (u "Турция на 10 ночей") = Some 10 /\ 1 <= 10 <= 30.
Proof.
  assert (H : extractNights (u "Турция на 10 ночей") = Some 10) by (vm_compute; reflexivity).
  split; [exact H|]. apply (extractNights_range (u "Турция на 10 ночей") 10 H).
Defined.

(** *** Budgets *)

Lemma js_round_bounds (x : Q) :
  (inject_Z (js_round x) <= x + (1 # 2))%Q /\ (x - (1 # 2) < inject_Z (js_round x))%Q.
Proof.
  unfold js_round. split.
  - apply Qfloor_le.
  - pose proof (Qlt_floor (x + (1 # 2))) as H.
    rewrite inject_Z_plus in H. change (inject_Z 1) with 1%Q in H. lra.
Qed.

Lemma round100_multiple (x : Q) : round100 x mod 100 = 0.
Proof. unfold round100. apply Z.mod_mul. lia. Qed.

Lemma round100_nonneg (x : Q) : (0 <= x)%Q -> 0 <= round100 x.
Proof.
  intros H. unfold round100, js_round.
  assert (0 <= Qfloor (x / 100 + (1 # 2))); [|lia].
  change 0 with (Qfloor 0%Q) at 1. apply Qfloor_resp_le.
  assert ((0 <= x / 100)%Q) by (apply Qle_shift_div_l; [reflexivity|lra]). lra.
Qed.

Lemma range_of_cases m b :
  range_of m = Some b -> exists a c, b = BRange (Z.min a c) (Z.max a c) /\ 0 < a /\ 0 < c.
Proof.
  unfold range_of. cbv zeta.
  match goal with
  | |- match parseMoneyToken ?x ?f with _ => _ end = _ -> _ =>
    pose proof (parseMoneyToken_positive x f) as Ha;
      destruct (parseMoneyToken x f) as [a|]; [|discriminate]
  end.
  match goal with
  | |- match parseMoneyToken ?x ?f with _ => _ end = _ -> _ =>
    pose proof (parseMoneyToken_positive x f) as Hc;
      destruct (parseMoneyToken x f) as [c|]; [|discriminate]
  end.
  intros [= <-]. exists a, c. split; [reflexivity|]. split; [apply Ha|apply Hc]; reflexivity.
Qed.

Lemma budget_of_token token (f : Z -> BudgetIntent) b :
  option_map f (parseMoneyToken token false) = Some b ->
  exists v, 0 < v /\ b = f v.
Proof.
  destruct (parseMoneyToken token false) as [v|] eqn:E; [|discriminate].
  intros [= <-]. exists v. split; [|reflexivity]. eapply parseMoneyToken_positive. exact E.
Qed.

(** X2. Every budget that [extractBudget] returns is well formed: a positive
    ceiling; a range with 0 < min <= max; an approximate budget with a
    positive amount and bounds 0 <= min <= max, which are multiples of 100
    when the amount is below 2^40 (where the arithmetic of the source is
    exact). *)
Theorem extractBudget_well_formed (text : str) (b : BudgetIntent) :
  extractBudget text = Some b ->
  match b with
  | BMax mx => 0 < mx
  | BRange mn mx => 0 < mn <= mx
  | BApprox value mn mx =>
    0 < value /\ 0 <= mn <= mx /\ (value < 2 ^ 40 -> mn mod 100 = 0 /\ mx mod 100 = 0)
  end.
Proof.
  intros H. apply extractBudget_cases in H as [[m H]|[[token H]|[token H]]].
  - apply range_of_cases in H as (a & c & -> & Ha & Hc). lia.
  - apply budget_of_token in H as (v & Hv & ->). exact Hv.
  - apply budget_of_token in H as (v & Hv & ->).
    rewrite (approx_of_band v Hv).
    assert (H0 : (0 <= inject_Z v)%Q)
      by (change 0%Q with (inject_Z 0); rewrite <- Zle_Qle; lia).
    split; [exact Hv|]. split; [split|intros _; split; apply round100_multiple].
    + apply round100_nonneg. lra.
    + apply round100_monotone. lra.
Qed.

Lemma extractBudget_well_formed_witness :
  extractBudget (u "примерно 150к") = Some (BApprox 150000 135000 165000) /\
  150000 < 2 ^ 40 /\
  0 <= 135000 <= 165000 /\ 135000 mod 100 = 0 /\ 165000 mod 100 = 0.
Proof.
  assert (H : extractBudget (u "примерно 150к") = Some (BApprox 150000 135000 165000))
    by (vm_compute; reflexivity).
  assert (Hlt : 150000 < 2 ^ 40) by (vm_compute; reflexivity).
  destruct (extractBudget_well_formed (u "примерно 150к") (BApprox 150000 135000 165000) H)
    as (_ & Hband & Hmult).
  split; [exact H|]. split; [exact Hlt|]. split; [exact Hband|]. exact (Hmult Hlt).
Defined.

(** X3. For an amount of at least 500 the approximate band contains the
    amount. *)
Theorem approx_band_contains_amount (text : str) (value mn mx : Z) :
  extractBudget text = Some (BApprox value mn mx) ->
  500 <= value ->
  mn <= value <= mx.
Proof.
  intros H Hv. apply extracted_approx_cases in H as [Hpos Happrox].
  rewrite (approx_of_band value Hpos) in Happrox. injection Happrox as <- <-.
  assert (H500 : (500 <= inject_Z value)%Q)
    by (change 500%Q with (inject_Z 500); rewrite <- Zle_Qle; exact Hv).
  unfold round100.
  destruct (js_round_bounds (inject_Z value * (9 # 10) / 100)) as [Hlo _].
  destruct (js_round_bounds (inject_Z value * (11 # 10) / 100)) as [_ Hhi].
  set (a := js_round (inject_Z value * (9 # 10) / 100)) in *.
  set (c := js_round (inject_Z value * (11 # 10) / 100)) in *.
  assert (Ha : (inject_Z (a * 100) <= inject_Z value)%Q).
  { rewrite inject_Z_mult. change (inject_Z 100) with 100%Q.
    assert ((inject_Z value * (9 # 10) / 100 == inject_Z value * (9 # 1000))%Q) as E
      by (field). rewrite E in Hlo. lra. }
  assert (Hc : (inject_Z value < inject_Z (c * 100))%Q).
  { rewrite inject_Z_mult. change (inject_Z 100) with 100%Q.
    assert ((inject_Z value * (11 # 10) / 100 == inject_Z value * (11 # 1000))%Q) as E
      by (field). rewrite E in Hhi. lra. }
  rewrite <- Zle_Qle in Ha. rewrite <- Zlt_Qlt in Hc. lia.
Qed.

Lemma approx_band_contains_amount_witness :
  extractBudget (u "120000") = Some (BApprox 120000 108000 132000) /\
  500 <= 120000 /\ 108000 <= 120000 <= 132000.
Proof.
  assert (H : extractBudget (u "120000") = Some (BApprox 120000 108000 132000))
    by (vm_compute; reflexivity).
  assert (H500 : 500 <= 120000) by lia.
  split; [exact H|]. split; [exact H500|].
  apply (approx_band_contains_amount (u "120000") 120000 108000 132000 H H500).
Defined.

(** *** Drafts *)

Ltac open_pairs :=
  repeat match goal with
         | |- context [let '(_, _) := ?x in _] => destruct x eqn:?
         end.

Lemma buildDraftArgs_country text args :
  (country_id (buildDraftArgs text args), country_name (buildDraftArgs text args)) =
  match normalizeCountryName (a_country_name args) with
  | Some c => (Some (of_Z (COUNTRY_TO_ID c)), Some (country_key c))
  | None =>
    match a_country_name args with
    | Some name => (None, Some name)
    | None =>
      match normalizeCountryName (Some text) with
      | Some c => (Some (of_Z (COUNTRY_TO_ID c)), Some (country_key c))
      | None => (None, None)
      end
    end
  end.
Proof.
  unfold buildDraftArgs, getMappedCountryId, detectCountryNameFromText.
  destruct (normalizeCountryName (a_country_name args)) as [c|]; cbn [option_map].
  - assert (E : find (fun name => COUNTRY_TO_ID name =? COUNTRY_TO_ID c) SUPPORTED_COUNTRIES
                = Some c) by (destruct c; reflexivity).
    rewrite E. cbn [option_map]. open_pairs. cbn [country_id country_name].
    congruence.
  - destruct (a_country_name args) as [name|].
    + open_pairs. cbn [country_id country_name]. congruence.
    + destruct (normalizeCountryName (Some text)) as [c|];
        open_pairs; cbn [country_id country_name]; congruence.
Qed.

(** X4. What the classifier supplies wins over what the text says: a name
    that maps to a supported country fixes the country's id and canonical
    name, two night bounds are kept, and a budget above zero is kept; the
    text fills only what is left open. *)
Theorem classifier_values_win (text : str) (args : SearchArgs) :
  (forall c, normalizeCountryName (a_country_name args) = Some c ->
             country_id (buildDraftArgs text args) = Some (of_Z (COUNTRY_TO_ID c)) /\
             country_name (buildDraftArgs text args) = Some (country_key c)) /\
  (forall lo hi, a_nights_min args = Some lo -> a_nights_max args = Some hi ->
                 nights_min (buildDraftArgs text args) = Some lo /\
                 nights_max (buildDraftArgs text args) = Some hi) /\
  (budget_unset (a_budget_max args) = false ->
   budget_max (buildDraftArgs text args) = a_budget_max args /\
   budget_min (buildDraftArgs text args) = None) /\
  (a_country_name args = None -> a_nights_min args = None -> a_nights_max args = None ->
   a_budget_max args = None ->
   country_name (buildDraftArgs text args)
   = option_map country_key (normalizeCountryName (Some text)) /\
   nights_min (buildDraftArgs text args) = option_map of_Z (extractNights text) /\
   nights_max (buildDraftArgs text args) = option_map of_Z (extractNights text) /\
   budget_max (buildDraftArgs text args)
   = option_map (fun b => of_Z (Nlu.budget_max b)) (extractBudget text)).
Proof.
  split; [|split; [|split]].
  - intros c Hc. pose proof (buildDraftArgs_country text args) as H. rewrite Hc in H.
    injection H as H1 H2. split; assumption.
  - intros lo hi Hlo Hhi. unfold buildDraftArgs. rewrite Hlo, Hhi. open_pairs.
    cbn [nights_min nights_max]. split; congruence.
  - intros Hset. unfold buildDraftArgs. rewrite Hset.
    destruct (extractBudgetRangeFromText text) as [[mn mx]|];
      open_pairs; cbn [budget_max budget_min]; rewrite Hset; split; congruence.
  - intros Hc Hn Hx Hb. pose proof (buildDraftArgs_country text args) as H.
    rewrite Hc in H. change (normalizeCountryName None) with (@None SupportedCountry) in H.
    cbv iota in H.
    split; [destruct (normalizeCountryName (Some text)); injection H as _ H; exact H|].
    unfold buildDraftArgs, Orchestrator.extractBudgetFromText, extractBudgetRangeFromText,
      extractNightsFromText.
    rewrite Hn, Hx, Hb. cbn [budget_unset].
    destruct (extractNights text) as [n|]; destruct (extractBudget text) as [[mx|mn mx|v mn mx]|];
      open_pairs; cbn [nights_min nights_max budget_max option_map Nlu.budget_max budget_unset];
      repeat match goal with |- context [if ?b then _ else _] => destruct b end;
      repeat split; congruence.
Qed.

Lemma no_missing_fields draft :
  getMissingFields draft = [] ->
  hasCountry draft = true /\ hasNights draft = true /\ hasBudget draft = true.
Proof.
  unfold getMissingFields.
  destruct (hasCountry draft), (hasNights draft), (hasBudget draft); try discriminate.
  intros _. repeat split.
Qed.

(** X5. The orchestrator hands over search arguments only when nothing is
    missing, and then for a supported country: the arguments carry the id
    and the canonical name of one of the six countries, two finite night
    bounds and a finite budget above zero. *)
Theorem search_arguments_are_complete (input : str) (intent : ParsedIntent) (args : Draft) :
  search_args (handleUserMessage input intent) = Some args ->
  intent_type (handleUserMessage input intent) = it_search_tours /\
  missing_fields (handleUserMessage input intent) = Some [] /\
  (exists c, country_id args = Some (of_Z (COUNTRY_TO_ID c)) /\
             country_name args = Some (country_key c)) /\
  hasNights args = true /\
  hasBudget args = true /\
  hasUnsupportedDestinationMention input = false.
Proof.
  unfold handleUserMessage.
  destruct (hasUnsupportedDestinationMention input); [discriminate|].
  destruct intent as [a| | |r]; try discriminate.
  - assert (Hmain :
      search_args
        {| intent_type := it_search_tours; reason := None;
           search_args := match getMissingFields (buildDraftArgs input a) with
                          | [] => Some (buildDraftArgs input a)
                          | _ :: _ => None
                          end;
           missing_fields := Some (getMissingFields (buildDraftArgs input a));
           draft_args := Some (buildDraftArgs input a) |} = Some args ->
      (a_country_name a = None \/ exists c, normalizeCountryName (a_country_name a) = Some c) ->
      missing_fields
        {| intent_type := it_search_tours; reason := None;
           search_args := match getMissingFields (buildDraftArgs input a) with
                          | [] => Some (buildDraftArgs input a)
                          | _ :: _ => None
                          end;
           missing_fields := Some (getMissingFields (buildDraftArgs input a));
           draft_args := Some (buildDraftArgs input a) |} = Some [] /\
      (exists c, country_id args = Some (of_Z (COUNTRY_TO_ID c)) /\
                 country_name args = Some (country_key c)) /\
      hasNights args = true /\ hasBudget args = true).
    { cbn [search_args missing_fields]. intros H Hname.
      destruct (getMissingFields (buildDraftArgs input a)) eqn:E; [|discriminate].
      injection H as <-. split; [reflexivity|].
      destruct (no_missing_fields _ E) as (Hc & Hn & Hb).
      split; [|split; assumption].
      pose proof (buildDraftArgs_country input a) as Hpair.
      destruct Hname as [Hnone|[c Hsome]].
      - rewrite Hnone in Hpair.
        change (normalizeCountryName None) with (@None SupportedCountry) in Hpair.
        cbv iota in Hpair.
        destruct (normalizeCountryName (Some input)) as [c|];
          injection Hpair as Hid Hnm; [eauto|].
        unfold hasCountry in Hc. rewrite Hid, Hnm in Hc. discriminate.
      - rewrite Hsome in Hpair. injection Hpair as Hid Hnm. eauto. }
    destruct (a_country_name a) as [name|] eqn:En.
    + destruct (normalizeCountryName (Some name)) as [c|] eqn:Ec; [|discriminate].
      intros H. split; [reflexivity|]. destruct (Hmain H) as (H1 & H2 & H3 & H4); [eauto|].
      repeat split; assumption.
    + change (normalizeCountryName None) with (@None SupportedCountry). cbv iota.
      intros H. split; [reflexivity|]. destruct (Hmain H) as (H1 & H2 & H3 & H4); [eauto|].
      repeat split; assumption.
  - destruct (detectCountryNameFromText input); [discriminate|].
    destruct (looksLikeTravelText input); discriminate.
Qed.

Lemma search_arguments_are_complete_witness :
  search_args (handleUserMessage (u "Турция на неделю до 100000")
                 (search_tours_intent Examples.week_in_turkey))
  = Some (buildDraftArgs (u "Турция на неделю до 100000") Examples.week_in_turkey) /\
  hasBudget (buildDraftArgs (u "Турция на неделю до 100000") Examples.week_in_turkey) = true.
Proof.
  assert (H : search_args (handleUserMessage (u "Турция на неделю до 100000")
                             (search_tours_intent Examples.week_in_turkey))
              = Some (buildDraftArgs (u "Турция на неделю до 100000") Examples.week_in_turkey))
    by (vm_compute; reflexivity).
  split; [exact H|].
  apply (search_arguments_are_complete (u "Турция на неделю до 100000")
           (search_tours_intent Examples.week_in_turkey) _ H).
Defined.

(** *** Normalisation of a text *)

Lemma replace_loop_unit p by_ fuel prev s :
  (length s < fuel)%nat ->
  replace_loop fuel (Chr p) [by_] prev s = map (fun c => if p c then by_ else c) s.
Proof.
  revert prev s. induction fuel as [|fuel IH]; intros prev s Hlen; [lia|].
  destruct s as [|x s]; [reflexivity|]. cbn [replace_loop map length] in *.
  assert (Hm : match_at (Chr p) prev (x :: s) = if p x then Some (s, []) else None)
    by reflexivity.
  rewrite Hm. destruct (p x).
  - assert (E : (length s <? S (length s))%nat = true) by (apply Nat.ltb_lt; lia).
    rewrite E. cbn [app]. f_equal. apply IH. lia.
  - f_equal. apply IH. lia.
Qed.

Lemma replace_all_unit p by_ s :
  replace_all (Chr p) [by_] s = map (fun c => if p c then by_ else c) s.
Proof. apply replace_loop_unit. lia. Qed.

Lemma normalizeText_map text : normalizeText text = trim (map plain_char text).
Proof.
  unfold normalizeText.
  change (lit "ё") with (Chr (fun x => x =? 1105)). change (u "е") with [1077].
  change (u "-") with [45]. change (u " ") with [32]. unfold any_of.
  rewrite !replace_all_unit, !map_map. reflexivity.
Qed.

Ltac char_cases :=
  repeat match goal with
         | |- context [?a =? ?b] => is_var a; destruct (Z.eqb_spec a b); subst; cbn
         end.

Lemma plain_char_space c : is_space (plain_char c) = is_space c.
Proof. unfold plain_char. cbn. char_cases; reflexivity. Qed.

Lemma plain_char_twice c : plain_char (plain_char c) = plain_char c.
Proof. unfold plain_char. cbn. char_cases; try reflexivity; lia. Qed.

Lemma plain_char_clean c :
  ~ In (plain_char c) [1105; 8208; 8209; 8210; 8211; 8212; 8213; 160; 8201; 8239].
Proof. unfold plain_char. cbn. char_cases; intuition lia. Qed.

Lemma trimStart_map s : trimStart (map plain_char s) = map plain_char (trimStart s).
Proof.
  induction s as [|c s IH]; [reflexivity|]. cbn. rewrite plain_char_space.
  destruct (is_space c); [exact IH|reflexivity].
Qed.

Lemma trim_map s : trim (map plain_char s) = map plain_char (trim s).
Proof. unfold trim. rewrite trimStart_map, <- map_rev, trimStart_map, map_rev. reflexivity. Qed.

Lemma trimStart_twice s : trimStart (trimStart s) = trimStart s.
Proof.
  induction s as [|c s IH]; [reflexivity|]. cbn. destruct (is_space c) eqn:E; [exact IH|].
  cbn. rewrite E. reflexivity.
Qed.

Lemma trimStart_before x l : is_space x = false -> trimStart (l ++ [x]) = trimStart l ++ [x].
Proof.
  intros Hx. induction l as [|c l IH]; cbn; [rewrite Hx; reflexivity|].
  destruct (is_space c); [exact IH|reflexivity].
Qed.

Lemma trimStart_of_trim s : trimStart (trim s) = trim s.
Proof.
  unfold trim. destruct (trimStart s) as [|x l] eqn:E; [reflexivity|].
  assert (Hx : is_space x = false).
  { clear -E. induction s as [|c s IH]; [discriminate|]. cbn in E.
    destruct (is_space c) eqn:Ec; [apply IH; exact E|]. injection E as <- _. exact Ec. }
  cbn [rev]. rewrite (trimStart_before x (rev l) Hx), rev_app_distr. cbn [rev app].
  cbn [trimStart]. rewrite Hx. reflexivity.
Qed.

Lemma trim_twice s : trim (trim s) = trim s.
Proof.
  unfold trim at 1. rewrite trimStart_of_trim. unfold trim.
  rewrite rev_involutive, trimStart_twice. reflexivity.
Qed.

(** X6. [normalizeText] is idempotent, and its result holds no "ё", no
    typographic dash, no non-breaking or thin space, and neither starts nor
    ends with white space. *)
Theorem normalizeText_normal_form (text : str) :
  normalizeText (normalizeText text) = normalizeText text /\
  (forall c, In c (normalizeText text) ->
             ~ In c [1105; 8208; 8209; 8210; 8211; 8212; 8213; 160; 8201; 8239]) /\
  trim (normalizeText text) = normalizeText text.
Proof.
  rewrite !normalizeText_map. split; [|split].
  - rewrite <- trim_map, trim_twice, map_map.
    f_equal. apply map_ext. intros c. apply plain_char_twice.
  - intros c Hc. rewrite trim_map in Hc. apply in_map_iff in Hc as (c0 & <- & _).
    apply plain_char_clean.
  - apply trim_twice.
Qed.

(** *** The favorites store *)

Lemma existsb_hotel (l : list Tour) id :
  existsb (fun t => hotel_id t =? id) l = true <-> In id (map hotel_id l).
Proof.
  rewrite existsb_exists, in_map_iff. split.
  - intros (t & Ht & E). apply Z.eqb_eq in E. eauto.
  - intros (t & E & Ht). exists t. split; [exact Ht|]. apply Z.eqb_eq. exact E.
Qed.

(** X7. [saveTour] keeps the hotels of the store distinct, never touches the
    collections, and reports [added] exactly when the hotel was not there. *)
Theorem saveTour_keeps_hotels_distinct (fav : FavoritesStore) (tour : Tour) :
  List.NoDup (map hotel_id (tours fav)) ->
  List.NoDup (map hotel_id (tours (fst (saveTour fav tour)))) /\
  In (hotel_id tour) (map hotel_id (tours (fst (saveTour fav tour)))) /\
  collections (fst (saveTour fav tour)) = collections fav /\
  (snd (saveTour fav tour) = true <-> ~ In (hotel_id tour) (map hotel_id (tours fav))).
Proof.
  intros Hnd. unfold saveTour.
  destruct (existsb (fun t => hotel_id t =? hotel_id tour) (tours fav)) eqn:E; cbn [fst snd tours collections].
  - apply existsb_hotel in E. split; [exact Hnd|]. split; [exact E|]. split; [reflexivity|].
    split; [discriminate|contradiction].
  - assert (Hnew : ~ In (hotel_id tour) (map hotel_id (tours fav))).
    { intros Hin. apply existsb_hotel in Hin. congruence. }
    rewrite map_app. cbn [map]. split; [|split; [|split; [reflexivity|tauto]]].
    + eapply Permutation_NoDup; [apply Permutation_cons_append|].
      constructor; assumption.
    + apply in_or_app. right. left. reflexivity.
Qed.

Lemma saveTour_keeps_hotels_distinct_witness :
  List.NoDup (map hotel_id (tours createEmptyFavorites)) /\
  In (hotel_id Examples.tour5)
     (map hotel_id (tours (fst (saveTour createEmptyFavorites Examples.tour5)))).
Proof.
  assert (H : List.NoDup (map hotel_id (tours createEmptyFavorites))) by (simpl; constructor).
  split; [exact H|].
  apply (saveTour_keeps_hotels_distinct createEmptyFavorites Examples.tour5 H).
Defined.

(** X8. Saving a tour twice is saving it once. *)
Theorem saveTour_twice (fav : FavoritesStore) (tour : Tour) :
  saveTour (fst (saveTour fav tour)) tour = (fst (saveTour fav tour), false).
Proof.
  unfold saveTour at 2 3.
  destruct (existsb (fun t => hotel_id t =? hotel_id tour) (tours fav)) eqn:E; cbn [fst].
  - unfold saveTour. rewrite E. reflexivity.
  - unfold saveTour. cbn [tours]. rewrite existsb_app. cbn [existsb].
    rewrite Z.eqb_refl, orb_true_r. reflexivity.
Qed.

(** X9. Removing a tour that has just been saved, and was not there before,
    gives back the store as it was. *)
Theorem save_then_remove (state : ChatState) (tour : Tour) :
  ~ In (hotel_id tour) (map hotel_id (tours (favorites state))) ->
  favorites (removeTourFromFavorites (fst (saveTourToFavorites state tour)) (hotel_id tour))
  = favorites state /\
  forall hotelId,
    ~ In hotelId (map hotel_id (tours (favorites (removeTourFromFavorites state hotelId)))).
Proof.
  intros Hnew. split.
  - unfold saveTourToFavorites, saveTour.
    destruct (existsb (fun t => hotel_id t =? hotel_id tour) (tours (favorites state))) eqn:E;
      [apply existsb_hotel in E; contradiction|].
    unfold removeTourFromFavorites. cbn.
    destruct (favorites state) as [ts cs] eqn:Ef. cbn in *. f_equal.
    rewrite List.filter_app. cbn. rewrite Z.eqb_refl. cbn. rewrite app_nil_r.
    clear Ef. induction ts as [|x ts IH]; [reflexivity|]. cbn in *.
    destruct (Z.eqb_spec (hotel_id x) (hotel_id tour)) as [Heq|Hne]; [tauto|].
    cbn. f_equal. apply IH; tauto.
  - intros hotelId Hin. unfold removeTourFromFavorites in Hin. cbn in Hin.
    apply in_map_iff in Hin as (t & Hid & Ht). apply filter_In in Ht as [_ Ht].
    rewrite Hid, Z.eqb_refl in Ht. discriminate.
Qed.

Lemma save_then_remove_witness :
  ~ In (hotel_id Examples.tour5) (map hotel_id (tours (favorites initial_state))) /\
  favorites (removeTourFromFavorites (fst (saveTourToFavorites initial_state Examples.tour5))
               (hotel_id Examples.tour5))
  = favorites initial_state.
Proof.
  assert (H : ~ In (hotel_id Examples.tour5) (map hotel_id (tours (favorites initial_state))))
    by (simpl; tauto).
  split; [exact H|]. apply (save_then_remove initial_state Examples.tour5 H).
Defined.

(** *** Saved collections *)

Lemma str_eqb_refl (a : str) : str_eqb a a = true.
Proof. induction a as [|x a IH]; cbn; [reflexivity|]. rewrite Z.eqb_refl. exact IH. Qed.

Lemma str_eqb_true (a b : str) : str_eqb a b = true -> a = b.
Proof.
  revert b. induction a as [|x a IH]; intros [|y b]; cbn; try discriminate; [reflexivity|].
  intros H. apply andb_prop in H as [Hx Hab]. apply Z.eqb_eq in Hx. f_equal; [exact Hx|].
  apply IH. exact Hab.
Qed.

Lemma str_eqb_neq (a b : str) : a <> b -> str_eqb a b = false.
Proof.
  intros H. destruct (str_eqb a b) eqn:E; [|reflexivity].
  apply str_eqb_true in E. contradiction.
Qed.

Lemma find_append {A} (f : A -> bool) (l k : list A) :
  find f (l ++ k) = match find f l with Some x => Some x | None => find f k end.
Proof.
  induction l as [|x l IH]; [reflexivity|]. cbn. destruct (f x); [reflexivity|exact IH].
Qed.

(** X10. A collection saved under an id that is not in use is the one that
    [openCollection] returns for that id; it holds the first
    [max(1, maxTours)] tours it was given; and the collections under other
    ids, like the single tours, are as they were. *)
Theorem save_then_open_collection (fav : FavoritesStore) (id : str) (createdAt : Z)
  (country : string) (nights : num) (ts : list Tour) (maxTours : Z) :
  openCollection fav id = None ->
  let saved := saveCollection fav id createdAt country nights ts maxTours in
  openCollection (fst saved) id = Some (snd saved) /\
  set_tours (snd saved) = firstn (Z.to_nat (Z.max 1 maxTours)) ts /\
  Z.of_nat (length (set_tours (snd saved))) <= Z.max 1 maxTours /\
  (ts <> [] -> set_tours (snd saved) <> []) /\
  (forall other, other <> id -> openCollection (fst saved) other = openCollection fav other) /\
  tours (fst saved) = tours fav.
Proof.
  intros Hfree saved. unfold saved, saveCollection, openCollection in *.
  cbn [fst snd collections tours set_tours].
  split; [|split; [reflexivity|split; [|split; [|split; [|reflexivity]]]]].
  - rewrite find_append, Hfree. cbn. rewrite str_eqb_refl. reflexivity.
  - pose proof (firstn_le_length (Z.to_nat (Z.max 1 maxTours)) ts). lia.
  - intros Hts. destruct ts as [|t ts]; [contradiction|].
    destruct (Z.to_nat (Z.max 1 maxTours)) eqn:E; [lia|]. discriminate.
  - intros other Hother. rewrite find_append.
    destruct (find (fun c => str_eqb (set_id c) other) (collections fav)); [reflexivity|].
    cbn. rewrite str_eqb_neq by congruence. reflexivity.
Qed.

Lemma save_then_open_collection_witness :
  openCollection createEmptyFavorites (u "1") = None /\
  openCollection
    (fst (saveCollection createEmptyFavorites (u "1") 0 "Турция" (of_Z 7) [Examples.tour5] 10))
    (u "1")
  = Some (snd (saveCollection createEmptyFavorites (u "1") 0 "Турция" (of_Z 7)
                 [Examples.tour5] 10)).
Proof.
  assert (H : openCollection createEmptyFavorites (u "1") = None) by reflexivity.
  split; [exact H|].
  apply (save_then_open_collection createEmptyFavorites (u "1") 0 "Турция" (of_Z 7)
           [Examples.tour5] 10 H).
Defined.

Lemma find_filter_none {A} (f : A -> bool) (l : list A) :
  find f (List.filter (fun x => negb (f x)) l) = None.
Proof.
  induction l as [|x l IH]; [reflexivity|]. cbn.
  destruct (f x) eqn:E; cbn; [exact IH|]. rewrite E. exact IH.
Qed.

Lemma find_filter_other {A} (f g : A -> bool) (l : list A) :
  (forall x, f x = true -> g x = true) ->
  find f (List.filter g l) = find f l.
Proof.
  intros H. induction l as [|x l IH]; [reflexivity|]. cbn.
  destruct (g x) eqn:Eg; cbn.
  - destruct (f x); [reflexivity|exact IH].
  - destruct (f x) eqn:Ef; [rewrite (H x Ef) in Eg; discriminate|exact IH].
Qed.

Lemma filter_length_same {A} (g : A -> bool) (l : list A) :
  length (List.filter g l) = length l <-> forallb g l = true.
Proof.
  induction l as [|x l IH]; cbn; [tauto|].
  pose proof (filter_length_le g l) as Hle.
  destruct (g x); cbn; [rewrite <- IH; lia|]. split; [lia|discriminate].
Qed.

(** X11. After [deleteCollection] no collection answers to the id, the other
    ids answer as before, the single tours are untouched, and [removed] says
    whether there was something to delete. *)
Theorem delete_then_open_collection (fav : FavoritesStore) (id : str) :
  let deleted := deleteCollection fav id in
  openCollection (fst deleted) id = None /\
  (forall other, other <> id ->
                 openCollection (fst deleted) other = openCollection fav other) /\
  tours (fst deleted) = tours fav /\
  (snd deleted = true <-> exists c, openCollection fav id = Some c).
Proof.
  cbn zeta. unfold deleteCollection, openCollection.
  set (keep := fun c : SavedSet => negb (str_eqb (set_id c) id)).
  assert (Hnone : find (fun c => str_eqb (set_id c) id) (List.filter keep (collections fav))
                  = None) by apply find_filter_none.
  destruct (Nat.eqb_spec (length (List.filter keep (collections fav)))
              (length (collections fav))) as [Hsame|Hless]; cbn [fst snd collections tours].
  - apply filter_length_same in Hsame.
    assert (Hid : find (fun c => str_eqb (set_id c) id) (collections fav) = None).
    { destruct (find _ (collections fav)) as [c|] eqn:E; [|reflexivity].
      apply find_some in E as [Hin Hc]. rewrite forallb_forall in Hsame.
      specialize (Hsame c Hin). unfold keep in Hsame. rewrite Hc in Hsame. discriminate. }
    split; [exact Hid|]. split; [reflexivity|]. split; [reflexivity|].
    split; [discriminate|]. intros [c Hc]. congruence.
  - split; [exact Hnone|]. split; [|split; [reflexivity|]].
    + intros other Hother. apply find_filter_other.
      intros c Hc. unfold keep. apply str_eqb_true in Hc.
      rewrite str_eqb_neq by congruence. reflexivity.
    + split; [intros _|reflexivity].
      destruct (find (fun c => str_eqb (set_id c) id) (collections fav)) as [c|] eqn:E;
        [eauto|].
      exfalso. apply Hless. apply filter_length_same. apply forallb_forall.
      intros c Hc. unfold keep. destruct (str_eqb (set_id c) id) eqn:Ec; [|reflexivity].
      exfalso. eapply find_none in E; [|exact Hc]. cbn in E. congruence.
Qed.

(** *** All the favorites, without repetition *)

Lemma dedupe_tours_spec seen l :
  List.NoDup (map hotel_id (dedupe_tours seen l)) /\
  (forall t, In t (dedupe_tours seen l) -> In t l /\ ~ In (hotel_id t) seen) /\
  (forall t, In t l -> ~ In (hotel_id t) seen ->
             In (hotel_id t) (map hotel_id (dedupe_tours seen l))).
Proof.
  revert seen. induction l as [|x l IH]; intros seen; cbn [dedupe_tours].
  - split; [constructor|]. split; intros t [].
  - destruct (existsb (Z.eqb (hotel_id x)) seen) eqn:E.
    + destruct (IH seen) as (Hnd & Hsub & Hcov). split; [exact Hnd|]. split.
      * intros t Ht. destruct (Hsub t Ht). split; [right|]; assumption.
      * intros t [<-|Ht] Hseen; [|apply Hcov; assumption].
        exfalso. apply Hseen. apply existsb_exists in E as (y & Hy & Ey).
        apply Z.eqb_eq in Ey. rewrite Ey. exact Hy.
    + assert (Hx : ~ In (hotel_id x) seen).
      { intros Hin. assert (existsb (Z.eqb (hotel_id x)) seen = true); [|congruence].
        apply existsb_exists. exists (hotel_id x). split; [exact Hin|apply Z.eqb_refl]. }
      destruct (IH (hotel_id x :: seen)) as (Hnd & Hsub & Hcov). cbn [map]. split; [|split].
      * constructor; [|exact Hnd]. intros Hin. apply in_map_iff in Hin as (t & Hid & Ht).
        destruct (Hsub t Ht) as [_ Hnot]. apply Hnot. left. congruence.
      * intros t [<-|Ht]; [split; [left; reflexivity|exact Hx]|].
        destruct (Hsub t Ht) as [Hin Hnot]. split; [right; exact Hin|].
        intros Hs. apply Hnot. right. exact Hs.
      * intros t [<-|Ht] Hseen; [left; reflexivity|].
        destruct (Z.eq_dec (hotel_id x) (hotel_id t)) as [Heq|Hne]; [left; exact Heq|].
        right. apply Hcov; [exact Ht|]. intros [Hs|Hs]; [contradiction|]. contradiction.
Qed.

Lemma kept_iff_listed (state : ChatState) (t : Tour) :
  kept (favorites state) t <->
  In t (tours (favorites state) ++ List.concat (map set_tours (collections (favorites state)))).
Proof.
  unfold kept. rewrite in_app_iff, in_concat. split.
  - intros [H|(c & Hc & Ht)]; [left; exact H|right].
    exists (set_tours c). split; [apply in_map; exact Hc|exact Ht].
  - intros [H|(l & Hl & Ht)]; [left; exact H|right].
    apply in_map_iff in Hl as (c & <- & Hc). eauto.
Qed.

(** X12. [collectFavoriteTours] lists every favorite hotel once: no hotel
    twice, nothing that is not among the favorites, and every hotel of the
    favorites. *)
Theorem collected_favorites_once (state : ChatState) :
  List.NoDup (map hotel_id (collectFavoriteTours state)) /\
  (forall t, In t (collectFavoriteTours state) -> kept (favorites state) t) /\
  (forall t, kept (favorites state) t ->
             In (hotel_id t) (map hotel_id (collectFavoriteTours state))).
Proof.
  unfold collectFavoriteTours.
  destruct (dedupe_tours_spec []
              (tours (favorites state) ++
               List.concat (map set_tours (collections (favorites state)))))
    as (Hnd & Hsub & Hcov).
  split; [exact Hnd|]. split.
  - intros t Ht. apply kept_iff_listed. apply (Hsub t Ht).
  - intros t Ht. apply Hcov; [apply kept_iff_listed; exact Ht|intros []].
Qed.

(** X13. The tour that the "want" button resolves to has the hotel id of the
    button and comes from the results on screen or from the favorites; the
    results on screen come first; and the button resolves to nothing only
    when the hotel is in neither. *)
Theorem want_button_finds_the_hotel (state : ChatState) (hotelId : Z) :
  match findTourForWantAction state hotelId with
  | Some t =>
    hotel_id t = hotelId /\
    (In t (lastResults state) \/
     (~ In hotelId (map hotel_id (lastResults state)) /\ kept (favorites state) t))
  | None =>
    ~ In hotelId (map hotel_id (lastResults state)) /\
    forall t, kept (favorites state) t -> hotel_id t <> hotelId
  end.
Proof.
  unfold findTourForWantAction.
  assert (Hmiss : forall l : list Tour,
             find (fun t => hotel_id t =? hotelId) l = None -> ~ In hotelId (map hotel_id l)).
  { intros l E Hin. apply in_map_iff in Hin as (t & Hid & Ht).
    eapply find_none in E; [|exact Ht]. cbn in E. apply Z.eqb_neq in E. contradiction. }
  destruct (find (fun t => hotel_id t =? hotelId) (lastResults state)) as [t|] eqn:E.
  - apply find_some in E as [Hin Hid]. apply Z.eqb_eq in Hid. tauto.
  - apply Hmiss in E.
    assert (Hsub : forall t, In t (collectFavoriteTours state) -> kept (favorites state) t).
    { intros t Ht. apply kept_iff_listed. eapply (dedupe_tours_spec []). exact Ht. }
    assert (Hcov : forall t, kept (favorites state) t ->
                             In (hotel_id t) (map hotel_id (collectFavoriteTours state))).
    { intros t Ht. apply (dedupe_tours_spec []); [apply kept_iff_listed; exact Ht|intros []]. }
    destruct (find (fun t => hotel_id t =? hotelId) (collectFavoriteTours state)) as [t|] eqn:E2.
    + apply find_some in E2 as [Hin Hid]. apply Z.eqb_eq in Hid.
      split; [exact Hid|]. right. split; [exact E|]. apply Hsub. exact Hin.
    + apply Hmiss in E2. split; [exact E|].
      intros t Ht Hid. apply E2. rewrite <- Hid. apply Hcov. exact Ht.
Qed.

(** *** Words and captions *)

(** X14. [pluralRu] follows the Russian rule of number agreement: the form
    for one after a last digit 1 (but not after 11), the form for a few
    after the last digits 2, 3, 4 (but not after 12, 13, 14), the form for
    many otherwise; the sign of the number does not matter. *)
Theorem pluralRu_rule (n : Z) (one few many : str) :
  let d := Z.abs n mod 10 in
  let h := Z.abs n mod 100 in
  (d = 1 -> h <> 11 -> pluralRu n one few many = one) /\
  (2 <= d <= 4 -> ~ (12 <= h <= 14) -> pluralRu n one few many = few) /\
  (d = 0 \/ 5 <= d \/ 11 <= h <= 14 -> pluralRu n one few many = many) /\
  pluralRu (- n) one few many = pluralRu n one few many.
Proof.
  cbn zeta. unfold pluralRu. rewrite Z.abs_opp.
  assert (Hd : (Z.abs n mod 100) mod 10 = Z.abs n mod 10).
  { rewrite (Z.div_mod (Z.abs n) 100) at 2 by lia.
    replace (100 * (Z.abs n / 100) + Z.abs n mod 100)
      with (Z.abs n mod 100 + (10 * (Z.abs n / 100)) * 10) by lia.
    rewrite Z_mod_plus_full. reflexivity. }
  rewrite Hd.
  pose proof (Z.mod_pos_bound (Z.abs n) 100 ltac:(lia)) as Hh.
  pose proof (Z.mod_pos_bound (Z.abs n) 10 ltac:(lia)) as Hd10.
  assert (Hrel : Z.abs n mod 100 = 10 * (Z.abs n mod 100 / 10) + Z.abs n mod 10).
  { rewrite <- Hd. apply Z.div_mod. lia. }
  assert (Hq : 0 <= Z.abs n mod 100 / 10 < 10).
  { split; [apply Z.div_pos; lia|apply Z.div_lt_upper_bound; lia]. }
  generalize dependent (Z.abs n mod 100 / 10). intros q Hrel Hq.
  generalize dependent (Z.abs n mod 100). intros h _ Hh Hrel.
  generalize dependent (Z.abs n mod 10). intros d Hd10 Hrel.
  repeat split; intros;
    repeat match goal with
           | |- context [?a <? ?b] => destruct (Z.ltb_spec a b)
           | |- context [?a =? ?b] => destruct (Z.eqb_spec a b)
           end; cbn [andb]; try reflexivity; lia.
Qed.

Lemma length_trimStart (s : str) : (length (trimStart s) <= length s)%nat.
Proof.
  induction s as [|c s IH]; cbn; [lia|]. destruct (is_space c); cbn; lia.
Qed.

Lemma length_trim (s : str) : (length (trim s) <= length s)%nat.
Proof.
  unfold trim. rewrite length_rev.
  etransitivity; [apply length_trimStart|]. rewrite length_rev. apply length_trimStart.
Qed.

(** X15. [truncateText] returns a text of at most [max] code units (two for a
    [max] below two): the text itself when it fits, otherwise a shortened
    text that ends with an ellipsis. *)
Theorem truncateText_fits (value : str) (max : Z) :
  Z.of_nat (length (truncateText value max)) <= Z.max 2 max /\
  (Z.of_nat (length value) <= max -> truncateText value max = value) /\
  (max < Z.of_nat (length value) -> exists kept, truncateText value max = kept ++ u "…").
Proof.
  unfold truncateText.
  destruct (Z.leb_spec (Z.of_nat (length value)) max) as [Hfit|Hlong].
  - split; [lia|]. split; [reflexivity|lia].
  - split; [|split; [lia|eauto]].
    rewrite length_app.
    pose proof (length_trim (firstn (Z.to_nat (Z.max 1 (max - 1))) value)) as Ht.
    pose proof (firstn_le_length (Z.to_nat (Z.max 1 (max - 1))) value) as Hf.
    change (length (u "…")) with 1%nat. lia.
Qed.

(** *** Which slot to ask for *)

(** X16. The two ways in which the bot picks the slot to ask for agree:
    [resolveAiAwaiting] on the missing fields that the orchestrator reports
    is [nextAiAwaiting] on the draft; and on any list of missing fields
    [resolveAiAwaiting] picks country before nights before budget. *)
Theorem resolveAiAwaiting_agrees (draft : Draft) (missing : list MissingField) :
  resolveAiAwaiting (getMissingFields draft) = nextAiAwaiting draft /\
  (In country_slot missing -> resolveAiAwaiting missing = Some aw_country) /\
  (~ In country_slot missing -> In nights_slot missing ->
   resolveAiAwaiting missing = Some aw_nights) /\
  (~ In country_slot missing -> ~ In nights_slot missing -> In budget_slot missing ->
   resolveAiAwaiting missing = Some aw_budget) /\
  (missing = [] -> resolveAiAwaiting missing = None).
Proof.
  assert (Hex : forall f, existsb (field_eqb f) missing = true <-> In f missing).
  { intros f. rewrite existsb_exists. split.
    - intros (x & Hx & E). destruct f, x; try discriminate; exact Hx.
    - intros H. exists f. split; [exact H|]. destruct f; reflexivity. }
  assert (Hno : forall f, ~ In f missing -> existsb (field_eqb f) missing = false).
  { intros f H. destruct (existsb (field_eqb f) missing) eqn:E; [|reflexivity].
    apply Hex in E. contradiction. }
  split; [|split; [|split; [|split]]].
  - unfold getMissingFields, nextAiAwaiting, resolveAiAwaiting.
    destruct (hasCountry draft), (hasNights draft), (hasBudget draft); reflexivity.
  - intros H. unfold resolveAiAwaiting. apply Hex in H. rewrite H. reflexivity.
  - intros Hc Hn. unfold resolveAiAwaiting. apply Hex in Hn. rewrite (Hno _ Hc), Hn.
    destruct (existsb (field_eqb budget_slot) missing); reflexivity.
  - intros Hc Hn Hb. unfold resolveAiAwaiting. apply Hex in Hb.
    rewrite (Hno _ Hc), (Hno _ Hn), Hb. reflexivity.
  - intros ->. reflexivity.
Qed.

(** *** Sequence numbers *)






(** X18. [applyOrchestratedSearchArgsToState] resets the sequence number, so
    every search that the text handler starts after it (direct, follow-up,
    clarified and orchestrated searches) carries the number 1; when a second
    such search has been started, the result of the first one is not stale
    and is shown. *)
Theorem orchestrated_searches_are_numbered_one
  (state : ChatState) (args1 args2 : SearchToursInput) (output : SearchOutput) :
  let first := beginSearchSeq (applyOrchestratedSearchArgsToState state args1) in
  let second := beginSearchSeq (applyOrchestratedSearchArgsToState (fst first) args2) in
  snd first = 1 /\
  snd second = 1 /\
  isSearchSeqStale (fst second) (snd first) = false /\
  on_search_result (fst second) (snd first) output = sendCards (fst second) output.
Proof.
  cbn zeta.
  assert (E : forall s a, beginSearchSeq (applyOrchestratedSearchArgsToState s a)
                          = (set_activeSearchSeq (Some 1)
                               (applyOrchestratedSearchArgsToState s a), 1)).
  { intros s a. unfold beginSearchSeq. rewrite activeSearchSeq_applyOrchestrated. reflexivity. }
  rewrite !E. cbn [fst snd]. split; [reflexivity|]. split; [reflexivity|].
  unfold on_search_result.
  assert (Hs : isSearchSeqStale
                 (set_activeSearchSeq (Some 1)
                    (applyOrchestratedSearchArgsToState
                       (set_activeSearchSeq (Some 1)
                          (applyOrchestratedSearchArgsToState state args1)) args2)) 1 = false)
    by reflexivity.
  rewrite Hs. split; reflexivity.
Qed.

(** *** Anchored patterns *)

Lemma exec_from_not_at_start r x s : exec_from (Seq Bol r) (Some x) s = None.
Proof.
  revert x. induction s as [|y s IH]; intros x; cbn [exec_from match_at run]; [reflexivity|].
  apply IH.
Qed.

Lemma test_anchored r s :
  test (Seq Bol r) s = match run r None s [] accept with Some _ => true | None => false end.
Proof.
  unfold test, exec. destruct s as [|x s]; cbn [exec_from match_at run].
  - destruct (run r None [] [] accept) as [[? ?]|]; reflexivity.
  - destruct (run r None (x :: s) [] accept) as [[? ?]|]; [reflexivity|].
    rewrite exec_from_not_at_start. reflexivity.
Qed.

Lemma run_rep_S n a prev s c k :
  run (Rep (S n) 0 a) prev s c k
  = run a prev s c (fun prev' s' c' => run (Rep n 0 a) prev' s' c' k).
Proof. reflexivity. Qed.

Lemma run_rep_0 a prev s c k : run (Rep 0 0 a) prev s c k = k prev s c.
Proof. reflexivity. Qed.

Lemma run_seq a b prev s c k :
  run (Seq a b) prev s c k = run a prev s c (fun prev' s' c' => run b prev' s' c' k).
Proof. reflexivity. Qed.

Lemma run_chr p prev x s c k :
  run (Chr p) prev (x :: s) c k = if p x then k (Some x) s c else None.
Proof. reflexivity. Qed.

(** [\d{n}$] matches exactly the texts of [n] digits. *)
Lemma run_digits_to_end n prev s c :
  run (Seq (Rep n 0 digit) Eol) prev s c accept
  = if (length s =? n)%nat && forallb is_digit s then Some ([], c) else None.
Proof.
  rewrite run_seq. revert prev s. induction n as [|n IH]; intros prev s.
  - rewrite run_rep_0. destruct s; reflexivity.
  - rewrite run_rep_S. destruct s as [|x s]; [reflexivity|].
    unfold digit at 1. rewrite run_chr. cbn [length forallb Nat.eqb].
    destruct (is_digit x); [|rewrite andb_false_r; reflexivity].
    rewrite IH. rewrite andb_true_l. reflexivity.
Qed.

Lemma test_prefix_digits (prefix : str) (n : nat) (s : str) :
  test (seq (Bol :: map chr prefix ++ [Rep n 0 digit; Eol])) s = true <->
  exists digits, s = prefix ++ digits /\ length digits = n /\ forallb is_digit digits = true.
Proof.
  assert (Hseq : seq (Bol :: map chr prefix ++ [Rep n 0 digit; Eol])
                 = Seq Bol (seq (map chr prefix ++ [Rep n 0 digit; Eol]))).
  { destruct prefix; reflexivity. }
  rewrite Hseq, test_anchored. clear Hseq. generalize (@None Z) (@nil (nat * str)).
  revert s. induction prefix as [|p prefix IH]; intros s prev c.
  - cbn [map app seq]. rewrite run_digits_to_end.
    destruct (Nat.eqb_spec (length s) n) as [Hlen|Hlen]; cbn [andb].
    + destruct (forallb is_digit s) eqn:E; split; try discriminate; eauto.
      intros (d & -> & _ & Hd). cbn in Hd. congruence.
    + split; [discriminate|]. intros (d & -> & Hn & _). contradiction.
  - assert (Hs : seq (map chr (p :: prefix) ++ [Rep n 0 digit; Eol])
                 = Seq (chr p) (seq (map chr prefix ++ [Rep n 0 digit; Eol]))).
    { cbn [map app seq]. destruct (map chr prefix ++ [Rep n 0 digit; Eol]) eqn:E;
        [destruct prefix; discriminate|reflexivity]. }
    rewrite Hs, run_seq. destruct s as [|x s]; [|unfold chr at 1; rewrite run_chr].
    + split; [discriminate|]. intros (d & Hd & _). discriminate.
    + destruct (Z.eqb_spec x p) as [->|Hne].
      * rewrite IH. split.
        -- intros (d & -> & Hrest). exists d. split; [reflexivity|exact Hrest].
        -- intros (d & Hd & Hrest). cbn in Hd. injection Hd as ->.
           exists d. split; [reflexivity|exact Hrest].
      * split; [discriminate|]. intros (d & Hd & _). cbn in Hd. congruence.
Qed.

(** *** Global replacement of single code units *)

Lemma replace_loop_class p fuel prev s :
  (length s < fuel)%nat ->
  replace_loop fuel (Chr p) [] prev s = List.filter (fun c => negb (p c)) s.
Proof.
  revert prev s. induction fuel as [|fuel IH]; intros prev s Hlen; [lia|].
  destruct s as [|x s]; [reflexivity|]. cbn [replace_loop List.filter length] in *.
  assert (Hm : match_at (Chr p) prev (x :: s) = if p x then Some (s, []) else None)
    by reflexivity.
  rewrite Hm. destruct (p x); cbn [negb].
  - assert (E : (length s <? S (length s))%nat = true) by (apply Nat.ltb_lt; lia).
    rewrite E. cbn [app]. apply IH. lia.
  - f_equal. apply IH. lia.
Qed.

Lemma replace_all_class p s :
  replace_all (Chr p) [] s = List.filter (fun c => negb (p c)) s.
Proof. apply replace_loop_class. lia. Qed.

Lemma replace_loop_inner_plus fuel y s :
  (length s < fuel)%nat ->
  replace_loop fuel inner_plus [] (Some y) s = List.filter (fun c => negb (c =? 43)) s.
Proof.
  revert y s. induction fuel as [|fuel IH]; intros y s Hlen; [lia|].
  destruct s as [|x s]; [reflexivity|]. cbn [replace_loop List.filter length] in *.
  assert (Hm : match_at inner_plus (Some y) (x :: s)
               = if x =? 43 then Some (s, []) else None) by reflexivity.
  rewrite Hm. destruct (x =? 43); cbn [negb].
  - assert (E : (length s <? S (length s))%nat = true) by (apply Nat.ltb_lt; lia).
    rewrite E. cbn [app].
    destruct (last (firstn (S (length s) - length s) (x :: s))) as [z|] eqn:El.
    + apply IH. lia.
    + replace (S (length s) - length s)%nat with 1%nat in El by lia. discriminate.
  - f_equal. apply IH. lia.
Qed.

Lemma replace_all_inner_plus s :
  replace_all inner_plus [] s
  = match s with [] => [] | x :: s' => x :: List.filter (fun c => negb (c =? 43)) s' end.
Proof.
  unfold replace_all. destruct s as [|x s]; [reflexivity|].
  change (replace_loop (S (length (x :: s))) inner_plus [] None (x :: s))
    with (match match_at inner_plus None (x :: s) with
          | Some (rest, _) =>
            if (length rest <? length (x :: s))%nat
            then [] ++ replace_loop (length (x :: s)) inner_plus []
                         (last (firstn (length (x :: s) - length rest) (x :: s))) rest
            else x :: replace_loop (length (x :: s)) inner_plus [] (Some x) s
          | None => x :: replace_loop (length (x :: s)) inner_plus [] (Some x) s
          end).
  assert (Hm : match_at inner_plus None (x :: s) = None) by reflexivity.
  rewrite Hm. f_equal. apply replace_loop_inner_plus. cbn [length]. lia.
Qed.

(** *** Phone numbers *)

Lemma digit_cases d :
  is_digit d = true ->
  d = 48 \/ d = 49 \/ d = 50 \/ d = 51 \/ d = 52 \/ d = 53 \/ d = 54 \/ d = 55 \/ d = 56 \/
  d = 57.
Proof.
  unfold is_digit, in_range. intros H. apply andb_prop in H as [H1 H2].
  apply Z.leb_le in H1, H2. lia.
Qed.

Lemma digit_not_space d : is_digit d = true -> is_space d = false.
Proof.
  intros H. apply digit_cases in H.
  repeat (destruct H as [->|H]; [reflexivity|]). subst. reflexivity.
Qed.

Lemma digit_not_plus d : is_digit d = true -> (d =? 43) = false.
Proof.
  intros H. apply digit_cases in H.
  repeat (destruct H as [->|H]; [reflexivity|]). subst. reflexivity.
Qed.

Lemma filter_all {A} (f : A -> bool) l : forallb f l = true -> List.filter f l = l.
Proof.
  induction l as [|x l IH]; [reflexivity|]. cbn. intros H. apply andb_prop in H as [Hx Hl].
  rewrite Hx. f_equal. apply IH. exact Hl.
Qed.

Lemma trimStart_fixed x s : is_space x = false -> trimStart (x :: s) = x :: s.
Proof. intros H. cbn. rewrite H. reflexivity. Qed.

(** A text that neither starts nor ends with white space is its own
    [trim]. *)
Lemma trim_fixed x s y :
  is_space x = false -> is_space y = false -> trim (x :: s ++ [y]) = x :: s ++ [y].
Proof.
  intros Hx Hy. unfold trim. rewrite (trimStart_fixed x _ Hx).
  change (x :: s ++ [y]) with ((x :: s) ++ [y]). rewrite rev_app_distr. cbn [rev app].
  rewrite (trimStart_fixed y _ Hy).
  change (y :: rev s ++ [x]) with ([y] ++ (rev s ++ [x])).
  rewrite rev_app_distr, rev_app_distr, rev_involutive. reflexivity.
Qed.

Lemma russian_mobile_accepted phone : russian_mobile phone -> normalizePhone phone = Some phone.
Proof.
  intros (ds & -> & Hlen & Hds).
  destruct (exists_last (l := ds)) as (ds' & d & ->); [destruct ds; discriminate|].
  assert (Hd : is_digit d = true).
  { rewrite forallb_app in Hds. apply andb_prop in Hds as [_ Hd]. cbn in Hd.
    rewrite andb_true_r in Hd. exact Hd. }
  unfold normalizePhone. change (u "+7" ++ (ds' ++ [d])) with (43 :: (55 :: ds') ++ [d]).
  rewrite trim_fixed by (reflexivity || apply digit_not_space; exact Hd).
  change (43 :: (55 :: ds') ++ [d]) with (43 :: 55 :: (ds' ++ [d])).
  unfold not_phone_char, none_of. rewrite replace_all_class.
  assert (Hkeep : List.filter (fun c => negb (negb (is_digit c || (c =? 43))))
                    (43 :: 55 :: (ds' ++ [d])) = 43 :: 55 :: (ds' ++ [d])).
  { apply filter_all. cbn [forallb]. apply andb_true_intro. split; [reflexivity|].
    apply andb_true_intro. split; [reflexivity|].
    apply forallb_forall. intros c Hc. rewrite forallb_forall in Hds.
    rewrite (Hds c Hc). reflexivity. }
  rewrite Hkeep, replace_all_inner_plus.
  assert (Hrest : List.filter (fun c => negb (c =? 43)) (55 :: (ds' ++ [d]))
                  = 55 :: (ds' ++ [d])).
  { apply filter_all. cbn [forallb]. apply andb_true_intro. split; [reflexivity|].
    apply forallb_forall. intros c Hc. rewrite forallb_forall in Hds.
    rewrite (digit_not_plus c (Hds c Hc)). reflexivity. }
  rewrite Hrest.
  assert (Htest : test phone_plus7 (43 :: 55 :: (ds' ++ [d])) = true).
  { apply (test_prefix_digits [43; 55] 10). exists (ds' ++ [d]). repeat split; assumption. }
  rewrite Htest. reflexivity.
Qed.

(** X19. A phone number that [normalizePhone] accepts is "+7" followed by ten
    digits, whatever was typed; and an accepted number is accepted
    unchanged when it is typed again. *)
Theorem accepted_phone_shape (text phone : str) :
  normalizePhone text = Some phone ->
  russian_mobile phone /\ normalizePhone phone = Some phone.
Proof.
  intros H. assert (Hshape : russian_mobile phone);
    [|split; [exact Hshape|apply russian_mobile_accepted; exact Hshape]].
  unfold normalizePhone in H. destruct (trim text) as [|r0 raw]; [discriminate|].
  set (cleaned := replace_all inner_plus [] (replace_all not_phone_char [] (r0 :: raw))) in H.
  destruct (str_eqb cleaned [] || str_eqb cleaned (u "+")); [discriminate|].
  destruct (test phone_plus7 cleaned) eqn:E1.
  - injection H as <-. apply (test_prefix_digits [43; 55] 10) in E1. exact E1.
  - destruct (test phone_8 cleaned) eqn:E2.
    + injection H as <-. apply (test_prefix_digits [56] 10) in E2 as (ds & -> & Hds).
      exists ds. split; [reflexivity|exact Hds].
    + destruct (test phone_7 cleaned) eqn:E3; [|discriminate].
      injection H as <-. apply (test_prefix_digits [55] 10) in E3 as (ds & -> & Hds).
      exists ds. split; [reflexivity|exact Hds].
Qed.

Lemma accepted_phone_shape_witness :
  normalizePhone (u " 8 (999) 123-45-67 ") = Some (u "+79991234567") /\
  russian_mobile (u "+79991234567") /\
  normalizePhone (u "+79991234567") = Some (u "+79991234567").
Proof.
  assert (H : normalizePhone (u " 8 (999) 123-45-67 ") = Some (u "+79991234567"))
    by (vm_compute; reflexivity).
  split; [exact H|].
  apply (accepted_phone_shape (u " 8 (999) 123-45-67 ") (u "+79991234567") H).
Defined.


(* ===================================================================== *)
(** ** The matcher on texts of digits; bare numbers *)
(* ===================================================================== *)

(** *** The matcher on strings of digits *)









(** *** The loop of [Star] *)

Section StarLoop.
Variable a : re.
Variable k : cont.

Let loop :=
  fix loop (fuel : nat) (prev : option Z) (s : str) (c : caps) : option (str * caps) :=
    match fuel with
    | O => k prev s c
    | S fuel' =>
      match run a prev s c (fun prev' s' c' =>
              if (length s' <? length s)%nat then loop fuel' prev' s' c' else None) with
      | Some x => Some x
      | None => k prev s c
      end
    end.


Lemma star_loop_S fuel prev s c :
  loop (S fuel) prev s c
  = match run a prev s c (fun prev' s' c' =>
            if (length s' <? length s)%nat then loop fuel prev' s' c' else None) with
    | Some x => Some x
    | None => k prev s c
    end.
Proof. reflexivity. Qed.

End StarLoop.

(** *** What a pattern sees of the text before a position *)



(** *** A class under [Star] *)





(** *** Patterns that no text of digits matches *)









(** *** Amounts *)












(** *** A bare number *)










(** *** Texts of digits under the normalisations *)














(** *** A number after a marker *)






















(** *** A bare number in the text handler *)









Lemma find_none {A} (f : A -> bool) l : forallb (fun x => negb (f x)) l = true -> find f l = None.
Proof.
  induction l as [|x l IH]; [reflexivity|]. cbn [forallb find]. intros H.
  apply andb_prop in H as [Hx Hl]. destruct (f x); [discriminate|]. apply IH, Hl.
Qed.










(** *** Bare numbers and numbers after a marker *)








(* ===================================================================== *)
(** ** Theorems about the synthetic backend *)
(* ===================================================================== *)

Import Mock MockSpec.

(** *** Strings and rationals *)

Lemma str_eqb_eq (a b : str) : str_eqb a b = true <-> a = b.
Proof.
  revert b. induction a as [|x a IH]; intros [|y b]; simpl; split; try easy.
  - intros H. apply andb_prop in H as [Hx Hab]. apply Z.eqb_eq in Hx.
    apply IH in Hab. congruence.
  - intros [= -> ->]. rewrite Z.eqb_refl. apply IH. reflexivity.
Qed.

Lemma Qltb_lt (a b : Q) : Qltb a b = true <-> (a < b)%Q.
Proof.
  unfold Qltb. rewrite negb_true_iff. split.
  - intros H. apply Qnot_le_lt. intros Hle. apply Qle_bool_iff in Hle. congruence.
  - intros H. destruct (Qle_bool b a) eqn:E; [|reflexivity].
    apply Qle_bool_iff in E. apply Qle_not_lt in E. contradiction.
Qed.

Lemma Qltb_ge (a b : Q) : Qltb a b = false <-> (b <= a)%Q.
Proof.
  unfold Qltb. rewrite negb_false_iff. apply Qle_bool_iff.
Qed.

(** *** Sorting, slicing and image assignment keep the tours *)

Lemma In_insert_sorted before x l t :
  In t (insert_sorted before x l) <-> t = x \/ In t l.
Proof.
  induction l as [|y l IH]; simpl.
  - intuition.
  - destruct (before x y); simpl; rewrite ?IH; intuition.
Qed.

Lemma In_sort_tours desc l t : In t (sort_tours desc l) <-> In t l.
Proof.
  unfold sort_tours. induction l as [|x l IH]; simpl; [tauto|].
  rewrite In_insert_sorted, IH. intuition.
Qed.

Lemma length_insert_sorted before x l :
  length (insert_sorted before x l) = S (length l).
Proof.
  induction l as [|y l IH]; simpl; [reflexivity|].
  destruct (before x y); simpl; [reflexivity|]. now rewrite IH.
Qed.

Lemma length_sort_tours desc l : length (sort_tours desc l) = length l.
Proof.
  unfold sort_tours. induction l as [|x l IH]; simpl; [reflexivity|].
  now rewrite length_insert_sorted, IH.
Qed.

Lemma In_slice start count l t : In t (slice start count l) -> In t l.
Proof.
  unfold slice. intros H.
  rewrite <- (firstn_skipn (Z.to_nat start) l). apply in_or_app. right.
  rewrite <- (firstn_skipn (Z.to_nat count) (skipn (Z.to_nat start) l)).
  apply in_or_app. left. exact H.
Qed.

Lemma length_slice start count l : (length (slice start count l) <= Z.to_nat count)%nat.
Proof. unfold slice. apply firstn_le_length. Qed.

Section BackendFacts.
Variable P : Platform.

Lemma In_assign_from sd off pool pageSize start idx used page t :
  In t (assign_from P sd off pool pageSize start idx used page) ->
  exists g img, In g page /\ t = set_image img g.
Proof.
  revert idx used. induction page as [|g page IH]; intros idx used; simpl; [tauto|].
  destruct (pageSize <=? Z.of_nat (length pool)).
  - intros [<-|H]; [eauto|]. destruct (IH _ _ H) as (g' & img & Hin & ->). eauto.
  - intros [<-|H]; [eauto|]. destruct (IH _ _ H) as (g' & img & Hin & ->). eauto.
Qed.

Lemma length_assign_from sd off pool pageSize start idx used page :
  length (assign_from P sd off pool pageSize start idx used page) = length page.
Proof.
  revert idx used. induction page as [|g page IH]; intros idx used; simpl; [reflexivity|].
  destruct (pageSize <=? Z.of_nat (length pool)); simpl; now rewrite IH.
Qed.

Lemma In_assignImagesForPage sd slug off page t :
  In t (assignImagesForPage P sd slug off page) ->
  exists g img, In g page /\ t = set_image img g.
Proof.
  unfold assignImagesForPage. destruct (getImagePool P slug).
  - intros H. apply in_map_iff in H as (g & <- & Hin). eauto.
  - apply In_assign_from.
Qed.

Lemma length_assignImagesForPage sd slug off page :
  length (assignImagesForPage P sd slug off page) = length page.
Proof.
  unfold assignImagesForPage. destruct (getImagePool P slug).
  - apply length_map.
  - apply length_assign_from.
Qed.

(** Every returned tour is a generated tour that passed the filter, with an
    image and the debugging record attached. *)
Lemma results_from_filtered clock input t :
  In t (results (mockSearchTours P clock input)) ->
  exists g img dbg,
    In g (buildTours P clock input (makeSeedFromInput P input)) /\
    keeps (filters_of P input) g = true /\
    t = set_raw (makeSeedFromInput P input) dbg (set_image img g).
Proof.
  unfold mockSearchTours. cbn [results]. intros H.
  apply in_map_iff in H as (w & <- & Hw).
  apply In_assignImagesForPage in Hw as (g & img & Hg & ->).
  apply In_slice, In_sort_tours in Hg. apply filter_In in Hg as [Hg Hkeep].
  eauto 6.
Qed.

Lemma length_results clock input :
  length (results (mockSearchTours P clock input))
  = length (slice (normalizeOffset P (offset input)) (normalizeLimit P (limit input))
              (sort_tours (normalizeSort (sort input))
                 (List.filter (keeps (filters_of P input))
                    (buildTours P clock input (makeSeedFromInput P input))))).
Proof.
  unfold mockSearchTours. cbn [results].
  now rewrite length_map, length_assignImagesForPage.
Qed.

(** *** The generator *)

Lemma u32_range x : 0 <= u32 x < 4294967296.
Proof. unfold u32. apply Z.mod_pos_bound. lia. Qed.

Lemma rng_range state : (0 <= fst (rng state))%Q /\ (fst (rng state) <= 1)%Q.
Proof.
  unfold rng. cbn [fst].
  match goal with |- context [inject_Z (u32 ?x)] => pose proof (u32_range x) as H; generalize dependent (u32 x) end.
  intros z Hz. unfold Qdiv, Qle. cbn. split; lia.
Qed.

Lemma randomInt_range state min max :
  min <= max + 1 ->
  min <= fst (randomInt state min max) <= max + 1.
Proof.
  intros Hle. unfold randomInt.
  destruct (rng_range state) as [H0 H1]. destruct (rng state) as [r s']. cbn [fst] in *.
  assert (Hn : (0 <= inject_Z (max - min + 1))%Q)
    by (change 0%Q with (inject_Z 0); rewrite <- Zle_Qle; lia).
  assert (Hlo : 0 <= Qfloor (r * inject_Z (max - min + 1))).
  { change 0 with (Qfloor (inject_Z 0)) at 1. apply Qfloor_resp_le.
    change (inject_Z 0) with 0%Q. apply Qmult_le_0_compat; assumption. }
  assert (Hhi : Qfloor (r * inject_Z (max - min + 1)) <= max - min + 1).
  { rewrite <- (Qfloor_Z (max - min + 1)) at 2. apply Qfloor_resp_le.
    rewrite <- (Qmult_1_l (inject_Z (max - min + 1))) at 2.
    apply Qmult_le_compat_r; assumption. }
  lia.
Qed.

Ltac open_lets :=
  repeat match goal with
         | |- context [let '(_, _) := ?x in _] => destruct x eqn:?
         end.

Lemma meal_of_roll_code mealRoll : In (meal_of_roll mealRoll) MEAL_CODES.
Proof.
  unfold meal_of_roll.
  repeat match goal with
         | |- context [if Qltb mealRoll ?q then _ else _] => destruct (Qltb mealRoll q)
         end; vm_compute; auto 10.
Qed.

(** What one iteration of the loop guarantees about the tour it builds. *)
Lemma make_tour_fields m i state :
  let t := fst (make_tour m i state) in
  In (t_meal t) MEAL_CODES /\
  (i = 4 -> nights t = clamp_int 8 (fst (m_nights m)) (snd (m_nights m))) /\
  (exists off,
      0 <= off <= (if 0 <? m_rangeDays m then m_rangeDays m else 21) + 1 /\
      t_date_from t = toIsoDate (addDays (m_fromDate m) off)).
Proof.
  unfold make_tour. open_lets. cbn [fst t_meal nights t_date_from].
  split; [|split].
  - destruct (Z.ltb_spec i (Z.of_nat (length MEAL_CODES))) as [Hi|Hi].
    + apply nth_In. cbn [length MEAL_CODES map] in *. lia.
    + apply meal_of_roll_code.
  - intros ->. reflexivity.
  - match goal with
    | H : (if 0 <? m_rangeDays m then _ else _) = (?z, _) |- _ =>
      exists z; split; [|reflexivity];
      destruct (Z.ltb_spec 0 (m_rangeDays m));
      match type of H with
      | randomInt ?s ?lo ?hi = _ =>
        pose proof (randomInt_range s lo hi) as Hr; rewrite H in Hr; cbn [fst] in Hr; lia
      end
    end.
Qed.

Lemma make_tours_fields m count i state g :
  In g (make_tours m count i state) ->
  In (t_meal g) MEAL_CODES /\
  (exists off,
      0 <= off <= (if 0 <? m_rangeDays m then m_rangeDays m else 21) + 1 /\
      t_date_from g = toIsoDate (addDays (m_fromDate m) off)).
Proof.
  revert i state. induction count as [|count IH]; intros i state; simpl; [tauto|].
  pose proof (make_tour_fields m i state) as Hf.
  destruct (make_tour m i state) as [tour state']. cbn [fst] in Hf.
  intros [<-|Hin]; [tauto|]. eapply IH; eassumption.
Qed.

(** Tour number 4 has eight nights, clamped into the requested range. *)
Lemma make_tours_fifth m count i state :
  i <= 4 < i + Z.of_nat count ->
  exists g, In g (make_tours m count i state) /\
            nights g = clamp_int 8 (fst (m_nights m)) (snd (m_nights m)).
Proof.
  revert i state. induction count as [|count IH]; intros i state Hi; [lia|]. simpl.
  pose proof (make_tour_fields m i state) as Hf.
  destruct (make_tour m i state) as [tour state']. cbn [fst] in Hf.
  destruct (Z.eq_dec i 4) as [->|Hne].
  - exists tour. split; [left; reflexivity|]. apply Hf. reflexivity.
  - destruct (IH (i + 1) state') as (g & Hg & Hn); [lia|]. eauto using in_cons.
Qed.

Lemma buildTours_fields clock input sd g :
  In g (buildTours P clock input sd) ->
  In (t_meal g) MEAL_CODES /\
  (exists off,
      let rangeDays :=
        Z.max 0 ((snd (date_window P clock input) - fst (date_window P clock input))
                 / MS_PER_DAY) in
      0 <= off <= (if 0 <? rangeDays then rangeDays else 21) + 1 /\
      t_date_from g = toIsoDate (addDays (fst (date_window P clock input)) off)).
Proof.
  unfold buildTours. open_lets. intros H.
  apply make_tours_fields in H. exact H.
Qed.

(** *** Normalised filters *)


Lemma clamp_range n : (1 <= clamp n 1 30)%Q /\ (clamp n 1 30 <= 30)%Q.
Proof.
  unfold clamp, qmax, qmin.
  destruct (Qle_bool 30 n) eqn:E1.
  - cbn. split; discriminate.
  - destruct (Qle_bool 1 n) eqn:E2.
    + split.
      * apply Qle_bool_iff. exact E2.
      * apply Qltb_ge. unfold Qltb. rewrite negb_false_iff.
        destruct (Qle_bool n 30) eqn:E3; [reflexivity|].
        assert (Hlt : Qltb 30 n = true) by (unfold Qltb; rewrite E3; reflexivity).
        apply Qltb_lt in Hlt. apply Qlt_le_weak in Hlt. apply Qle_bool_iff in Hlt. congruence.
    + split; discriminate.
Qed.

Lemma nights_range_bounds input :
  1 <= fst (resolveEffectiveNightsRange P input) /\
  fst (resolveEffectiveNightsRange P input) <= snd (resolveEffectiveNightsRange P input) /\
  snd (resolveEffectiveNightsRange P input) <= 30.
Proof.
  unfold resolveEffectiveNightsRange. cbv zeta.
  destruct (clamp_range (match toFiniteNumber P (nights_min input) with
                         | Some q => q | None => DEFAULT_nights_min end)) as [Hlo1 Hlo2].
  destruct (clamp_range (match toFiniteNumber P (nights_max input) with
                         | Some q => q | None => DEFAULT_nights_max end)) as [Hhi1 Hhi2].
  revert Hlo1 Hlo2 Hhi1 Hhi2.
  generalize (clamp (match toFiniteNumber P (nights_min input) with
                     | Some q => q | None => DEFAULT_nights_min end) 1 30).
  generalize (clamp (match toFiniteNumber P (nights_max input) with
                     | Some q => q | None => DEFAULT_nights_max end) 1 30).
  intros hi lo Hlo1 Hlo2 Hhi1 Hhi2.
  apply Qfloor_resp_le in Hlo1, Hlo2, Hhi1, Hhi2.
  change (1 <= Qfloor lo) in Hlo1. change (Qfloor lo <= 30) in Hlo2.
  change (1 <= Qfloor hi) in Hhi1. change (Qfloor hi <= 30) in Hhi2.
  destruct (Qltb hi lo) eqn:E; cbn [fst snd].
  - apply Qltb_lt, Qlt_le_weak, Qfloor_resp_le in E. lia.
  - apply Qltb_ge, Qfloor_resp_le in E. lia.
Qed.




Lemma limit_bounds v : 0 <= normalizeLimit P v <= 20.
Proof.
  unfold normalizeLimit. destruct (toFiniteNumber P v) as [numeric|]; [|lia].
  destruct (Qle_bool numeric 0) eqn:E; [lia|].
  assert (0 <= Qfloor numeric); [|lia].
  change 0 with (Qfloor (inject_Z 0)) at 1. apply Qfloor_resp_le.
  apply Qlt_le_weak, Qltb_lt. unfold Qltb. change (inject_Z 0) with 0%Q. rewrite E. reflexivity.
Qed.


(** *** The clock *)

Lemma date_window_clock_free c1 c2 input :
  clock_free P input = true -> date_window P c1 input = date_window P c2 input.
Proof.
  unfold clock_free, date_window, parseDateSafe.
  destruct (normalizePeriod (period input)) as [[]|]; cbn [resolvePeriodDates];
    try discriminate; try reflexivity.
  destruct (normalizeDate (date_from input)) as [d|]; [|discriminate].
  destruct (Date_parse_utc P d); [reflexivity|discriminate].
Qed.

Lemma buildTours_clock_free c1 c2 input sd :
  clock_free P input = true -> buildTours P c1 input sd = buildTours P c2 input sd.
Proof.
  intros H. unfold buildTours. rewrite (date_window_clock_free c1 c2 input H). reflexivity.
Qed.

(** Without any field the window starts on the day of the call and is 30
    days long. *)
Lemma no_fields_window d :
  date_window P (midnight d) no_fields = (d * MS_PER_DAY, addDays (d * MS_PER_DAY) 30).
Proof. reflexivity. Qed.

Lemma toIsoDate_addDays d off :
  toIsoDate (addDays (d * MS_PER_DAY) off) = iso_of_day (d + off).
Proof.
  unfold toIsoDate, addDays. rewrite <- Z.mul_add_distr_r, Z.div_mul by discriminate.
  reflexivity.
Qed.

Lemma window_length d :
  (addDays (d * MS_PER_DAY) 30 - d * MS_PER_DAY) / MS_PER_DAY = 30.
Proof.
  unfold addDays.
  replace (d * MS_PER_DAY + 30 * MS_PER_DAY - d * MS_PER_DAY) with (30 * MS_PER_DAY) by lia.
  apply Z.div_mul. discriminate.
Qed.

Lemma In_offsets off : 0 <= off <= 31 -> In off offsets.
Proof.
  intros H. unfold offsets. apply in_map_iff. exists (Z.to_nat off).
  split; [lia|]. apply in_seq. lia.
Qed.

(** Every tour of a request without fields departs on the day of the call or
    on one of the 31 days after it. *)
Lemma no_fields_dates d t :
  In t (results (mockSearchTours P (midnight d) no_fields)) ->
  In (t_date_from t) (map (fun off => iso_of_day (d + off)) offsets).
Proof.
  intros H. apply results_from_filtered in H as (g & img & dbg & Hg & _ & ->).
  apply buildTours_fields in Hg as [_ (off & Hoff & Hdate)].
  rewrite no_fields_window in Hoff, Hdate. cbn [fst snd] in Hoff, Hdate.
  cbv zeta in Hoff. rewrite !window_length in Hoff.
  change ((if 0 <? Z.max 0 30 then Z.max 0 30 else 21) + 1) with 31 in Hoff.
  cbn [set_raw set_image t_date_from]. rewrite Hdate, toIsoDate_addDays.
  apply in_map_iff. exists off. split; [reflexivity|]. apply In_offsets. lia.
Qed.

(** A request without fields always has results: tour number 4 has eight
    nights and nothing else is filtered. *)
Lemma no_fields_nonempty clock : results (mockSearchTours P clock no_fields) <> [].
Proof.
  intros Hnil. apply (f_equal length) in Hnil. rewrite length_results in Hnil.
  assert (Hg : exists g, In g (buildTours P clock no_fields (makeSeedFromInput P no_fields)) /\
                         keeps (filters_of P no_fields) g = true).
  { unfold buildTours. open_lets.
    match goal with
    | H : randomInt ?s 60 100 = (?z, _) |- _ =>
      pose proof (randomInt_range s 60 100 ltac:(lia)) as Hr; rewrite H in Hr; cbn [fst] in Hr
    end.
    match goal with
    | |- context [make_tours ?m ?n 0 ?s] =>
      destruct (make_tours_fifth m n 0 s ltac:(lia)) as (g & Hin & Hn)
    end.
    exists g. split; [exact Hin|]. unfold keeps. rewrite Hn. reflexivity. }
  destruct Hg as (g & Hin & Hkeep).
  assert (Hf : In g (sort_tours (normalizeSort (sort no_fields))
                       (List.filter (keeps (filters_of P no_fields))
                          (buildTours P clock no_fields (makeSeedFromInput P no_fields)))))
    by (apply In_sort_tours, filter_In; split; assumption).
  destruct (sort_tours _ _) as [|x l]; [contradiction|]. discriminate Hnil.
Qed.

Lemma dates_apart s :
  In s (map (fun off => iso_of_day (20600 + off)) offsets) ->
  In s (map (fun off => iso_of_day (20640 + off)) offsets) -> False.
Proof.
  intros H1 H2.
  assert (Hall : forallb (fun a => negb (existsb (str_eqb a)
                                  (map (fun off => iso_of_day (20640 + off)) offsets)))
                   (map (fun off => iso_of_day (20600 + off)) offsets) = true)
    by (vm_compute; reflexivity).
  rewrite forallb_forall in Hall. specialize (Hall s H1). apply negb_true_iff in Hall.
  assert (Hex : existsb (str_eqb s) (map (fun off => iso_of_day (20640 + off)) offsets) = true)
    by (apply existsb_exists; exists s; split; [exact H2|apply str_eqb_eq; reflexivity]).
  congruence.
Qed.

(** Whatever the hash functions and the image directory are, the same
    request without fields is answered differently forty days later. *)
Lemma clock_changes_dates :
  results (mockSearchTours P (midnight 20600) no_fields)
  <> results (mockSearchTours P (midnight 20640) no_fields).
Proof.
  intros Heq.
  destruct (results (mockSearchTours P (midnight 20600) no_fields)) as [|t l] eqn:E;
    [exact (no_fields_nonempty _ E)|].
  assert (H1 : In t (results (mockSearchTours P (midnight 20600) no_fields)))
    by (rewrite E; left; reflexivity).
  assert (H2 : In t (results (mockSearchTours P (midnight 20640) no_fields)))
    by (rewrite <- Heq; left; reflexivity).
  apply no_fields_dates in H1, H2. exact (dates_apart _ H1 H2).
Qed.

End BackendFacts.

(** *** Filters *)



(** *** Determinism *)

(** C9, as stated, fails: the same request, sent on 2026-05-27 and again on
    2026-07-06, is answered with different result lists (by
    [clock_changes_dates] this is so on every platform). *)
Lemma same_request_on_another_day :
  results (mockSearchTours Examples.small_platform (midnight 20600) no_fields)
  <> results (mockSearchTours Examples.small_platform (midnight 20640) no_fields).
Proof. apply clock_changes_dates. Qed.

(** C9, amended. When the request fixes its own dates (the period is
    "summer" or "autumn", or there is no period and [date_from] is a valid
    date), two calls with identical input return the identical output: the
    same request id and the same ordered result list, images included,
    whenever the calls are made. *)
Theorem mock_search_deterministic
  (P : Platform) (clock1 clock2 : Clock) (input : MockInput) :
  clock_free P input = true ->
  mockSearchTours P clock1 input = mockSearchTours P clock2 input.
Proof.
  intros H. unfold mockSearchTours.
  rewrite (buildTours_clock_free P clock1 clock2 input _ H). reflexivity.
Qed.

Lemma mock_search_deterministic_witness :
  clock_free Examples.small_platform Examples.maldives_june = true /\
  mockSearchTours Examples.small_platform (midnight 20600) Examples.maldives_june
  = mockSearchTours Examples.small_platform (midnight 20640) Examples.maldives_june.
Proof.
  assert (H : clock_free Examples.small_platform Examples.maldives_june = true) by reflexivity.
  split; [exact H|].
  apply (mock_search_deterministic Examples.small_platform (midnight 20600) (midnight 20640)
           Examples.maldives_june H).
Defined.

(* ===================================================================== *)
(** ** Further properties of the synthetic backend *)
(* ===================================================================== *)

(** *** Order of the results *)

Lemma price_order_trans desc a b c :
  price_order desc a b -> price_order desc b c -> price_order desc a c.
Proof. destruct desc; cbn; lia. Qed.

Lemma insert_sorted_prices desc x l :
  StronglySorted (price_order desc) (map price l) ->
  StronglySorted (price_order desc)
    (map price (insert_sorted
                  (fun a b => if desc then price b <=? price a else price a <=? price b) x l)).
Proof.
  induction l as [|y l IH]; intros Hs; cbn [insert_sorted map].
  - repeat constructor.
  - inversion Hs as [|? ? Hl Hy]; subst.
    match goal with |- context [if ?b then _ else _] => destruct b eqn:E end; cbn [map].
    + constructor; [exact Hs|]. constructor.
      * destruct desc; cbn; lia.
      * rewrite List.Forall_forall in Hy |- *. intros c Hc.
        apply price_order_trans with (price y); [destruct desc; cbn; lia|exact (Hy c Hc)].
    + constructor; [apply IH; exact Hl|].
      apply List.Forall_forall. intros p Hp. apply in_map_iff in Hp as (t & <- & Ht).
      apply In_insert_sorted in Ht as [->|Ht].
      * destruct desc; cbn; lia.
      * rewrite List.Forall_forall in Hy. apply Hy. apply in_map. exact Ht.
Qed.

Lemma sort_tours_prices desc l :
  StronglySorted (price_order desc) (map price (sort_tours desc l)).
Proof.
  unfold sort_tours. induction l as [|x l IH]; cbn [fold_right map].
  - constructor.
  - apply insert_sorted_prices. exact IH.
Qed.

Lemma StronglySorted_skipn {A} (R : A -> A -> Prop) n l :
  StronglySorted R l -> StronglySorted R (skipn n l).
Proof.
  revert l. induction n as [|n IH]; intros l Hs; [exact Hs|].
  destruct l as [|x l]; [exact Hs|]. cbn. apply IH. inversion Hs; assumption.
Qed.

Lemma StronglySorted_firstn {A} (R : A -> A -> Prop) n l :
  StronglySorted R l -> StronglySorted R (firstn n l).
Proof.
  revert l. induction n as [|n IH]; intros l Hs; [constructor|].
  destruct l as [|x l]; [constructor|]. cbn. inversion Hs as [|? ? Hl Hx]; subst.
  constructor; [apply IH; exact Hl|].
  apply List.Forall_forall. intros y Hy. rewrite List.Forall_forall in Hx. apply Hx.
  rewrite <- (firstn_skipn n l). apply in_or_app. left. exact Hy.
Qed.

Section Order.
Variable P : Platform.

Lemma assign_from_bare sd off pool pageSize start idx used page :
  map (set_image None) (assign_from P sd off pool pageSize start idx used page)
  = map (set_image None) page.
Proof.
  revert idx used. induction page as [|g page IH]; intros idx used; cbn [assign_from map];
    [reflexivity|].
  destruct (pageSize <=? Z.of_nat (length pool)); cbn [map]; rewrite IH; reflexivity.
Qed.

Lemma assignImages_bare sd slug off page :
  map (set_image None) (assignImagesForPage P sd slug off page) = map (set_image None) page.
Proof.
  unfold assignImagesForPage. destruct (getImagePool P slug).
  - rewrite map_map. reflexivity.
  - apply assign_from_bare.
Qed.

(** What a search returns, apart from the images and the debugging record,
    is the page cut out of the sorted list of the tours that pass the
    filter. *)
Lemma results_bare clock input :
  map bare (results (mockSearchTours P clock input))
  = map bare
      (slice (normalizeOffset P (offset input)) (normalizeLimit P (limit input))
         (sort_tours (normalizeSort (Mock.sort input))
            (List.filter (keeps (filters_of P input))
               (buildTours P clock input (makeSeedFromInput P input))))).
Proof.
  unfold mockSearchTours. cbn [results]. rewrite map_map.
  set (page := slice _ _ _).
  assert (E : forall l : list TourResult, map bare l = map bare (map (set_image None) l))
    by (intros l; rewrite map_map; reflexivity).
  rewrite (E page), <- (assignImages_bare (makeSeedFromInput P input)
                          (d_slug (resolveDestination P input))
                          (normalizeOffset P (offset input)) page), map_map.
  reflexivity.
Qed.


Lemma price_bare l : map price (map bare l) = map price l.
Proof. rewrite map_map. reflexivity. Qed.

Lemma hotel_id_bare l : map hotel_id (map bare l) = map hotel_id l.
Proof. rewrite map_map. reflexivity. Qed.

(** X20. The results are in the order of their prices. *)
Theorem results_ordered_by_price clock input :
  StronglySorted (price_order (normalizeSort (Mock.sort input)))
    (map price (results (mockSearchTours P clock input))).
Proof.
  rewrite <- price_bare, results_bare, price_bare.
  unfold slice. rewrite <- firstn_map, <- skipn_map.
  apply StronglySorted_firstn, StronglySorted_skipn, sort_tours_prices.
Qed.

(** *** No tour twice *)

Lemma make_tour_hotel_id m i state : hotel_id (fst (make_tour m i state)) = 1000 + i.
Proof. unfold make_tour. open_pairs. reflexivity. Qed.

Lemma make_tours_hotel_ids m count i state :
  map hotel_id (make_tours m count i state)
  = map (fun k => 1000 + i + Z.of_nat k) (List.seq 0 count).
Proof.
  revert i state. induction count as [|count IH]; intros i state; [reflexivity|].
  cbn [make_tours]. pose proof (make_tour_hotel_id m i state) as Hid.
  destruct (make_tour m i state) as [tour state']. cbn [fst] in Hid.
  cbn [map List.seq]. rewrite Hid, IH, <- seq_shift, map_map.
  f_equal; [lia|]. apply map_ext. intros k. lia.
Qed.

Lemma NoDup_hotel_ids_make_tours m count i state :
  List.NoDup (map hotel_id (make_tours m count i state)).
Proof.
  rewrite make_tours_hotel_ids. apply Finite.Injective_map_NoDup; [|apply seq_NoDup].
  intros a b. lia.
Qed.

Lemma NoDup_map_filter {A B} (f : A -> B) (p : A -> bool) l :
  List.NoDup (map f l) -> List.NoDup (map f (List.filter p l)).
Proof.
  induction l as [|x l IH]; intros H; cbn; [constructor|].
  inversion H as [|? ? Hx Hl]; subst.
  destruct (p x); cbn; [|apply IH; exact Hl].
  constructor; [|apply IH; exact Hl].
  intros Hin. apply Hx. apply in_map_iff in Hin as (y & Hy & Hin).
  apply in_map_iff. exists y. split; [exact Hy|]. apply filter_In in Hin. tauto.
Qed.

Lemma NoDup_firstn {A} n (l : list A) : List.NoDup l -> List.NoDup (firstn n l).
Proof.
  intros H. rewrite <- (firstn_skipn n l) in H. apply NoDup_app_remove_r in H. exact H.
Qed.

Lemma NoDup_skipn {A} n (l : list A) : List.NoDup l -> List.NoDup (skipn n l).
Proof.
  intros H. rewrite <- (firstn_skipn n l) in H. apply NoDup_app_remove_l in H. exact H.
Qed.

Lemma Permutation_insert_sorted before x l : Permutation (insert_sorted before x l) (x :: l).
Proof.
  induction l as [|y l IH]; cbn; [reflexivity|].
  destruct (before x y); [reflexivity|].
  rewrite IH. apply perm_swap.
Qed.

(** Sorting loses and adds nothing. *)
Lemma Permutation_sort_tours desc l : Permutation (sort_tours desc l) l.
Proof.
  unfold sort_tours. induction l as [|x l IH]; cbn; [reflexivity|].
  rewrite Permutation_insert_sorted, IH. reflexivity.
Qed.

Lemma NoDup_hotel_ids_buildTours clock input sd :
  List.NoDup (map hotel_id (buildTours P clock input sd)).
Proof. unfold buildTours. open_pairs. apply NoDup_hotel_ids_make_tours. Qed.

(** X21. No hotel appears twice in a result list. *)
Theorem results_hotels_distinct clock input :
  List.NoDup (map hotel_id (results (mockSearchTours P clock input))).
Proof.
  rewrite <- hotel_id_bare, results_bare, hotel_id_bare.
  unfold slice. rewrite <- firstn_map, <- skipn_map.
  apply NoDup_firstn, NoDup_skipn.
  eapply Permutation_NoDup;
    [symmetry; apply Permutation_map, Permutation_sort_tours|].
  apply NoDup_map_filter, NoDup_hotel_ids_buildTours.
Qed.

(** *** Pages *)

Lemma limit_of_page lim : 0 < lim -> normalizeLimit P (VNum (of_Z lim)) = Z.min 20 lim.
Proof.
  intros H. unfold normalizeLimit, of_Z. cbn [toFiniteNumber].
  assert (E : Qle_bool (inject_Z lim) 0 = false).
  { destruct (Qle_bool (inject_Z lim) 0) eqn:E; [|reflexivity].
    apply Qle_bool_imp_le in E. change 0%Q with (inject_Z 0) in E.
    rewrite <- Zle_Qle in E. lia. }
  rewrite E, Qfloor_Z. reflexivity.
Qed.

Lemma offset_of_page off : 0 <= off -> normalizeOffset P (VNum (of_Z off)) = off.
Proof.
  intros H. unfold normalizeOffset, of_Z. cbn [toFiniteNumber].
  assert (E : Qltb (inject_Z off) 0 = false).
  { apply Qltb_ge. change 0%Q with (inject_Z 0). rewrite <- Zle_Qle. exact H. }
  rewrite E, Qfloor_Z. reflexivity.
Qed.

Lemma firstn_more {A} a b (l : list A) :
  firstn a l ++ firstn b (skipn a l) = firstn (a + b) l.
Proof.
  revert l. induction a as [|a IH]; intros l; [reflexivity|].
  destruct l as [|x l]; cbn; [rewrite firstn_nil; reflexivity|].
  rewrite IH. reflexivity.
Qed.

Lemma slice_more off a b l :
  0 <= off -> 0 <= a -> 0 <= b ->
  slice off a l ++ slice (off + a) b l = slice off (a + b) l.
Proof.
  intros Hoff Ha Hb. unfold slice.
  rewrite (Z2Nat.inj_add off a), (Z2Nat.inj_add a b) by lia.
  rewrite (Nat.add_comm (Z.to_nat off)), <- skipn_skipn.
  apply firstn_more.
Qed.

(** X22. Consecutive pages of one request are consecutive pieces of one list,
    and carry the same request id. *)
Theorem pages_are_consecutive clock input off a b :
  0 <= off -> 0 < a -> 0 < b -> a + b <= 20 ->
  map bare (results (mockSearchTours P clock (with_page input off a))) ++
  map bare (results (mockSearchTours P clock (with_page input (off + a) b)))
  = map bare (results (mockSearchTours P clock (with_page input off (a + b)))) /\
  requestid (mockSearchTours P clock (with_page input (off + a) b))
  = requestid (mockSearchTours P clock (with_page input off a)).
Proof.
  intros Hoff Ha Hb Hab. split; [|reflexivity].
  rewrite !results_bare. cbn [with_page Mock.limit Mock.offset Mock.sort].
  rewrite !limit_of_page, !offset_of_page by lia.
  rewrite !Z.min_r by lia.
  change (makeSeedFromInput P (with_page input ?o ?l)) with (makeSeedFromInput P input).
  change (filters_of P (with_page input ?o ?l)) with (filters_of P input).
  change (buildTours P clock (with_page input ?o ?l)) with (buildTours P clock input).
  rewrite <- map_app, slice_more by lia. reflexivity.
Qed.


(** *** Images *)

Lemma probe_in_range fuel used n idx :
  0 <= idx < n -> 0 <= probe fuel used n idx < n.
Proof.
  revert idx. induction fuel as [|fuel IH]; intros idx H; cbn [probe]; [exact H|].
  destruct (existsb (Z.eqb idx) used); [|exact H].
  apply IH. apply Z.mod_pos_bound. lia.
Qed.

Lemma nth_error_in_range {A} (l : list A) idx :
  0 <= idx < Z.of_nat (length l) -> exists x, nth_error l (Z.to_nat idx) = Some x /\ In x l.
Proof.
  intros H. destruct (nth_error l (Z.to_nat idx)) as [x|] eqn:E.
  - exists x. split; [reflexivity|]. eapply nth_error_In. exact E.
  - apply nth_error_None in E. lia.
Qed.

Lemma assign_from_images sd off pool pageSize start idx used page t :
  pool <> [] ->
  In t (assign_from P sd off pool pageSize start idx used page) ->
  exists img, image_url t = Some img /\ In img pool.
Proof.
  intros Hpool. revert idx used.
  assert (Hn : 0 < Z.of_nat (length pool)) by (destruct pool; [contradiction|cbn; lia]).
  induction page as [|g page IH]; intros idx used; cbn [assign_from]; [contradiction|].
  match goal with
  | |- context [(?a + idx + ?b) mod ?n] =>
    pose proof (Z.mod_pos_bound (a + idx + b) n Hn) as H0; generalize dependent ((a + idx + b) mod n)
  end.
  intros idx0 H0.
  destruct (pageSize <=? Z.of_nat (length pool)).
  - intros [<-|Hin]; [|eapply IH; exact Hin].
    cbn [set_image image_url]. apply nth_error_in_range. apply probe_in_range. exact H0.
  - intros [<-|Hin]; [|eapply IH; exact Hin].
    cbn [set_image image_url]. apply nth_error_in_range. exact H0.
Qed.

(** X23. The image of every result is one of the images of the destination's
    directory; when there is none, the result has no image. *)
Theorem result_images_from_pool clock input t :
  In t (results (mockSearchTours P clock input)) ->
  match getImagePool P (d_slug (resolveDestination P input)) with
  | [] => image_url t = None
  | pool => exists img, image_url t = Some img /\ In img pool
  end.
Proof.
  unfold mockSearchTours. cbn [results]. intros H.
  apply in_map_iff in H as (w & <- & Hw). cbn [set_raw image_url].
  unfold assignImagesForPage in Hw.
  destruct (getImagePool P (d_slug (resolveDestination P input))) as [|img0 pool] eqn:E.
  - apply in_map_iff in Hw as (g & <- & _). reflexivity.
  - eapply assign_from_images; [|exact Hw]. discriminate.
Qed.


Lemma residues_apart n idx (j1 j2 : nat) :
  0 < n -> Z.of_nat j1 < n -> Z.of_nat j2 < n ->
  (idx + Z.of_nat j1) mod n = (idx + Z.of_nat j2) mod n -> j1 = j2.
Proof.
  intros Hn H1 H2 E.
  pose proof (Z.div_mod (idx + Z.of_nat j1) n ltac:(lia)) as D1.
  pose proof (Z.div_mod (idx + Z.of_nat j2) n ltac:(lia)) as D2.
  rewrite E in D1.
  assert ((idx + Z.of_nat j1) / n = (idx + Z.of_nat j2) / n) by nia.
  lia.
Qed.

(** The search for a free index: it ends on a free index, or every index it
    looked at is taken. *)
Lemma probe_spec fuel used n idx :
  0 < n -> 0 <= idx < n ->
  existsb (Z.eqb (probe fuel used n idx)) used = false \/
  (forall j : nat, (j < fuel)%nat -> In ((idx + Z.of_nat j) mod n) used).
Proof.
  intros Hn. revert idx. induction fuel as [|fuel IH]; intros idx Hidx; cbn [probe].
  - right. intros j Hj. lia.
  - destruct (existsb (Z.eqb idx) used) eqn:E; [|left; exact E].
    destruct (IH ((idx + 1) mod n) ltac:(apply Z.mod_pos_bound; lia)) as [Hfree|Hall];
      [left; exact Hfree|right].
    intros [|j] Hj.
    + rewrite Z.add_0_r, Z.mod_small by lia.
      apply existsb_exists in E as (x & Hx & Ex). apply Z.eqb_eq in Ex. subst x. exact Hx.
    + specialize (Hall j ltac:(lia)).
      rewrite Zplus_mod_idemp_l in Hall.
      replace (idx + Z.of_nat (S j)) with (idx + 1 + Z.of_nat j) by lia. exact Hall.
Qed.

Lemma probe_free used n idx :
  0 <= idx < Z.of_nat n -> (length used < n)%nat ->
  ~ In (probe n used (Z.of_nat n) idx) used.
Proof.
  intros Hidx Hlen Hin.
  destruct (probe_spec n used (Z.of_nat n) idx ltac:(lia) Hidx) as [Hfree|Hall].
  - assert (existsb (Z.eqb (probe n used (Z.of_nat n) idx)) used = true); [|congruence].
    apply existsb_exists. eexists. split; [exact Hin|]. apply Z.eqb_refl.
  - set (visited := map (fun j => (idx + Z.of_nat j) mod Z.of_nat n) (List.seq 0 n)).
    assert (Hle : (length visited <= length used)%nat).
    { subst visited. apply NoDup_incl_length.
      - apply Finite.Injective_map_NoDup_in; [|apply seq_NoDup].
        intros j1 j2 H1 H2. apply in_seq in H1, H2.
        apply residues_apart; lia.
      - intros x Hx. apply in_map_iff in Hx as (j & <- & Hj). apply in_seq in Hj.
        apply Hall. lia. }
    subst visited. rewrite length_map, length_seq in Hle. lia.
Qed.

Lemma assign_from_indices sd off pool pageSize start i used page :
  pageSize <= Z.of_nat (length pool) ->
  List.NoDup used ->
  (length used + length page <= length pool)%nat ->
  exists ids,
    map image_url (assign_from P sd off pool pageSize start i used page)
    = map (fun k => nth_error pool (Z.to_nat k)) ids /\
    List.NoDup (ids ++ used) /\
    (forall k, In k ids -> 0 <= k < Z.of_nat (length pool)).
Proof.
  intros Hsize. revert i used.
  induction page as [|g page IH]; intros i used Hused Hlen; cbn [assign_from].
  - exists []. split; [reflexivity|]. split; [exact Hused|]. intros k [].
  - cbn [length] in Hlen.
    assert (Hn : 0 < Z.of_nat (length pool)) by lia.
    match goal with
    | |- context [(?a + i + ?b) mod ?n] =>
      pose proof (Z.mod_pos_bound (a + i + b) n Hn) as H0;
        generalize dependent ((a + i + b) mod n)
    end.
    intros idx0 H0.
    destruct (Z.leb_spec pageSize (Z.of_nat (length pool))) as [_|Hgt]; [|lia].
    set (idx := probe (length pool) used (Z.of_nat (length pool)) idx0).
    assert (Hfree : ~ In idx used) by (apply probe_free; [exact H0|lia]).
    assert (Hidx : 0 <= idx < Z.of_nat (length pool)) by (apply probe_in_range; exact H0).
    destruct (IH (i + 1) (idx :: used)) as (ids & Himg & Hnd & Hin).
    + constructor; assumption.
    + cbn [length]. lia.
    + exists (idx :: ids). cbn [map set_image image_url]. rewrite Himg.
      split; [reflexivity|]. split.
      * cbn [app]. eapply Permutation_NoDup; [|exact Hnd].
        symmetry. apply Permutation_middle.
      * intros k [<-|Hk]; [exact Hidx|apply Hin; exact Hk].
Qed.

(** X24. When the destination has at least as many images as the page has
    results, no image is used twice on the page. *)
Theorem page_images_distinct clock input :
  List.NoDup (getImagePool P (d_slug (resolveDestination P input))) ->
  normalizeLimit P (limit input)
  <= Z.of_nat (length (getImagePool P (d_slug (resolveDestination P input)))) ->
  List.NoDup (map image_url (results (mockSearchTours P clock input))).
Proof.
  intros Hpool Hlimit. unfold mockSearchTours. cbn [results].
  rewrite map_map. cbn [set_raw image_url].
  change (fun x : TourResult => image_url x) with image_url.
  set (page := slice _ _ _).
  assert (Hpage : Z.of_nat (length page) <= normalizeLimit P (limit input)).
  { pose proof (length_slice (normalizeOffset P (offset input))
                  (normalizeLimit P (limit input))
                  (sort_tours (normalizeSort (Mock.sort input))
                     (List.filter (keeps (filters_of P input))
                        (buildTours P clock input (makeSeedFromInput P input))))) as Hl.
    pose proof (limit_bounds P (limit input)). subst page. lia. }
  unfold assignImagesForPage.
  destruct (getImagePool P (d_slug (resolveDestination P input))) as [|img0 pool] eqn:E.
  - cbn [length] in Hlimit. destruct page; [constructor|cbn [length] in Hpage; lia].
  - destruct (assign_from_indices (makeSeedFromInput P input)
                (normalizeOffset P (offset input)) (img0 :: pool)
                (Z.of_nat (length page))
                (hashToInt P (makeSeedFromInput P input ++ u "|" ++
                              d_slug (resolveDestination P input) ++ u "|" ++
                              u (pretty (normalizeOffset P (offset input))))
                 mod Z.of_nat (length (img0 :: pool)))
                0 [] page) as (ids & Himg & Hnd & Hin).
    + lia.
    + constructor.
    + cbn [length] in *. lia.
    + rewrite Himg. rewrite app_nil_r in Hnd.
      apply Finite.Injective_map_NoDup_in; [|exact Hnd].
      intros a b Ha Hb Hab. apply Hin in Ha, Hb.
      assert (Z.to_nat a = Z.to_nat b); [|lia].
      apply (proj1 (NoDup_nth_error (img0 :: pool)) Hpool); [lia|exact Hab].
Qed.


(** *** The generator at its edge *)

Lemma rng_value state :
  fst (rng state) = (inject_Z (snd (rng state)) / 4294967295)%Q /\
  0 <= snd (rng state) <= 4294967295.
Proof.
  unfold rng. cbn [fst snd].
  match goal with |- context [inject_Z (u32 (u32 ?x))] => generalize x end.
  intros x. pose proof (u32_range x) as Hx.
  assert (E : u32 (u32 x) = u32 x) by (unfold u32 in *; apply Z.mod_small; lia).
  rewrite E. split; [reflexivity|lia].
Qed.

(** X25. [randomInt] stays between [min] and [max], except in the state
    0xffffffff of the generator, where it returns [max + 1]. *)
Theorem randomInt_bounds state min max :
  min <= max ->
  (snd (rng state) <> 4294967295 -> min <= fst (randomInt state min max) <= max) /\
  (snd (rng state) = 4294967295 -> fst (randomInt state min max) = max + 1).
Proof.
  intros Hle. unfold randomInt.
  destruct (rng_value state) as [Hr Hs]. destruct (rng state) as [r s']. cbn [fst snd] in *.
  subst r. split.
  - intros Hne.
    assert (H0 : 0 <= Qfloor (inject_Z s' / 4294967295 * inject_Z (max - min + 1))).
    { change 0 with (Qfloor (inject_Z 0)) at 1. apply Qfloor_resp_le.
      change (inject_Z 0) with 0%Q. apply Qmult_le_0_compat.
      - unfold Qdiv. apply Qmult_le_0_compat; [|discriminate].
        change 0%Q with (inject_Z 0). rewrite <- Zle_Qle. lia.
      - change 0%Q with (inject_Z 0). rewrite <- Zle_Qle. lia. }
    assert (H1 : Qfloor (inject_Z s' / 4294967295 * inject_Z (max - min + 1)) < max - min + 1).
    { rewrite Zlt_Qlt. eapply Qle_lt_trans; [apply Qfloor_le|].
      unfold Qdiv, Qlt, Qmult, Qinv, inject_Z. cbn. nia. }
    lia.
  - intros ->.
    assert (E : (inject_Z 4294967295 / 4294967295 * inject_Z (max - min + 1)
                 == inject_Z (max - min + 1))%Q) by (unfold Qeq; cbn; lia).
    rewrite E, Qfloor_Z. lia.
Qed.

(** *** What a generated tour looks like *)

Lemma clamp_between n lo hi :
  (lo <= hi)%Q -> (lo <= clamp n lo hi)%Q /\ (clamp n lo hi <= hi)%Q.
Proof.
  intros H. unfold clamp, qmax, qmin.
  destruct (Qle_bool hi n) eqn:E1.
  - apply Qle_bool_iff in H. rewrite H. split; [apply Qle_bool_iff; exact H|apply Qle_refl].
  - destruct (Qle_bool lo n) eqn:E2.
    + split; [apply Qle_bool_iff; exact E2|].
      apply Qlt_le_weak, Qltb_lt. unfold Qltb. rewrite E1. reflexivity.
    + split; [apply Qle_refl|exact H].
Qed.

Lemma rounded_rating c :
  (3 <= c)%Q -> (c <= 5)%Q ->
  (3 <= inject_Z (Nlu.js_round (c * 10)) / 10)%Q /\
  (inject_Z (Nlu.js_round (c * 10)) / 10 <= 5)%Q.
Proof.
  intros H3 H5. unfold Nlu.js_round.
  assert (Hlo : 30 <= Qfloor (c * 10 + (1 # 2))).
  { change 30 with (Qfloor 30%Q). apply Qfloor_resp_le. lra. }
  assert (Hhi : Qfloor (c * 10 + (1 # 2)) <= 50).
  { change 50 with (Qfloor (50 + (1 # 2))%Q). apply Qfloor_resp_le. lra. }
  generalize dependent (Qfloor (c * 10 + (1 # 2))). intros z Hlo Hhi.
  unfold Qdiv, Qle, Qmult, Qinv, inject_Z. cbn. lia.
Qed.

Lemma make_tour_shape m i state :
  let t := fst (make_tour m i state) in
  3 <= stars t <= 5 /\
  currency t = u "RUB" /\
  price t mod 10 = 0 /\
  t_country_name t = d_name (m_destination m) /\
  flag_emoji t = d_flag (m_destination m) /\
  raw_seed t = m_seed m /\
  (forall r, t_rating t = Some r -> (3 <= r)%Q /\ (r <= 5)%Q).
Proof.
  unfold make_tour. open_pairs.
  cbn [fst stars currency price t_country_name flag_emoji raw_seed t_rating].
  split; [|split; [reflexivity|split; [|split; [reflexivity|split; [reflexivity|split;
    [reflexivity|]]]]]].
  - repeat match goal with |- context [if ?b then _ else _] => destruct b end; lia.
  - unfold roundPrice.
    match goal with |- context [if ?b then 10 else 100] => destruct b end.
    + apply Z.mod_mul. lia.
    + match goal with |- (?z * 100) mod 10 = 0 =>
        replace (z * 100) with (z * 10 * 10) by lia end.
      apply Z.mod_mul. lia.
  - intros r Hr.
    match goal with
    | H : maybeMissingRating _ _ = (_, _) |- _ =>
      unfold maybeMissingRating in H;
      match type of H with context [rng ?x] => destruct (rng x) as [roll s'] end;
      destruct (Qltb roll (6 # 100)); injection H as <- <-; [discriminate|]
    end.
    injection Hr as <-. apply rounded_rating; apply clamp_between; discriminate.
Qed.

Lemma make_tours_shape m count i state g :
  In g (make_tours m count i state) ->
  3 <= stars g <= 5 /\
  currency g = u "RUB" /\
  price g mod 10 = 0 /\
  t_country_name g = d_name (m_destination m) /\
  flag_emoji g = d_flag (m_destination m) /\
  raw_seed g = m_seed m /\
  (forall r, t_rating g = Some r -> (3 <= r)%Q /\ (r <= 5)%Q).
Proof.
  revert i state. induction count as [|count IH]; intros i state; cbn [make_tours];
    [contradiction|].
  pose proof (make_tour_shape m i state) as Hf.
  destruct (make_tour m i state) as [tour state']. cbn [fst] in Hf.
  intros [<-|Hin]; [exact Hf|]. eapply IH; exact Hin.
Qed.

Lemma resolveDestination_in_table input : In (resolveDestination P input) DESTINATIONS.
Proof.
  unfold resolveDestination, resolveDestinationByText.
  repeat match goal with
         | |- context [match find ?f ?l with _ => _ end] =>
           let E := fresh "E" in destruct (find f l) eqn:E;
           [try (apply find_some in E; tauto)|]
         | |- context [match toFiniteNumber P ?v with _ => _ end] =>
           destruct (toFiniteNumber P v)
         | |- context [match normalizeText ?v with _ => _ end] =>
           destruct (normalizeText v)
         end; try (left; reflexivity).
Qed.

(** X26. Every returned tour has a hotel id between 1000 and 1100, three to
    five stars, a price in roubles that is a multiple of 10, the name and the
    flag of one of the six destinations of the table, the seed of the request
    in its raw record, and a rating that, when present, lies between 3 and
    5. *)
Theorem result_tour_shape clock input t :
  In t (results (mockSearchTours P clock input)) ->
  1000 <= hotel_id t <= 1100 /\
  3 <= stars t <= 5 /\
  currency t = u "RUB" /\
  price t mod 10 = 0 /\
  (exists d, In d DESTINATIONS /\ t_country_name t = d_name d /\ flag_emoji t = d_flag d) /\
  raw_seed t = makeSeedFromInput P input /\
  (forall r, t_rating t = Some r -> (3 <= r)%Q /\ (r <= 5)%Q).
Proof.
  intros H. apply results_from_filtered in H as (g & img & dbg & Hg & _ & ->).
  cbn [set_raw set_image hotel_id stars currency price t_country_name flag_emoji raw_seed
       t_rating].
  assert (Hid : 1000 <= hotel_id g <= 1100).
  { apply (in_map hotel_id) in Hg. revert Hg. unfold buildTours. open_pairs.
    rewrite make_tours_hotel_ids. intros Hg.
    apply in_map_iff in Hg as (k & <- & Hk). apply in_seq in Hk.
    match goal with
    | H : randomInt ?s 60 100 = (?z, _) |- _ =>
      pose proof (randomInt_range s 60 100 ltac:(lia)) as Hr; rewrite H in Hr; cbn [fst] in Hr
    end.
    lia. }
  split; [exact Hid|].
  revert Hg. unfold buildTours. open_pairs. intros Hg.
  apply make_tours_shape in Hg. cbn [m_destination m_seed] in Hg.
  destruct Hg as (H1 & H2 & H3 & H4 & H5 & H6 & H7).
  repeat (split; [assumption|]).
  split; [|split; [reflexivity|assumption]].
  exists (resolveDestination P input). split; [apply resolveDestination_in_table|].
  split; assumption.
Qed.

End Order.

Lemma pages_are_consecutive_witness :
  0 <= 0 /\ 0 < 1 /\ 0 < 2 /\ 1 + 2 <= 20 /\
  map bare (results (mockSearchTours Examples.small_platform (midnight 20600)
                       (with_page Examples.maldives_june 0 1))) ++
  map bare (results (mockSearchTours Examples.small_platform (midnight 20600)
                       (with_page Examples.maldives_june (0 + 1) 2)))
  = map bare (results (mockSearchTours Examples.small_platform (midnight 20600)
                         (with_page Examples.maldives_june 0 (1 + 2)))).
Proof.
  assert (H0 : 0 <= 0) by lia. assert (H1 : 0 < 1) by lia. assert (H2 : 0 < 2) by lia.
  assert (H3 : 1 + 2 <= 20) by lia.
  split; [exact H0|]. split; [exact H1|]. split; [exact H2|]. split; [exact H3|].
  exact (proj1 (pages_are_consecutive Examples.small_platform (midnight 20600)
                  Examples.maldives_june 0 1 2 H0 H1 H2 H3)).
Defined.

Lemma result_images_from_pool_witness :
  In Examples.cheapest_maldives
     (results (mockSearchTours Examples.small_platform (midnight 20600)
                 Examples.maldives_june)) /\
  exists img, image_url Examples.cheapest_maldives = Some img /\
              In img [u "maldives_01.jpg"; u "maldives_02.jpg"; u "maldives_03.jpg"].
Proof.
  assert (H : In Examples.cheapest_maldives
                (results (mockSearchTours Examples.small_platform (midnight 20600)
                            Examples.maldives_june)))
    by (vm_compute; left; reflexivity).
  split; [exact H|].
  apply (result_images_from_pool Examples.small_platform (midnight 20600)
           Examples.maldives_june Examples.cheapest_maldives H).
Defined.

Lemma page_images_distinct_witness :
  List.NoDup (getImagePool Examples.small_platform
                (d_slug (resolveDestination Examples.small_platform Examples.maldives_june))) /\
  List.NoDup (map image_url
                (results (mockSearchTours Examples.small_platform (midnight 20600)
                            Examples.maldives_june))).
Proof.
  assert (H : List.NoDup (getImagePool Examples.small_platform
                (d_slug (resolveDestination Examples.small_platform Examples.maldives_june)))).
  { vm_compute. repeat constructor; simpl; intuition discriminate. }
  assert (Hl : normalizeLimit Examples.small_platform (limit Examples.maldives_june)
               <= Z.of_nat (length (getImagePool Examples.small_platform
                    (d_slug (resolveDestination Examples.small_platform
                               Examples.maldives_june)))))
    by (vm_compute; discriminate).
  split; [exact H|].
  apply (page_images_distinct Examples.small_platform (midnight 20600)
           Examples.maldives_june H Hl).
Defined.

Lemma randomInt_bounds_witness :
  60 <= 100 /\ snd (rng 1) <> 4294967295 /\ snd (rng 1584200935) = 4294967295 /\
  60 <= fst (randomInt 1 60 100) <= 100 /\ fst (randomInt 1584200935 60 100) = 101.
Proof.
  assert (H : 60 <= 100) by lia.
  assert (H1 : snd (rng 1) <> 4294967295) by (vm_compute; discriminate).
  assert (H2 : snd (rng 1584200935) = 4294967295) by (vm_compute; reflexivity).
  split; [exact H|]. split; [exact H1|]. split; [exact H2|]. split.
  - apply (proj1 (randomInt_bounds 1 60 100 H) H1).
  - apply (proj2 (randomInt_bounds 1584200935 60 100 H) H2).
Defined.

Lemma result_tour_shape_witness :
  In Examples.cheapest_maldives
     (results (mockSearchTours Examples.small_platform (midnight 20600)
                 Examples.maldives_june)) /\
  1000 <= hotel_id Examples.cheapest_maldives <= 1100 /\
  3 <= stars Examples.cheapest_maldives <= 5.
Proof.
  assert (H : In Examples.cheapest_maldives
                (results (mockSearchTours Examples.small_platform (midnight 20600)
                            Examples.maldives_june)))
    by (vm_compute; left; reflexivity).
  split; [exact H|].
  destruct (result_tour_shape Examples.small_platform (midnight 20600)
              Examples.maldives_june Examples.cheapest_maldives H) as (H1 & H2 & _).
  split; assumption.
Defined.

Section Tables.
Variable P : Platform.

(** X27. The three tables of countries agree: every supported country has an
    id of its own, a label in the bot and a destination in the backend, and
    a search for its id is answered with tours of that country. *)
Theorem country_tables_agree (c : SupportedCountry) (input : MockInput) :
  Mock.country_id input = VNum (of_Z (COUNTRY_TO_ID c)) ->
  getMappedCountryId (Some (country_key c)) = Some (COUNTRY_TO_ID c) /\
  (forall c', COUNTRY_TO_ID c' = COUNTRY_TO_ID c -> c' = c) /\
  (exists label, COUNTRY_LABEL_BY_ID (of_Z (COUNTRY_TO_ID c)) = Some label) /\
  d_id (resolveDestination P input) = COUNTRY_TO_ID c /\
  d_name (resolveDestination P input) = country_key c.
Proof.
  intros Hid. split; [destruct c; reflexivity|].
  split; [intros c'; destruct c, c'; (reflexivity || discriminate)|].
  split; [destruct c; eexists; reflexivity|].
  unfold resolveDestination. rewrite Hid. destruct c; split; reflexivity.
Qed.

(** X28. The departure date of every result lies in the window of the
    request: it is the window's first day plus an offset between 0 and the
    window's length in days plus one (a window of no length counts as 21
    days). *)
Theorem result_dates_in_window (clock : Clock) (input : MockInput) (t : TourResult) :
  In t (results (mockSearchTours P clock input)) ->
  let first := fst (date_window P clock input) in
  let last := snd (date_window P clock input) in
  let days := Z.max 0 ((last - first) / MS_PER_DAY) in
  exists off,
    0 <= off <= (if 0 <? days then days else 21) + 1 /\
    t_date_from t = toIsoDate (addDays first off).
Proof.
  intros H. apply results_from_filtered in H as (g & img & dbg & Hg & _ & ->).
  apply buildTours_fields in Hg as [_ Hoff]. exact Hoff.
Qed.

End Tables.

Lemma country_tables_agree_witness :
  Mock.country_id Examples.maldives_june = VNum (of_Z (COUNTRY_TO_ID Maldives)) /\
  d_name (resolveDestination Examples.small_platform Examples.maldives_june)
  = country_key Maldives.
Proof.
  assert (H : Mock.country_id Examples.maldives_june = VNum (of_Z (COUNTRY_TO_ID Maldives)))
    by reflexivity.
  split; [exact H|].
  apply (country_tables_agree Examples.small_platform Maldives Examples.maldives_june H).
Defined.

Lemma result_dates_in_window_witness :
  In Examples.cheapest_maldives
     (results (mockSearchTours Examples.small_platform (midnight 20600)
                 Examples.maldives_june)) /\
  exists off,
    0 <= off <= 20 /\
    t_date_from Examples.cheapest_maldives = toIsoDate (addDays (20605 * MS_PER_DAY) off).
Proof.
  assert (H : In Examples.cheapest_maldives
                (results (mockSearchTours Examples.small_platform (midnight 20600)
                            Examples.maldives_june)))
    by (vm_compute; left; reflexivity).
  split; [exact H|].
  apply (result_dates_in_window Examples.small_platform (midnight 20600)
           Examples.maldives_june Examples.cheapest_maldives H).
Defined.

Section Pages.
Variable P : Platform.

Lemma offset_nonneg v : 0 <= normalizeOffset P v.
Proof.
  unfold normalizeOffset. destruct (toFiniteNumber P v) as [numeric|]; [|lia].
  destruct (Qltb numeric 0) eqn:E; [lia|].
  apply Qltb_ge in E. apply Qfloor_resp_le in E. exact E.
Qed.

(** X29. A page holds the matching tours from [offset] on, up to [limit] of
    them: its length is min(limit, matching - offset), or 0 when the offset
    is beyond the last matching tour. *)
Theorem page_length (clock : Clock) (input : MockInput) :
  Z.of_nat (length (results (mockSearchTours P clock input)))
  = Z.max 0 (Z.min (normalizeLimit P (limit input))
                   (matching P clock input - normalizeOffset P (offset input))).
Proof.
  rewrite length_results. unfold slice, matching.
  rewrite length_firstn, length_skipn, length_sort_tours.
  pose proof (limit_bounds P (limit input)). pose proof (offset_nonneg (offset input)). lia.
Qed.

(** The tour that the generator adds with eight nights (clamped into the
    range) passes every request that filters only the nights. *)
Lemma unfiltered_has_match clock input :
  unfiltered P input = true -> 1 <= matching P clock input.
Proof.
  intros Hu. unfold unfiltered in Hu.
  apply andb_prop in Hu as [Hu Hmeal]. apply andb_prop in Hu as [Hu Hrat].
  apply andb_prop in Hu as [Hmax Hmin].
  assert (Hg : exists g, In g (buildTours P clock input (makeSeedFromInput P input)) /\
                         keeps (filters_of P input) g = true).
  { unfold buildTours. open_pairs.
    match goal with
    | H : randomInt ?s 60 100 = (?z, _) |- _ =>
      pose proof (randomInt_range s 60 100 ltac:(lia)) as Hr; rewrite H in Hr; cbn [fst] in Hr
    end.
    match goal with
    | |- context [make_tours ?m ?n 0 ?s] =>
      destruct (make_tours_fifth m n 0 s ltac:(lia)) as (g & Hin & Hn)
    end.
    exists g. split; [exact Hin|]. cbn [m_nights] in Hn.
    destruct (nights_range_bounds P input) as (H1 & H2 & H3).
    unfold keeps. cbn [filters_of f_nights f_budgetMin f_budgetMax f_ratingMin f_meal].
    rewrite Hn. unfold clamp_int.
    destruct (Z.ltb_spec (Z.max (fst (resolveEffectiveNightsRange P input))
                            (Z.min (snd (resolveEffectiveNightsRange P input)) 8))
                (fst (resolveEffectiveNightsRange P input))); [lia|].
    destruct (Z.ltb_spec (snd (resolveEffectiveNightsRange P input))
                (Z.max (fst (resolveEffectiveNightsRange P input))
                   (Z.min (snd (resolveEffectiveNightsRange P input)) 8))); [lia|].
    unfold Qltb. rewrite Hmin, Hmax. cbn [negb andb].
    destruct (toFiniteNumber P (rating input)) as [r|]; [rewrite Hrat; cbn [negb andb]|];
      destruct (normalizeMealFilter P (meal input)); try discriminate; reflexivity. }
  destruct Hg as (g & Hin & Hkeep). unfold matching.
  assert (Hf : In g (List.filter (keeps (filters_of P input))
                       (buildTours P clock input (makeSeedFromInput P input))))
    by (apply filter_In; split; assumption).
  destruct (List.filter _ _) as [|x l]; [contradiction|]. cbn [length]. lia.
Qed.

(** X30. A request that filters nothing but the nights is answered with
    results on its first page, unless its country or destination name makes
    the alias lookup raise (as the name "constructor" does): the generator
    adds a tour of eight nights, clamped into the requested range, to every
    market. *)
Theorem unfiltered_request_has_results (clock : Clock) (input : MockInput) :
  (resolveDestination_throws P input = false ->
   unfiltered P input = true ->
   normalizeOffset P (offset input) = 0 ->
   1 <= normalizeLimit P (limit input) ->
   exists output, mockSearchTours_checked P clock input = Some output /\
                  results output <> []) /\
  mockSearchTours_checked P clock (named (u "constructor")) = None /\
  mockSearchTours_checked P clock (named (u " __PROTO__ ")) = None.
Proof.
  split; [|split; reflexivity].
  intros Hthrows Hu Hoff Hlim. unfold mockSearchTours_checked. rewrite Hthrows.
  eexists. split; [reflexivity|]. intros Hnil.
  apply (f_equal (fun l => Z.of_nat (length l))) in Hnil.
  rewrite length_results in Hnil. unfold slice in Hnil.
  rewrite length_firstn, length_skipn, length_sort_tours, Hoff in Hnil. cbn [length] in Hnil.
  pose proof (unfiltered_has_match clock input Hu) as Hm. unfold matching in Hm. lia.
Qed.

End Pages.

Lemma unfiltered_request_has_results_witness :
  resolveDestination_throws Examples.small_platform no_fields = false /\
  unfiltered Examples.small_platform no_fields = true /\
  normalizeOffset Examples.small_platform (offset no_fields) = 0 /\
  1 <= normalizeLimit Examples.small_platform (limit no_fields) /\
  exists output,
    mockSearchTours_checked Examples.small_platform (midnight 20600) no_fields = Some output /\
    results output <> [].
Proof.
  assert (H0 : resolveDestination_throws Examples.small_platform no_fields = false)
    by reflexivity.
  assert (H1 : unfiltered Examples.small_platform no_fields = true) by reflexivity.
  assert (H2 : normalizeOffset Examples.small_platform (offset no_fields) = 0) by reflexivity.
  assert (H3 : 1 <= normalizeLimit Examples.small_platform (limit no_fields))
    by (vm_compute; discriminate).
  split; [exact H0|]. split; [exact H1|]. split; [exact H2|]. split; [exact H3|].
  exact (proj1 (unfiltered_request_has_results Examples.small_platform (midnight 20600)
                  no_fields) H0 H1 H2 H3).
Defined.
